(* ===== verification/_CoqProject ===== *)
-Q . S2P
Prelude.v
Double.v
StdMap.v
BeamSpot.v
Histo.v
Fitter.v
Catalog.v
Cache.v
Scenario.v
Engine.v
Series.v
Spec.v
Frame.v
Normalizer.v
Names.v
Run.v
Display.v
Recorded.v
Walkthrough.v
