(* ===== verification/Prelude.v ===== *)
(** * Verification of the AlCa beam monitor (DQM/BeamMonitor/plugins/AlcaBeamMonitor.cc)

    The program is one CMSSW analyzer module.  Over a run it receives, from
    the framework, a stream of calls: the constructor, [bookHistograms] at
    begin of run, [globalBeginLuminosityBlock] when a luminosity block (an
    interval of data taking) opens, [analyze] once per event,
    [globalEndLuminosityBlock] when the block closes and [dqmEndRun] at the
    end.  It keeps up to four beam spot estimates per block (database "DB",
    online scalers "SC", track fit "BF", vertex fit "PV") in a string-keyed
    bag, samples primary vertices, and when a block closes it writes values
    and pairwise differences into a fixed catalog of histograms, one bin
    per block; at the end of the run it sets the display range of every
    per-block histogram from the extremes of what was written.

    ** Files, in dependency order

    - [Prelude] (this file): shared imports, the state monad [St] with its
      notations in [st_scope] (used where the code mutates locals through
      many calls), the tactics ([by_eval], [break_if], [break_match]), the
      hint databases [abm] and [abm_rw], generic lemmas on folds and
      duplicate-free lists.
    - [Double]: C++ [double] as the kernel's binary64 floats; the C++
      comparisons, [std::pow(x, 2)], the conversion from [int], and the
      order facts of IEEE comparison (irreflexive, transitive, false on
      NaN) derived from the float specification.
    - [StdMap]: [std::map<std::string, V>] and [std::multimap] as key-sorted
      association lists: [find], [operator[]] (which inserts a default),
      [insert], in-order traversal, with sortedness as invariant.
    - [BeamSpot]: the data: [reco::BeamSpot], the database payload
      [BeamSpotObjects], vertices, tracks, the vertex sample [pvPosAndErr],
      the cache object [BeamSpotInfo] of a block, and an event as the
      module reads it.
    - [Histo]: the object behind a [MonitorElement*]: booking, bins
      1..nbins with content and error, the entries passed to [Fill],
      stored minimum and maximum, axis range.
    - [Fitter]: the two fitting engines as type classes [BeamFitterOps] and
      [PVFitterOps] (make, read an event, run, get the beam spot, reset),
      with list-backed reference instances.
    - [Catalog]: the module state [Monitor] (one field per data member),
      the constructor [AlcaBeamMonitor] (variables, category multimap,
      container of null pointers) and [bookHistograms].
    - [Cache]: [globalBeginLuminosityBlock] (the bag of a block and the
      translation of the database payload) and [analyze] (fitters, track
      histograms, vertex selection, scaler beam spot), with faults as
      values of [Result].
    - [Scenario]: the data of the worked example (block 5).
    - [Engine]: [globalEndLuminosityBlock]: [run_fitters], the projection
      [build_resultsMap], [build_vertexResults], the sixteen-way
      [dispatch], the loops [fill_category], [endLumi_var], [endLumi_vars].
      The category loop is written in the state monad over [Loc]
      ([resultsMap] and the container) and proved equal to a fold of the
      pure step [cat_step], whose effect on a histogram is [cat_effect].
    - [Series]: what each kind of category holds after a block closes.
    - [Spec]: the table of the sixteen categories as formulas over the
      four sources ([table1], [spec_effect]); this is the abstract
      specification of the loop, written from the documentation and not
      from the code.
    - [Frame]: what closing a block leaves alone.
    - [Normalizer]: [dqmEndRun]: sort, scan ([scan_scope]), bounds
      ([set_bounds]), axis range.
    - [Names]: the category names of the constructor, of the chain of
      comparisons of [globalEndLuminosityBlock] and of the loops of
      [dqmEndRun], compared.
    - [Run]: the framework's transitions as [Call], their dispatch [call]
      and sequences [run]; invariants over every sequence; one block from
      opening to closing.
    - [Display]: the equivalences that forget the display settings of the
      histograms ([same_data], [hm_equiv]) and the order of the recorded
      blocks ([mon_equiv]), with the handlers as morphisms.
    - [Recorded]: the invariant of the reachable states that ties the bins
      of the histograms to [processedLumis_] ([recorded]).
    - [Walkthrough]: a run of three blocks evaluated by the kernel, on
      which the theorems of [Run], [Cache] and [Normalizer] are
      instantiated.

    ** Conventions

    Every [double] is a binary64 float and every operation on it is the
    kernel's IEEE operation, so instances evaluate with [vm_compute] to the
    bits the C++ computes (round to nearest even, no fast-math).
    [std::pow(x, 2)] is [x * x].  Block numbers and cache indices are [Z].
    A [MonitorElement*] is [option Histo]; [None] is [nullptr].  A
    dereference of a null pointer is a fault: [analyze] and
    [globalEndLuminosityBlock] return [Result Monitor].  All recursion is
    structural (lists of events, categories, bins); no fuel is used: every
    loop of the source runs over a container or over the bins of a
    histogram.  The loop over bins runs over [bins h], the numbers
    1..[GetNbinsX h]; the histograms of the module have at most 3000 bins,
    so the [int] counter of the source stays far from its range.  The
    per-block histograms are booked with 3000 bins as in the source.

    ** What the theorems show

    - [Catalog]: which entries of the catalog are booked and which stay
      null, the iteration order of the category multimap, the binning of
      the per-block histograms, sortedness of the container.
    - [Cache]: the three outcomes of opening a block, the values of the
      translated database entry, the vertex selection, the outcomes of
      [analyze] fault by fault, that each bag is sampled by the events of
      its own block whatever the interleaving, that the first scaler record
      of a block decides its online beam spot.
    - [Series]: the bin a value series and a difference series hold
      (difference and quadrature sum of errors), the gap when a source is
      missing, the entries of the per-run distributions, that a per-vertex
      series keeps the last sampled vertex only, and that a database entry
      which is not of type Tracker enters the later categories as zero
      through [operator[]] in the "Coordinate" branch.
    - [Spec]: refinement: when the database entry of a block is of type
      Tracker or absent, the loop leaves in every booked entry exactly
      what the formula of its category prescribes ([spec_effect]), as a
      function of the projected sources and the sampled vertices; the
      reads and insertions through [resultsMap] are then unobservable.
    - [Frame]: closing a block touches at most the block's own bin and
      appends entries; bookings, display settings and null entries stay;
      a block whose number is no bin of a series leaves its bins alone.
    - [Normalizer]: the scanned extremes enclose every populated bin, the
      padded bounds (factor 0.1 and 2), the fallback, the axis range from
      the least and greatest processed block, and that no data is changed.
    - [Run]: the constructor's variables and categories and the
      well-formedness of the container are invariants of every sequence of
      calls; [processedLumis_] is a permutation of the blocks closed; one
      block run end to end gives the difference of fit and database in its
      bin; a throwing conditions lookup leads to a fault at the next use;
      the fit stored at a closing is computed from the events of all open
      blocks; the payload of the database is read back from the block's
      bin; [processedLumis_] outlives the run, so the axis range of a later
      run spans the blocks of the earlier ones.
    - [Names]: every inserted category has a branch in the chain of
      [globalEndLuminosityBlock] and conversely, and the per-block
      categories are the names of the two groups of [dqmEndRun]: no name
      reaches a branch that only logs.
    - [Display]: whatever follows the end of a run behaves as if the run
      had not ended, up to display settings and the order of the recorded
      blocks; [Normalizer] and [Engine] show that the end of the run does
      not depend on the order of closing, nor the vertex values of a block
      on the order of its events (up to their order).
    - [Recorded]: in every state reached from the constructor, a series
      holds no entry made through [Fill] and each of its populated bins is
      the number of a closed block; hence the axis range set at the end of
      the run contains every recorded bin.

    ** Abstractions and what is not modelled

    The histogram model keeps the entries passed to [Fill] as a list and
    does not bin them, so nothing the theorems say of bins holds of a
    distribution in ROOT; the series and the distributions are disjoint
    histograms ([Recorded] shows that a series is never filled).  Writes
    to bins outside 1..nbins are dropped: ROOT stores bin 0 and bin
    nbins+1 as under- and overflow, which the module never reads (its only
    reads are the loop over 1..nbins of [dqmEndRun]), and leaves the bins
    1..nbins alone in either case.  [GetMinimum] and [GetMaximum] return
    the stored value, else the least or greatest content over the bins.
    Block numbers and [processedLumis_] are unbounded integers; the source
    narrows the unsigned block number to [int].  The framework releases
    the cache object of a block after its closing; the model keeps it, and
    no handler reads it again.  In [analyze] the handle of the track
    collection is taken to be valid, and the two fills of the track loop
    fault together when either histogram is null.  A fault is final: the
    state at a fault (in [analyze] the fitters have already read the
    event) is not observable.  The fitters are an interface: their
    numerics are outside this source file.  Threads are not modelled: the
    framework's calls are a sequence, in which several blocks may be open
    at a time.  [fillDescriptions], module registration and the message
    logger calls do not change the state and are left out. *)

From Stdlib Require Export ZArith List Bool Lia.
From Stdlib Require Export String Ascii.
From stdpp Require Export base tactics option list.
Export ListNotations.

(** ** The state monad: code that mutates locals *)

Declare Scope st_scope.
Delimit Scope st_scope with st.

Definition St (S A : Type) : Type := S -> A * S.

Definition ret {S A : Type} (a : A) : St S A := fun s => (a, s).

Definition bind {S A B : Type} (m : St S A) (k : A -> St S B) : St S B :=
  fun s => let (a, s') := m s in k a s'.

Definition get {S : Type} : St S S := fun s => (s, s).

Definition put {S : Type} (s : S) : St S unit := fun _ => (tt, s).

Definition modify {S : Type} (f : S -> S) : St S unit := fun s => (tt, f s).

Definition exec {S A : Type} (m : St S A) (s : S) : S := snd (m s).

Definition eval {S A : Type} (m : St S A) (s : S) : A := fst (m s).

Notation "'let*' x ':=' m 'in' k" := (bind m (fun x => k))
  (at level 10, x name, m at level 100, k at level 200, only parsing) : st_scope.
Notation "m ;; k" := (bind m (fun _ => k))
  (at level 100, k at level 200, right associativity, only parsing) : st_scope.

(** [for (x : l) body]: the body runs once per element, in list order. *)
Fixpoint for_each {S A : Type} (l : list A) (body : A -> St S unit) : St S unit :=
  match l with
  | [] => ret tt
  | x :: l' => bind (body x) (fun _ => for_each l' body)
  end.

(** C++ [if (c) { body }] with no else. *)
Definition when {S : Type} (c : bool) (body : St S unit) : St S unit :=
  if c then body else ret tt.

(** ** Tactics *)

(** Case analysis on the first [if] or [match] scrutinee of the goal. *)
Ltac break_if :=
  match goal with
  | |- context [if ?c then _ else _] =>
      let E := fresh "E" in destruct c eqn:E
  end.

Ltac break_match :=
  match goal with
  | |- context [match ?c with _ => _ end] =>
      let E := fresh "E" in destruct c eqn:E
  end.

(** Splits on the first comparison of the string [cat] with a name; in
    the first case [cat] is replaced by the name. *)
Ltac case_name cat :=
  match goal with
  | |- context [String.eqb cat ?name] =>
      destruct (String.eqb_spec cat name) as [->|_]
  end.

(** Unfold the monad down to pairs. *)
Ltac st_unfold := unfold exec, eval, when, bind, ret, get, put, modify in *.

(** [abm]: resolution hints for [auto]/[eauto]; [abm_rw]: rewrite rules for
    [autorewrite]. *)
(** Closes a goal about concrete data by evaluation. *)
Ltac by_eval :=
  vm_compute; first [ reflexivity | tauto | intuition discriminate ].

Create HintDb abm discriminated.
Create Rewrite HintDb abm_rw.

(** ** Monad laws, pointwise *)

Section StLaws.
Context {S A B C : Type}.

Lemma bind_ret_l (a : A) (k : A -> St S B) (s : S) : bind (ret a) k s = k a s.
Proof. reflexivity. Qed.

Lemma bind_ret_r (m : St S A) (s : S) : bind m ret s = m s.
Proof. unfold bind, ret. destruct (m s); reflexivity. Qed.

Lemma bind_assoc (m : St S A) (k : A -> St S B) (h : B -> St S C) (s : S) :
  bind (bind m k) h s = bind m (fun a => bind (k a) h) s.
Proof. unfold bind. destruct (m s); reflexivity. Qed.

Lemma exec_bind (m : St S A) (k : A -> St S B) (s : S) :
  exec (bind m k) s = exec (k (eval m s)) (exec m s).
Proof. unfold exec, eval, bind. destruct (m s); reflexivity. Qed.

Lemma eval_bind (m : St S A) (k : A -> St S B) (s : S) :
  eval (bind m k) s = eval (k (eval m s)) (exec m s).
Proof. unfold exec, eval, bind. destruct (m s); reflexivity. Qed.

Lemma exec_modify (f : S -> S) (s : S) : exec (modify f) s = f s.
Proof. reflexivity. Qed.

Lemma exec_ret (a : A) (s : S) : exec (ret a) s = s.
Proof. reflexivity. Qed.

End StLaws.

#[export] Hint Rewrite @exec_bind @eval_bind @exec_modify @exec_ret : abm_rw.

(** ** Loops *)

Section ForEach.
Context {S A : Type}.

Lemma for_each_app (l1 l2 : list A) (body : A -> St S unit) (s : S) :
  exec (for_each (l1 ++ l2) body) s
  = exec (for_each l2 body) (exec (for_each l1 body) s).
Proof.
  revert s. induction l1 as [|x l1 IH]; intros s; simpl; [reflexivity|].
  rewrite !exec_bind. apply IH.
Qed.

(** A loop is the left fold of its body's effect. *)
Lemma for_each_fold (l : list A) (body : A -> St S unit) (s : S) :
  exec (for_each l body) s = fold_left (fun s x => exec (body x) s) l s.
Proof.
  revert s. induction l as [|x l IH]; intros s; simpl; [reflexivity|].
  rewrite exec_bind. apply IH.
Qed.

(** Invariant rule for loops. *)
Lemma for_each_invariant (P : S -> Prop) (l : list A) (body : A -> St S unit) :
  (forall x s, In x l -> P s -> P (exec (body x) s)) ->
  forall s, P s -> P (exec (for_each l body) s).
Proof.
  induction l as [|x l IH]; intros Hstep s Hs; simpl; [exact Hs|].
  rewrite exec_bind. apply IH.
  - intros y s' Hy. apply Hstep. right. exact Hy.
  - apply Hstep; [left; reflexivity | exact Hs].
Qed.

End ForEach.

(** ** Folds *)

Section Folds.
Context {A B : Type}.

Lemma fold_left_invariant (P : B -> Prop) (f : B -> A -> B) (l : list A) :
  (forall b x, In x l -> P b -> P (f b x)) ->
  forall b, P b -> P (fold_left f l b).
Proof.
  induction l as [|x l IH]; intros Hstep b Hb; simpl; [exact Hb|].
  apply IH.
  - intros b' y Hy. apply Hstep. right. exact Hy.
  - apply Hstep; [left; reflexivity | exact Hb].
Qed.

Lemma fold_left_id (f : B -> A -> B) (l : list A) (b : B) :
  (forall b x, In x l -> f b x = b) -> fold_left f l b = b.
Proof.
  induction l as [|x l IH]; intros H; simpl; [reflexivity|].
  rewrite H by (left; reflexivity). apply IH.
  intros b' y Hy. apply H. right. exact Hy.
Qed.

End Folds.

(** ** Lists without duplicates *)

Section NoDupSplit.
Context {A : Type}.

(** An element of a duplicate-free list splits it into the part before and
    the part after, neither of which holds the element. *)
Lemma NoDup_split (x : A) (l : list A) :
  NoDup l -> In x l ->
  exists l1 l2, l = l1 ++ x :: l2 /\ ~ In x l1 /\ ~ In x l2.
Proof.
  intros Hnd Hin. destruct (in_split x l Hin) as (l1 & l2 & ->).
  exists l1, l2. split; [reflexivity|].
  apply NoDup_app in Hnd as (_ & Hdisj & Hnd). apply NoDup_cons in Hnd as [Hx _].
  rewrite <- !list_elem_of_In. split; [|exact Hx].
  intros Hx1. apply (Hdisj x Hx1). left.
Qed.

End NoDupSplit.
