(* ===== verification/Double.v ===== *)
(** * Double: C++ [double] as IEEE binary64

    Every [double] of the module is a kernel float; [+], [-], [*], [sqrt]
    and the comparisons are the primitive IEEE operations (round to nearest
    even), so a definition evaluated by [vm_compute] yields the bits the
    compiled C++ yields.  This file gives the C++ operators their names,
    and derives from the kernel's specification of the comparisons the order
    facts the rest of the development uses: [<] is irreflexive, asymmetric
    and transitive, and every comparison with a NaN operand is false. *)

From Stdlib Require Export Floats.
From S2P Require Import Prelude.

#[export] Set Warnings "-inexact-float".

Abbreviation double := float (only parsing).

(** ** The C++ operators *)

(** [a != b]: true when either operand is a NaN. *)
Definition dne (a b : double) : bool := negb (a =? b)%float.

(** [a > b] *)
Definition dgt (a b : double) : bool := (b <? a)%float.

(** [std::pow(x, 2)] *)
Definition pow2 (x : double) : double := (x * x)%float.

(** [std::sqrt(std::pow(a, 2) + std::pow(b, 2))]: the error of a difference. *)
Definition quad_sum (a b : double) : double := sqrt (pow2 a + pow2 b)%float.

(** [x != x] holds exactly of the NaNs. *)
Definition is_nan (x : double) : bool := negb (x =? x)%float.

(** Conversion of a (signed) [int] to [double]; exact below 2^53. *)
Definition of_int (z : Z) : double :=
  match z with
  | Z0 => 0%float
  | Zpos _ => of_uint63 (Uint63.of_Z z)
  | Zneg p => (- of_uint63 (Uint63.of_Z (Zpos p)))%float
  end.

(** ** Order facts on the specification floats *)

Section SpecOrder.

Local Ltac cmp_cases :=
  repeat match goal with
    | H : context [Z.compare ?a ?b] |- _ => destruct (Z.compare_spec a b)
    | |- context [Z.compare ?a ?b] => destruct (Z.compare_spec a b)
    | H : context [Pos.compare_cont Eq ?a ?b] |- _ =>
        change (Pos.compare_cont Eq a b) with (Pos.compare a b) in H;
        destruct (Pos.compare_spec a b)
    | |- context [Pos.compare_cont Eq ?a ?b] =>
        change (Pos.compare_cont Eq a b) with (Pos.compare a b);
        destruct (Pos.compare_spec a b)
    end.

Local Ltac sf_crush :=
  simpl in *; try discriminate; try reflexivity;
  cmp_cases; simpl in *; try discriminate; try reflexivity; try lia.

Lemma SFcompare_lt_trans (a b c : spec_float) :
  SFcompare a b = Some Lt -> SFcompare b c = Some Lt -> SFcompare a c = Some Lt.
Proof.
  destruct a as [[]|[]| |[] ma ea], b as [[]|[]| |[] mb eb], c as [[]|[]| |[] mc ec];
    intros Hab Hbc; sf_crush.
Qed.

Lemma SFcompare_lt_irrefl (a : spec_float) : SFcompare a a <> Some Lt.
Proof. destruct a as [[]|[]| |[] ma ea]; sf_crush. Qed.

Lemma SFcompare_lt_asym (a b : spec_float) :
  SFcompare a b = Some Lt -> SFcompare b a = Some Gt.
Proof.
  destruct a as [[]|[]| |[] ma ea], b as [[]|[]| |[] mb eb]; intros Hab; sf_crush.
Qed.

Lemma SFcompare_eq_sym (a b : spec_float) :
  SFcompare a b = Some Eq -> SFcompare b a = Some Eq.
Proof.
  destruct a as [[]|[]| |[] ma ea], b as [[]|[]| |[] mb eb]; intros Hab; sf_crush.
Qed.

Lemma SFcompare_refl (a : spec_float) :
  SFcompare a a = None \/ SFcompare a a = Some Eq.
Proof.
  destruct a as [[]|[]| |[] ma ea]; simpl; auto;
    rewrite Z.compare_refl; change (Pos.compare_cont Eq ma ma) with (Pos.compare ma ma);
    rewrite Pos.compare_refl; auto.
Qed.

(** Two comparable floats are ordered one way or the other. *)
Lemma SFcompare_total (a b : spec_float) :
  SFcompare a a = Some Eq -> SFcompare b b = Some Eq ->
  SFcompare a b = Some Lt \/ SFcompare a b = Some Eq \/ SFcompare b a = Some Lt.
Proof.
  destruct a as [[]|[]| |[] ma ea], b as [[]|[]| |[] mb eb]; intros Ha Hb;
    simpl in *; try discriminate; auto; cmp_cases; simpl; auto; lia.
Qed.

End SpecOrder.

(** ** Order facts on [double] *)

Section DoubleOrder.
Implicit Types x y z : double.

Local Ltac to_spec :=
  rewrite ?ltb_spec, ?FloatAxioms.eqb_spec in *; unfold SFltb, SFeqb in *.

Lemma ltb_Lt x y : (x <? y)%float = true <-> SFcompare (Prim2SF x) (Prim2SF y) = Some Lt.
Proof.
  to_spec. destruct (SFcompare _ _) as [[]|]; split; congruence.
Qed.

Lemma eqb_Eq x y : (x =? y)%float = true <-> SFcompare (Prim2SF x) (Prim2SF y) = Some Eq.
Proof.
  to_spec. destruct (SFcompare _ _) as [[]|]; split; congruence.
Qed.

Lemma ltb_irrefl x : (x <? x)%float = false.
Proof.
  destruct (x <? x)%float eqn:E; [|reflexivity].
  apply ltb_Lt in E. exfalso. exact (SFcompare_lt_irrefl _ E).
Qed.

Lemma ltb_trans x y z :
  (x <? y)%float = true -> (y <? z)%float = true -> (x <? z)%float = true.
Proof. rewrite !ltb_Lt. apply SFcompare_lt_trans. Qed.

Lemma ltb_asym x y : (x <? y)%float = true -> (y <? x)%float = false.
Proof.
  intros H. apply ltb_Lt, SFcompare_lt_asym in H.
  to_spec. rewrite H. reflexivity.
Qed.

Lemma ltb_not_eqb x y : (x <? y)%float = true -> (x =? y)%float = false.
Proof. intros H. apply ltb_Lt in H. to_spec. rewrite H. reflexivity. Qed.

Lemma eqb_sym x y : (x =? y)%float = (y =? x)%float.
Proof.
  destruct (x =? y)%float eqn:E1, (y =? x)%float eqn:E2; try reflexivity.
  - apply eqb_Eq, SFcompare_eq_sym, eqb_Eq in E1. congruence.
  - apply eqb_Eq, SFcompare_eq_sym, eqb_Eq in E2. congruence.
Qed.

(** A NaN operand makes [<] false on either side. *)
Lemma is_nan_spec x : is_nan x = true <-> SFcompare (Prim2SF x) (Prim2SF x) = None.
Proof.
  unfold is_nan. rewrite negb_true_iff. to_spec.
  destruct (SFcompare_refl (Prim2SF x)) as [H|H]; rewrite H; split; congruence.
Qed.

Lemma SFcompare_nan_l (a b : spec_float) : SFcompare a a = None -> SFcompare a b = None.
Proof. destruct a as [[]|[]| |[] ma ea]; simpl; try discriminate; reflexivity. Qed.

Lemma SFcompare_nan_r (a b : spec_float) : SFcompare a a = None -> SFcompare b a = None.
Proof.
  destruct a as [[]|[]| |[] ma ea]; simpl; try discriminate.
  intros _. destruct b as [[]|[]| |[]]; reflexivity.
Qed.

Lemma ltb_nan_l x y : is_nan x = true -> (x <? y)%float = false.
Proof.
  intros H. apply is_nan_spec in H. to_spec.
  rewrite (SFcompare_nan_l _ (Prim2SF y) H). reflexivity.
Qed.

Lemma ltb_nan_r x y : is_nan y = true -> (x <? y)%float = false.
Proof.
  intros H. apply is_nan_spec in H. to_spec.
  rewrite (SFcompare_nan_r _ (Prim2SF x) H). reflexivity.
Qed.

(** Two non-NaN doubles are ordered or equal. *)
Lemma ltb_total x y :
  is_nan x = false -> is_nan y = false ->
  (x <? y)%float = true \/ (x =? y)%float = true \/ (y <? x)%float = true.
Proof.
  unfold is_nan. rewrite !negb_false_iff, !ltb_Lt, !eqb_Eq. apply SFcompare_total.
Qed.

Lemma dgt_irrefl x : dgt x x = false.
Proof. apply ltb_irrefl. Qed.

Lemma dne_sym x y : dne x y = dne y x.
Proof. unfold dne. rewrite eqb_sym. reflexivity. Qed.

End DoubleOrder.

#[export] Hint Resolve ltb_irrefl ltb_asym ltb_trans ltb_not_eqb : abm.
#[export] Hint Rewrite ltb_irrefl dgt_irrefl : abm_rw.
