(* ===== verification/StdMap.v ===== *)
(** * StdMap: [std::map<std::string, V>] and [std::multimap<std::string, V>]

    The module keeps its histograms in nested [std::map]s and its category
    table in a [std::multimap], and it iterates over both: the order of
    iteration is the order of the keys ([std::string::operator<], bytewise
    lexicographic).  A map is therefore modelled as the list of its entries
    in iteration order.  [sm_find] is [find], [sm_insert] is
    [m[k] = v], [sm_at] is [operator[]] used as an rvalue (it inserts a
    value-initialised entry when the key is absent), [sm_alter] is an update
    through the reference [operator[]] returns, and [mm_insert] is
    [multimap::insert], which places the new entry after the entries with an
    equal key. *)

From Stdlib Require OrderedTypeEx.
From S2P Require Import Prelude.

(** ** The order on keys *)

Section KeyOrder.
Implicit Types k : string.

Lemma compare_refl k : String.compare k k = Eq.
Proof.
  pose proof (String.compare_antisym k k) as H.
  destruct (String.compare k k); simpl in H; congruence.
Qed.

Lemma compare_Eq k1 k2 : String.compare k1 k2 = Eq <-> k1 = k2.
Proof.
  split; [apply String.compare_eq_iff | intros ->; apply compare_refl].
Qed.

Lemma compare_Gt_Lt k1 k2 : String.compare k1 k2 = Gt <-> String.compare k2 k1 = Lt.
Proof.
  rewrite (String.compare_antisym k2 k1).
  destruct (String.compare k1 k2); simpl; split; congruence.
Qed.

Lemma compare_Lt_trans k1 k2 k3 :
  String.compare k1 k2 = Lt -> String.compare k2 k3 = Lt -> String.compare k1 k3 = Lt.
Proof.
  rewrite !OrderedTypeEx.String_as_OT.cmp_lt.
  apply OrderedTypeEx.String_as_OT.lt_trans.
Qed.

Lemma compare_Lt_neq k1 k2 : String.compare k1 k2 = Lt -> k1 <> k2.
Proof. intros H ->. rewrite compare_refl in H. discriminate. Qed.

Lemma str_ltb_Lt k1 k2 : String.ltb k1 k2 = true <-> String.compare k1 k2 = Lt.
Proof. unfold String.ltb. destruct (String.compare k1 k2); split; congruence. Qed.

Lemma eqb_compare k1 k2 :
  String.eqb k1 k2 = match String.compare k1 k2 with Eq => true | _ => false end.
Proof.
  destruct (String.eqb_spec k1 k2) as [->|Hne].
  - rewrite compare_refl. reflexivity.
  - destruct (String.compare k1 k2) eqn:E; try reflexivity.
    apply compare_Eq in E. contradiction.
Qed.

End KeyOrder.

(** ** Maps *)

Section Map.
Context {V : Type}.
Implicit Types (k : string) (v : V) (m : list (string * V)).

(** [m.find(k)]: [None] is [m.end()]. *)
Fixpoint sm_find k m : option V :=
  match m with
  | [] => None
  | (k', v) :: m' => if String.eqb k k' then Some v else sm_find k m'
  end.

(** [m.find(k) != m.end()] *)
Definition sm_mem k m : bool :=
  match sm_find k m with Some _ => true | None => false end.

(** [m[k] = v] *)
Fixpoint sm_insert k v m : list (string * V) :=
  match m with
  | [] => [(k, v)]
  | (k', v') :: m' =>
      match String.compare k k' with
      | Lt => (k, v) :: m
      | Eq => (k, v) :: m'
      | Gt => (k', v') :: sm_insert k v m'
      end
  end.

(** [m[k]] as an rvalue: the value, and the map with the entry it may have
    created ([d] is the value-initialised [V]). *)
Definition sm_at (d : V) k m : V * list (string * V) :=
  match sm_find k m with
  | Some v => (v, m)
  | None => (d, sm_insert k d m)
  end.

(** Update of an existing entry in place (a write through a reference or
    through the pointer the entry holds). *)
Fixpoint sm_alter (f : V -> V) k m : list (string * V) :=
  match m with
  | [] => []
  | (k', v) :: m' =>
      if String.eqb k k' then (k', f v) :: m' else (k', v) :: sm_alter f k m'
  end.

Definition sm_keys m : list string := map fst m.

(** Keys strictly increasing: the representation invariant of [std::map]. *)
Fixpoint sm_sorted m : bool :=
  match m with
  | [] => true
  | (k, _) :: m' =>
      match m' with
      | [] => true
      | (k', _) :: _ => String.ltb k k' && sm_sorted m'
      end
  end.

(** Keys non-decreasing: the representation invariant of [std::multimap]. *)
Fixpoint mm_sorted m : bool :=
  match m with
  | [] => true
  | (k, _) :: m' =>
      match m' with
      | [] => true
      | (k', _) :: _ => negb (String.ltb k' k) && mm_sorted m'
      end
  end.

(** [mm.insert({k, v})]: at the upper bound of [k]. *)
Fixpoint mm_insert k v m : list (string * V) :=
  match m with
  | [] => [(k, v)]
  | (k', v') :: m' =>
      if String.ltb k k' then (k, v) :: m else (k', v') :: mm_insert k v m'
  end.

(** [mm.equal_range(k)]: the values under [k], in iteration order. *)
Definition mm_range k m : list V :=
  map snd (List.filter (fun e => String.eqb k (fst e)) m).

(** ** Lookup after update *)

Lemma sm_find_insert k k' v m :
  sm_find k' (sm_insert k v m) = if String.eqb k' k then Some v else sm_find k' m.
Proof.
  induction m as [|[k0 v0] m IH]; simpl.
  - destruct (String.eqb k' k); reflexivity.
  - destruct (String.compare k k0) eqn:E; simpl.
    + apply compare_Eq in E. subst k0. destruct (String.eqb k' k); reflexivity.
    + destruct (String.eqb k' k); reflexivity.
    + rewrite IH. destruct (String.eqb_spec k' k0) as [->|]; [|reflexivity].
      rewrite eqb_compare, (proj1 (compare_Gt_Lt _ _) E). reflexivity.
Qed.

Lemma sm_find_insert_eq k v m : sm_find k (sm_insert k v m) = Some v.
Proof. rewrite sm_find_insert, String.eqb_refl. reflexivity. Qed.

Lemma sm_find_insert_ne k k' v m :
  k' <> k -> sm_find k' (sm_insert k v m) = sm_find k' m.
Proof.
  intros H. rewrite sm_find_insert.
  destruct (String.eqb_spec k' k); [contradiction | reflexivity].
Qed.

Lemma sm_find_alter f k k' m :
  sm_find k' (sm_alter f k m)
  = if String.eqb k' k then option_map f (sm_find k' m) else sm_find k' m.
Proof.
  induction m as [|[k0 v0] m IH]; simpl.
  - destruct (String.eqb k' k); reflexivity.
  - destruct (String.eqb_spec k k0) as [->|Hk]; simpl.
    + destruct (String.eqb k' k0); reflexivity.
    + rewrite IH. destruct (String.eqb_spec k' k0) as [->|]; [|reflexivity].
      destruct (String.eqb_spec k0 k); [congruence | reflexivity].
Qed.

Lemma sm_find_alter_eq f k m :
  sm_find k (sm_alter f k m) = option_map f (sm_find k m).
Proof. rewrite sm_find_alter, String.eqb_refl. reflexivity. Qed.

Lemma sm_find_alter_ne f k k' m :
  k' <> k -> sm_find k' (sm_alter f k m) = sm_find k' m.
Proof.
  intros H. rewrite sm_find_alter.
  destruct (String.eqb_spec k' k); [contradiction | reflexivity].
Qed.

Lemma sm_keys_alter f k m : sm_keys (sm_alter f k m) = sm_keys m.
Proof.
  induction m as [|[k0 v0] m IH]; simpl; [reflexivity|].
  destruct (String.eqb k k0); simpl; [reflexivity|].
  f_equal. exact IH.
Qed.

Lemma sm_alter_absent f k m : sm_find k m = None -> sm_alter f k m = m.
Proof.
  induction m as [|[k0 v0] m IH]; simpl; [reflexivity|].
  destruct (String.eqb k k0); [discriminate|].
  intros H. rewrite IH by exact H. reflexivity.
Qed.

Lemma sm_alter_ext f g k m : (forall v, f v = g v) -> sm_alter f k m = sm_alter g k m.
Proof.
  intros Hfg. induction m as [|[k0 v0] m IH]; simpl; [reflexivity|].
  destruct (String.eqb k k0); [rewrite Hfg | rewrite IH]; reflexivity.
Qed.

Lemma sm_alter_id f k m : (forall v, f v = v) -> sm_alter f k m = m.
Proof.
  intros Hf. induction m as [|[k0 v0] m IH]; simpl; [reflexivity|].
  destruct (String.eqb k k0); [rewrite Hf | rewrite IH]; reflexivity.
Qed.

Lemma sm_alter_compose f g k m :
  sm_alter g k (sm_alter f k m) = sm_alter (fun v => g (f v)) k m.
Proof.
  induction m as [|[k0 v0] m IH]; simpl; [reflexivity|].
  destruct (String.eqb k k0) eqn:E; simpl; rewrite E; [reflexivity|].
  rewrite IH. reflexivity.
Qed.

Lemma sm_find_In k v m : sm_find k m = Some v -> In (k, v) m.
Proof.
  induction m as [|[k0 v0] m IH]; simpl; [discriminate|].
  destruct (String.eqb_spec k k0) as [->|].
  - intros [= ->]. left. reflexivity.
  - intros H. right. apply IH. exact H.
Qed.

Lemma sm_find_keys k m : sm_find k m <> None <-> In k (sm_keys m).
Proof.
  induction m as [|[k0 v0] m IH]; simpl; [tauto|].
  destruct (String.eqb_spec k k0) as [->|Hne].
  - split; [left; reflexivity | discriminate].
  - rewrite IH. split; [tauto | intros [->|]; [contradiction | assumption]].
Qed.

(** ** [operator[]] *)

Lemma sm_at_present d k v m : sm_find k m = Some v -> sm_at d k m = (v, m).
Proof. unfold sm_at. intros ->. reflexivity. Qed.

Lemma sm_at_absent d k m :
  sm_find k m = None -> sm_at d k m = (d, sm_insert k d m).
Proof. unfold sm_at. intros ->. reflexivity. Qed.

(** After [m[k]] the key is present, whatever the map held before. *)
Lemma sm_at_find d k m :
  sm_find k (snd (sm_at d k m)) = Some (fst (sm_at d k m)).
Proof.
  unfold sm_at. destruct (sm_find k m) eqn:E; simpl; [exact E|].
  apply sm_find_insert_eq.
Qed.

(** ** Sortedness *)

Lemma sm_sorted_cons2 k v k' v' m :
  sm_sorted ((k, v) :: (k', v') :: m) = String.ltb k k' && sm_sorted ((k', v') :: m).
Proof. reflexivity. Qed.

Lemma mm_sorted_cons2 k v k' v' m :
  mm_sorted ((k, v) :: (k', v') :: m) = negb (String.ltb k' k) && mm_sorted ((k', v') :: m).
Proof. reflexivity. Qed.

Lemma sm_sorted_tail k v m : sm_sorted ((k, v) :: m) = true -> sm_sorted m = true.
Proof.
  destruct m as [|[k' v'] m]; [reflexivity|].
  rewrite sm_sorted_cons2. intros H. apply andb_true_iff in H. tauto.
Qed.

Lemma mm_sorted_tail k v m : mm_sorted ((k, v) :: m) = true -> mm_sorted m = true.
Proof.
  destruct m as [|[k' v'] m]; [reflexivity|].
  rewrite mm_sorted_cons2. intros H. apply andb_true_iff in H. tauto.
Qed.

(** Every key behind the head of a sorted map is greater than the head. *)
Lemma sm_sorted_head_lt k v m k' :
  sm_sorted ((k, v) :: m) = true -> In k' (sm_keys m) -> String.compare k k' = Lt.
Proof.
  revert k v. induction m as [|[k1 v1] m IH]; intros k v Hs Hin; [destruct Hin|].
  rewrite sm_sorted_cons2 in Hs. apply andb_true_iff in Hs. destruct Hs as [Hlt Hs].
  apply str_ltb_Lt in Hlt. destruct Hin as [<-|Hin]; [exact Hlt|].
  eapply compare_Lt_trans; [exact Hlt|]. exact (IH k1 v1 Hs Hin).
Qed.

Lemma sm_sorted_cons k v m :
  sm_sorted m = true ->
  (forall k', In k' (sm_keys m) -> String.compare k k' = Lt) ->
  sm_sorted ((k, v) :: m) = true.
Proof.
  intros Hs Hlt. destruct m as [|[k' v'] m]; [reflexivity|].
  rewrite sm_sorted_cons2. apply andb_true_iff. split; [|exact Hs].
  apply str_ltb_Lt, Hlt. left. reflexivity.
Qed.

Lemma sm_keys_insert k v m k' :
  In k' (sm_keys (sm_insert k v m)) <-> k' = k \/ In k' (sm_keys m).
Proof.
  rewrite <- !sm_find_keys, sm_find_insert.
  destruct (String.eqb_spec k' k); split; intros H; try tauto; discriminate.
Qed.

Lemma sm_sorted_insert k v m : sm_sorted m = true -> sm_sorted (sm_insert k v m) = true.
Proof.
  induction m as [|[k0 v0] m IH]; intros Hs; [reflexivity|].
  cbn [sm_insert]. destruct (String.compare k k0) eqn:E.
  - apply compare_Eq in E. subst k0. apply sm_sorted_cons.
    + eapply sm_sorted_tail, Hs.
    + intros k'. eapply sm_sorted_head_lt, Hs.
  - apply sm_sorted_cons; [exact Hs|].
    intros k' [<-|Hin]; [exact E|].
    eapply compare_Lt_trans; [exact E|]. eapply sm_sorted_head_lt; eassumption.
  - apply sm_sorted_cons.
    + apply IH. eapply sm_sorted_tail, Hs.
    + intros k' Hin. apply sm_keys_insert in Hin. destruct Hin as [->|Hin].
      * apply compare_Gt_Lt, E.
      * eapply sm_sorted_head_lt; eassumption.
Qed.

Lemma sm_sorted_alter f k m : sm_sorted (sm_alter f k m) = sm_sorted m.
Proof.
  induction m as [|[k0 v0] m IH]; [reflexivity|].
  cbn [sm_alter]. destruct (String.eqb k k0).
  - destruct m as [|[k1 v1] m]; reflexivity.
  - cbn [sm_sorted]. rewrite IH.
    destruct m as [|[k1 v1] m]; [reflexivity|].
    cbn [sm_alter]. destruct (String.eqb k k1); reflexivity.
Qed.

(** In a sorted map an entry is found under its key. *)
Lemma sm_In_find k v m : sm_sorted m = true -> In (k, v) m -> sm_find k m = Some v.
Proof.
  induction m as [|[k0 v0] m IH]; intros Hs Hin; [destruct Hin|].
  simpl. destruct Hin as [[= -> ->]|Hin].
  - rewrite String.eqb_refl. reflexivity.
  - destruct (String.eqb_spec k k0) as [->|].
    + exfalso. eapply compare_Lt_neq; [|reflexivity].
      eapply sm_sorted_head_lt; [exact Hs|].
      apply in_map_iff. exists (k0, v). split; [reflexivity | exact Hin].
    + apply IH; [eapply sm_sorted_tail, Hs | exact Hin].
Qed.

(** Assigning to a present key of a sorted map keeps the key list. *)
Lemma sm_keys_insert_present k v m :
  sm_sorted m = true -> In k (sm_keys m) -> sm_keys (sm_insert k v m) = sm_keys m.
Proof.
  induction m as [|[k0 v0] m IH]; intros Hs Hin; [destruct Hin|].
  cbn [sm_insert]. destruct (String.compare k k0) eqn:E.
  - apply compare_Eq in E. subst k0. reflexivity.
  - exfalso. destruct Hin as [Heq|Hin].
    + simpl in Heq. subst k0. rewrite compare_refl in E. discriminate.
    + pose proof (sm_sorted_head_lt _ _ _ _ Hs Hin) as H.
      apply compare_Gt_Lt in H. congruence.
  - simpl. f_equal. apply IH; [eapply sm_sorted_tail, Hs|].
    destruct Hin as [Heq|Hin]; [|exact Hin].
    simpl in Heq. subst k0. rewrite compare_refl in E. discriminate.
Qed.

(** ** Multimap insertion *)

Lemma mm_insert_In k v m e : In e (mm_insert k v m) <-> e = (k, v) \/ In e m.
Proof.
  induction m as [|[k0 v0] m IH]; simpl.
  - split; intros [H|H]; auto.
  - destruct (String.ltb k k0); simpl; [split; intros [H|H]; auto|].
    rewrite IH. split; intros H; tauto.
Qed.

Lemma mm_insert_length k v m : length (mm_insert k v m) = S (length m).
Proof.
  induction m as [|[k0 v0] m IH]; simpl; [reflexivity|].
  destruct (String.ltb k k0); simpl; [reflexivity|]. rewrite IH. reflexivity.
Qed.

(** Entries under another key keep their order. *)
Lemma mm_range_insert_ne k k' v m :
  k' <> k -> mm_range k' (mm_insert k v m) = mm_range k' m.
Proof.
  intros Hne. unfold mm_range. induction m as [|[k0 v0] m IH]; simpl.
  - destruct (String.eqb_spec k' k); [contradiction | reflexivity].
  - destruct (String.ltb k k0); simpl.
    + destruct (String.eqb_spec k' k); [contradiction | reflexivity].
    + destruct (String.eqb k' k0); simpl; rewrite IH; reflexivity.
Qed.

(** The new entry comes last among the entries with its key. *)
Lemma mm_range_insert_eq k v m :
  mm_sorted m = true -> mm_range k (mm_insert k v m) = mm_range k m ++ [v].
Proof.
  unfold mm_range. induction m as [|[k0 v0] m IH]; intros Hs; simpl.
  - rewrite String.eqb_refl. reflexivity.
  - destruct (String.ltb k k0) eqn:Hlt; simpl.
    + rewrite String.eqb_refl. simpl.
      apply str_ltb_Lt in Hlt.
      destruct (String.eqb_spec k k0) as [->|_].
      { rewrite compare_refl in Hlt. discriminate. }
      assert (Hnone : List.filter (fun e => String.eqb k (fst e)) m = []).
      { clear IH. revert k0 v0 Hs Hlt. induction m as [|[k1 v1] m IHm]; intros k0 v0 Hs Hlt;
          [reflexivity|].
        rewrite mm_sorted_cons2 in Hs. apply andb_true_iff in Hs. destruct Hs as [Hge Hs].
        assert (Hlt1 : String.compare k k1 = Lt).
        { destruct (String.compare k0 k1) eqn:E01.
          - apply compare_Eq in E01. subst k1. exact Hlt.
          - eapply compare_Lt_trans; eassumption.
          - apply compare_Gt_Lt, str_ltb_Lt in E01. rewrite E01 in Hge. discriminate. }
        simpl. destruct (String.eqb_spec k k1) as [->|_].
        { rewrite compare_refl in Hlt1. discriminate. }
        eapply IHm; eassumption. }
      rewrite Hnone. reflexivity.
    + pose proof (mm_sorted_tail _ _ _ Hs) as Hs'.
      destruct (String.eqb k k0); simpl; rewrite (IH Hs'); reflexivity.
Qed.

Lemma mm_sorted_insert k v m : mm_sorted m = true -> mm_sorted (mm_insert k v m) = true.
Proof.
  induction m as [|[k0 v0] m IH]; intros Hs; [reflexivity|].
  cbn [mm_insert]. destruct (String.ltb k k0) eqn:Hlt.
  - rewrite mm_sorted_cons2, Hs, andb_true_r.
    apply str_ltb_Lt, compare_Gt_Lt in Hlt. unfold String.ltb. rewrite Hlt. reflexivity.
  - specialize (IH (mm_sorted_tail _ _ _ Hs)).
    destruct m as [|[k1 v1] m]; cbn [mm_insert] in *.
    + rewrite mm_sorted_cons2, Hlt. reflexivity.
    + rewrite mm_sorted_cons2 in Hs. apply andb_true_iff in Hs. destruct Hs as [Hge _].
      destruct (String.ltb k k1) eqn:Hlt1; rewrite mm_sorted_cons2, IH, andb_true_r.
      * rewrite Hlt. reflexivity.
      * exact Hge.
Qed.

End Map.

(** ** A property of every value *)

Section Forall.
Context {V : Type}.
Implicit Types (k : string) (v : V) (m : list (string * V)) (P : V -> bool).

Definition sm_forall P m : bool := forallb (fun e => P (snd e)) m.

Lemma sm_forall_find P k v m : sm_forall P m = true -> sm_find k m = Some v -> P v = true.
Proof.
  intros HP Hf. apply sm_find_In in Hf.
  exact (proj1 (forallb_forall _ _) HP _ Hf).
Qed.

Lemma sm_forall_insert P k v m :
  sm_forall P m = true -> P v = true -> sm_forall P (sm_insert k v m) = true.
Proof.
  intros Hm Hv. induction m as [|[k0 v0] m IH]; simpl.
  - rewrite Hv. reflexivity.
  - simpl in Hm. apply andb_true_iff in Hm. destruct Hm as [H0 Hm].
    destruct (String.compare k k0); simpl; rewrite ?Hv, ?H0, ?Hm, ?IH; auto.
Qed.

Lemma sm_forall_alter P f k m :
  sm_forall P m = true -> (forall v, P v = true -> P (f v) = true) ->
  sm_forall P (sm_alter f k m) = true.
Proof.
  intros Hm Hf. induction m as [|[k0 v0] m IH]; simpl; [reflexivity|].
  simpl in Hm. apply andb_true_iff in Hm. destruct Hm as [H0 Hm].
  destruct (String.eqb k k0); simpl; rewrite ?Hf, ?H0, ?Hm, ?IH; auto.
Qed.

Lemma sm_forall_alter_eq P f k m :
  (forall v, P (f v) = P v) -> sm_forall P (sm_alter f k m) = sm_forall P m.
Proof.
  intros Hf. induction m as [|[k0 v0] m IH]; simpl; [reflexivity|].
  destruct (String.eqb k k0); simpl; rewrite ?Hf, ?IH; reflexivity.
Qed.

End Forall.

(** ** Maps over the values, and the multimap built by a run of inserts *)

Section MapValues.
Context {V W : Type}.

Lemma sm_find_map (g : string -> V -> W) (k : string) (m : list (string * V)) :
  sm_find k (map (fun e => (fst e, g (fst e) (snd e))) m) = option_map (g k) (sm_find k m).
Proof.
  induction m as [|[k0 v0] m IH]; simpl; [reflexivity|].
  destruct (String.eqb_spec k k0) as [->|]; [reflexivity | exact IH].
Qed.

Lemma sm_keys_map (g : string -> V -> W) (m : list (string * V)) :
  sm_keys (map (fun e => (fst e, g (fst e) (snd e))) m) = sm_keys m.
Proof. unfold sm_keys. rewrite map_map. reflexivity. Qed.

(** Sortedness is a property of the keys. *)
Lemma sm_sorted_keys (m1 : list (string * V)) (m2 : list (string * W)) :
  sm_keys m1 = sm_keys m2 -> sm_sorted m1 = sm_sorted m2.
Proof.
  revert m2. induction m1 as [|[k1 v1] m1 IH]; intros [|[k2 v2] m2] H;
    try discriminate; [reflexivity|].
  injection H as -> H. specialize (IH m2 H).
  destruct m1 as [|[k1' v1'] m1], m2 as [|[k2' v2'] m2]; try discriminate; [reflexivity|].
  rewrite !sm_sorted_cons2, IH. injection H as -> _. reflexivity.
Qed.

Lemma sm_forall_map (g : string -> V -> W) (P : V -> bool) (Q : W -> bool)
    (m : list (string * V)) :
  (forall k v, P v = true -> Q (g k v) = true) ->
  sm_forall P m = true ->
  sm_forall Q (map (fun e => (fst e, g (fst e) (snd e))) m) = true.
Proof.
  intros Hg. induction m as [|[k v] m IH]; simpl; [reflexivity|].
  intros H. apply andb_true_iff in H. destruct H as [Hv Hm].
  rewrite (Hg _ _ Hv), (IH Hm). reflexivity.
Qed.

Lemma sm_sorted_map (g : string -> V -> W) (m : list (string * V)) :
  sm_sorted (map (fun e => (fst e, g (fst e) (snd e))) m) = sm_sorted m.
Proof. symmetry. apply sm_sorted_keys. symmetry. apply sm_keys_map. Qed.

End MapValues.

Section MultimapOfList.
Context {V : Type}.
Implicit Types (k : string) (m ins : list (string * V)).

(** The multimap after a run of [insert] calls. *)
Definition mm_inserts ins m : list (string * V) :=
  fold_left (fun mm p => mm_insert (fst p) (snd p) mm) ins m.

Lemma mm_sorted_inserts ins m : mm_sorted m = true -> mm_sorted (mm_inserts ins m) = true.
Proof.
  revert m. induction ins as [|[k v] ins IH]; intros m Hs; [exact Hs|].
  apply IH, mm_sorted_insert, Hs.
Qed.

(** Under each key the values come in the order of the calls. *)
Lemma mm_range_inserts k ins m :
  mm_sorted m = true -> mm_range k (mm_inserts ins m) = mm_range k m ++ mm_range k ins.
Proof.
  revert m. induction ins as [|[k0 v0] ins IH]; intros m Hs.
  - unfold mm_range at 3. simpl. rewrite app_nil_r. reflexivity.
  - simpl. rewrite IH by (apply mm_sorted_insert, Hs).
    unfold mm_range at 4. simpl.
    destruct (String.eqb_spec k k0) as [->|Hne]; simpl.
    + rewrite mm_range_insert_eq by exact Hs. rewrite <- app_assoc. reflexivity.
    + rewrite mm_range_insert_ne by exact Hne. reflexivity.
Qed.

Lemma mm_inserts_In ins m e : In e (mm_inserts ins m) <-> In e ins \/ In e m.
Proof.
  revert m. induction ins as [|[k v] ins IH]; intros m; simpl; [tauto|].
  rewrite IH, mm_insert_In. split; intros H; repeat destruct H as [H|H]; subst; auto.
Qed.

End MultimapOfList.

#[export] Hint Rewrite @sm_find_insert_eq @sm_find_alter_eq @sm_keys_alter
  @sm_sorted_alter @mm_insert_length : abm_rw.
#[export] Hint Resolve sm_sorted_insert mm_sorted_insert sm_find_In : abm.
