(* ===== verification/BeamSpot.v ===== *)
(** * BeamSpot: the data the module handles

    [reco::BeamSpot] (an estimate of the beam position and width with its
    covariance and a type tag), [BeamSpotObjects] (the database payload),
    [reco::Vertex] and [reco::Track] as far as the module reads them,
    [alcabeammonitor::pvPosAndErr] (a sampled vertex position with errors)
    and [alcabeammonitor::BeamSpotInfo] (the object the framework caches per
    luminosity block: the bag of estimates keyed by "DB", "SC", "BF", "PV",
    and the vertex samples of every event of the block).

    The classes are declared outside the sources of this module; the
    records keep the members the module reads or writes, under their names. *)

From stdpp Require Export gmap strings.
From S2P Require Export Prelude Double.

Local Open Scope string_scope.
Local Open Scope list_scope.

(** [m.find(key) != m.end()] on a string-keyed map. *)
Definition has_key {V : Type} (key : string) (m : gmap string V) : bool :=
  match m !! key with Some _ => true | None => false end.

(** [reco::BeamSpot::BeamType], as far as the module distinguishes it. *)
Inductive BeamType : Type := Unknown | Fake | Tracker.

#[export] Instance BeamType_eq_dec : EqDecision BeamType.
Proof. solve_decision. Defined.

Definition is_tracker (t : BeamType) : bool :=
  match t with Tracker => true | _ => false end.

(** [math::XYZPoint] *)
Record Point : Type := mkPoint { pt_x : double; pt_y : double; pt_z : double }.

(** [reco::BeamSpot::dimension] *)
Definition dimension : nat := 7.

(** [CovarianceMatrix]: [dimension] rows of [dimension] entries. *)
Definition CovarianceMatrix : Type := list (list double).

Definition cov_at (m : CovarianceMatrix) (i j : nat) : double :=
  nth j (nth i m []) 0%float.

(** The matrix whose entry [(i, j)] is [f i j]. *)
Definition cov_tabulate (f : nat -> nat -> double) : CovarianceMatrix :=
  map (fun i => map (f i) (seq 0 dimension)) (seq 0 dimension).

Definition cov_zero : CovarianceMatrix := cov_tabulate (fun _ _ => 0%float).

Record BeamSpot : Type := mkBeamSpot {
  position : Point;
  sigmaZ : double;
  dxdz : double;
  dydz : double;
  BeamWidthX : double;
  BeamWidthY : double;
  emittanceX : double;
  emittanceY : double;
  betaStar : double;
  error_ : CovarianceMatrix;
  type_ : BeamType
}.

(** The default-constructed beam spot: everything zero, type [Unknown]. *)
Definition BeamSpot_default : BeamSpot :=
  mkBeamSpot (mkPoint 0 0 0) 0 0 0 0 0 0 0 0 cov_zero Unknown.

(** The six-argument constructor
    [BeamSpot(point, sigmaZ, dxdz, dydz, BeamWidthX, error, type = Unknown)];
    it sets both widths to [BeamWidthX]. *)
Definition BeamSpot_make (p : Point) (sz dx dy bwx : double) (m : CovarianceMatrix) : BeamSpot :=
  mkBeamSpot p sz dx dy bwx bwx 0 0 0 m Unknown.

Definition x0 (b : BeamSpot) : double := pt_x (position b).
Definition y0 (b : BeamSpot) : double := pt_y (position b).
Definition z0 (b : BeamSpot) : double := pt_z (position b).

(** The errors are the square roots of the covariance diagonal; both
    widths share entry (6, 6). *)
Definition x0Error (b : BeamSpot) : double := sqrt (cov_at (error_ b) 0 0).
Definition y0Error (b : BeamSpot) : double := sqrt (cov_at (error_ b) 1 1).
Definition z0Error (b : BeamSpot) : double := sqrt (cov_at (error_ b) 2 2).
Definition sigmaZ0Error (b : BeamSpot) : double := sqrt (cov_at (error_ b) 3 3).
Definition BeamWidthXError (b : BeamSpot) : double := sqrt (cov_at (error_ b) 6 6).
Definition BeamWidthYError (b : BeamSpot) : double := sqrt (cov_at (error_ b) 6 6).

Definition setType (t : BeamType) (b : BeamSpot) : BeamSpot :=
  mkBeamSpot (position b) (sigmaZ b) (dxdz b) (dydz b) (BeamWidthX b) (BeamWidthY b)
    (emittanceX b) (emittanceY b) (betaStar b) (error_ b) t.

Definition setBeamWidthY (w : double) (b : BeamSpot) : BeamSpot :=
  mkBeamSpot (position b) (sigmaZ b) (dxdz b) (dydz b) (BeamWidthX b) w
    (emittanceX b) (emittanceY b) (betaStar b) (error_ b) (type_ b).

Definition setEmittanceX (e : double) (b : BeamSpot) : BeamSpot :=
  mkBeamSpot (position b) (sigmaZ b) (dxdz b) (dydz b) (BeamWidthX b) (BeamWidthY b)
    e (emittanceY b) (betaStar b) (error_ b) (type_ b).

Definition setEmittanceY (e : double) (b : BeamSpot) : BeamSpot :=
  mkBeamSpot (position b) (sigmaZ b) (dxdz b) (dydz b) (BeamWidthX b) (BeamWidthY b)
    (emittanceX b) e (betaStar b) (error_ b) (type_ b).

Definition setbetaStar (v : double) (b : BeamSpot) : BeamSpot :=
  mkBeamSpot (position b) (sigmaZ b) (dxdz b) (dydz b) (BeamWidthX b) (BeamWidthY b)
    (emittanceX b) (emittanceY b) v (error_ b) (type_ b).

(** [BeamSpotObjects]: the payload of the conditions database. *)
Record BeamSpotObjects : Type := mkBeamSpotObjects {
  bso_x : double;
  bso_y : double;
  bso_z : double;
  bso_sigmaZ : double;
  bso_dxdz : double;
  bso_dydz : double;
  bso_beamWidthX : double;
  bso_beamWidthY : double;
  bso_emittanceX : double;
  bso_emittanceY : double;
  bso_betaStar : double;
  bso_covariance : nat -> nat -> double;
  bso_beamType : Z
}.

(** What [iSetup.getHandle(beamSpotToken_)] can do: throw, deliver an
    invalid handle, or deliver the payload. *)
Inductive DBLookup : Type :=
| DBThrows
| DBInvalid
| DBValid (spotDB : BeamSpotObjects).

(** [reco::Vertex], as read by the module. *)
Record Vertex : Type := mkVertex {
  vtx_isFake : bool;
  vtx_tracksSize : Z;
  vtx_x : double;
  vtx_y : double;
  vtx_z : double;
  vtx_xError : double;
  vtx_yError : double;
  vtx_zError : double
}.

(** [reco::Track], as read by the module: [phi()], [dxy()] and
    [dxy(point)]. *)
Record Track : Type := mkTrack {
  trk_phi : double;
  trk_dxy : double;
  trk_dxy_at : Point -> double
}.

(** [alcabeammonitor::pvPosAndErr]: built from a vertex, read through
    [xWithError()], [yWithError()], [zWithError()]. *)
Record pvPosAndErr : Type := mkPvPosAndErr {
  pv_pos : double * double * double;
  pv_posError : double * double * double
}.

Definition pvPosAndErr_of (v : Vertex) : pvPosAndErr :=
  mkPvPosAndErr (vtx_x v, vtx_y v, vtx_z v) (vtx_xError v, vtx_yError v, vtx_zError v).

Definition xWithError (p : pvPosAndErr) : double * double :=
  (fst (fst (pv_pos p)), fst (fst (pv_posError p))).
Definition yWithError (p : pvPosAndErr) : double * double :=
  (snd (fst (pv_pos p)), snd (fst (pv_posError p))).
Definition zWithError (p : pvPosAndErr) : double * double :=
  (snd (pv_pos p), snd (pv_posError p)).

(** [alcabeammonitor::BeamSpotInfo]: the per-luminosity-block cache object. *)
Record BeamSpotInfo : Type := mkBeamSpotInfo {
  vertices_ : list (list pvPosAndErr);
  beamSpotMap_ : gmap string BeamSpot
}.

(** [std::make_shared<BeamSpotInfo>()] *)
Definition BeamSpotInfo_empty : BeamSpotInfo := mkBeamSpotInfo [] ∅.

Definition set_beamSpotMap (m : gmap string BeamSpot) (i : BeamSpotInfo) : BeamSpotInfo :=
  mkBeamSpotInfo (vertices_ i) m.

Definition set_vertices (v : list (list pvPosAndErr)) (i : BeamSpotInfo) : BeamSpotInfo :=
  mkBeamSpotInfo v (beamSpotMap_ i).

(** An event, as far as the module reads it: the index of the luminosity
    block it belongs to, the track collection, the primary vertex
    collection when [getByToken] finds it, the scaler beam spot when its
    handle is valid. *)
Record Event : Type := mkEvent {
  ev_lumiIndex : Z;
  ev_tracks : list Track;
  ev_vertices : option (list Vertex);
  ev_scaler : option BeamSpot
}.

(** ** Basic facts *)

Lemma setType_type t b : type_ (setType t b) = t.
Proof. reflexivity. Qed.

Lemma setType_x0 t b : x0 (setType t b) = x0 b.
Proof. reflexivity. Qed.

Lemma cov_at_tabulate f i j :
  (i < dimension)%nat -> (j < dimension)%nat -> cov_at (cov_tabulate f) i j = f i j.
Proof.
  intros Hi Hj. unfold cov_at, cov_tabulate, dimension in *.
  do 7 (destruct i as [|i]; [do 7 (destruct j as [|j]; [reflexivity|]); lia|]); lia.
Qed.
