(* ===== verification/Histo.v ===== *)
(** * Histo: the histogram behind a [MonitorElement*]

    The module books one-dimensional histograms and then uses a histogram
    in one of two ways: as a distribution, through [Fill(x)], or as a series
    indexed by luminosity block, through [setBinContent]/[setBinError]; at
    run end it reads bins [1..GetNbinsX()] back and sets the display bounds.
    The histogram classes are ROOT's and the DQM store's, not this module's:
    the record below keeps what those calls store, with ROOT's conventions
    (a bin never written reads 0 with error 0; a bin index outside
    [1..nbins] is not stored; a minimum or maximum never set is computed
    from the bin contents).  A distribution is kept as the list of the
    values passed to [Fill], oldest first. *)

From S2P Require Export Prelude Double.
From stdpp Require Export gmap strings.

Local Open Scope string_scope.
Local Open Scope list_scope.

(** What [book1D(name, title, nbins, xlow, xup)] fixes. *)
Record Booking : Type := mkBooking {
  b_folder : string;
  b_name : string;
  b_title : string;
  b_nbins : Z;
  b_xlow : double;
  b_xup : double
}.

Record Histo : Type := mkHisto {
  h_book : Booking;
  h_content : gmap Z double;
  h_error : gmap Z double;
  h_fills : list double;
  h_minimum : option double;
  h_maximum : option double;
  h_range : option (double * double);
  h_efficiency : bool;
  h_xtitle : string;
  h_ytitle : string
}.

(** [ibooker.book1D(...)], in the current folder. *)
Definition book1D (folder name title : string) (nbins : Z) (xlow xup : double) : Histo :=
  mkHisto (mkBooking folder name title nbins xlow xup) ∅ ∅ [] None None None false
    EmptyString EmptyString.

Definition GetNbinsX (h : Histo) : Z := b_nbins (h_book h).

Definition in_bins (h : Histo) (bin : Z) : bool :=
  (1 <=? bin)%Z && (bin <=? GetNbinsX h)%Z.

Definition GetBinContent (h : Histo) (bin : Z) : double :=
  default 0%float (h_content h !! bin).

Definition GetBinError (h : Histo) (bin : Z) : double :=
  default 0%float (h_error h !! bin).

Definition setBinContent (bin : Z) (v : double) (h : Histo) : Histo :=
  if in_bins h bin then
    mkHisto (h_book h) (<[bin := v]> (h_content h)) (h_error h) (h_fills h)
      (h_minimum h) (h_maximum h) (h_range h) (h_efficiency h) (h_xtitle h) (h_ytitle h)
  else h.

Definition setBinError (bin : Z) (e : double) (h : Histo) : Histo :=
  if in_bins h bin then
    mkHisto (h_book h) (h_content h) (<[bin := e]> (h_error h)) (h_fills h)
      (h_minimum h) (h_maximum h) (h_range h) (h_efficiency h) (h_xtitle h) (h_ytitle h)
  else h.

(** [Fill(x)] *)
Definition Fill (x : double) (h : Histo) : Histo :=
  mkHisto (h_book h) (h_content h) (h_error h) (h_fills h ++ [x])
    (h_minimum h) (h_maximum h) (h_range h) (h_efficiency h) (h_xtitle h) (h_ytitle h).

Definition SetMinimum (v : double) (h : Histo) : Histo :=
  mkHisto (h_book h) (h_content h) (h_error h) (h_fills h)
    (Some v) (h_maximum h) (h_range h) (h_efficiency h) (h_xtitle h) (h_ytitle h).

Definition SetMaximum (v : double) (h : Histo) : Histo :=
  mkHisto (h_book h) (h_content h) (h_error h) (h_fills h)
    (h_minimum h) (Some v) (h_range h) (h_efficiency h) (h_xtitle h) (h_ytitle h).

(** [GetXaxis()->SetRangeUser(lo, hi)] *)
Definition SetRangeUser (lo hi : double) (h : Histo) : Histo :=
  mkHisto (h_book h) (h_content h) (h_error h) (h_fills h)
    (h_minimum h) (h_maximum h) (Some (lo, hi)) (h_efficiency h) (h_xtitle h) (h_ytitle h).

Definition setEfficiencyFlag (h : Histo) : Histo :=
  mkHisto (h_book h) (h_content h) (h_error h) (h_fills h)
    (h_minimum h) (h_maximum h) (h_range h) true (h_xtitle h) (h_ytitle h).

(** [setAxisTitle(title, axis)]: axis 1 is x, axis 2 is y. *)
Definition setAxisTitle (title : string) (axis : Z) (h : Histo) : Histo :=
  mkHisto (h_book h) (h_content h) (h_error h) (h_fills h)
    (h_minimum h) (h_maximum h) (h_range h) (h_efficiency h)
    (if (axis =? 1)%Z then title else h_xtitle h)
    (if (axis =? 2)%Z then title else h_ytitle h).

Arguments setBinContent : simpl never.
Arguments setBinError : simpl never.
Arguments Fill : simpl never.
Arguments GetBinContent : simpl never.
Arguments GetBinError : simpl never.

(** [n] consecutive bin numbers from [bin] on. *)
Fixpoint bins_from (n : nat) (bin : Z) : list Z :=
  match n with
  | O => []
  | S n' => bin :: bins_from n' (bin + 1)
  end.

(** The bins [1..nbins], in the order of
    [for (bin = 1; bin <= GetNbinsX(); bin++)]. *)
Definition bins (h : Histo) : list Z := bins_from (Z.to_nat (GetNbinsX h)) 1.

(** [FLT_MAX], the start value of ROOT's scans. *)
Definition FLT_MAX : double := 0x1.fffffep+127%float.

(** [GetMinimum()]: the minimum that was set, else the least bin content. *)
Definition GetMinimum (h : Histo) : double :=
  match h_minimum h with
  | Some v => v
  | None =>
      fold_left (fun acc bin => let c := GetBinContent h bin in
                                if (c <? acc)%float then c else acc)
        (bins h) FLT_MAX
  end.

(** [GetMaximum()]: the maximum that was set, else the greatest bin content. *)
Definition GetMaximum (h : Histo) : double :=
  match h_maximum h with
  | Some v => v
  | None =>
      fold_left (fun acc bin => let c := GetBinContent h bin in
                                if (acc <? c)%float then c else acc)
        (bins h) (- FLT_MAX)%float
  end.

(** The profile histogram [hD0Phi0_]: the pairs passed to [Fill(x, y)]. *)
Record Profile : Type := mkProfile {
  p_book : Booking;
  (** the y range and the error option of [bookProfile] *)
  p_nbinsY : Z;
  p_ylow : double;
  p_yup : double;
  p_option : string;
  p_fills : list (double * double);
  p_xtitle : string;
  p_ytitle : string
}.

(** [bookProfile(name, title, nbinsX, xlow, xup, nbinsY, ylow, yup, option)] *)
Definition bookProfile (folder name title : string) (nbins : Z) (xlow xup : double)
    (nbinsY : Z) (ylow yup : double) (option : string) : Profile :=
  mkProfile (mkBooking folder name title nbins xlow xup) nbinsY ylow yup option []
    EmptyString EmptyString.

Definition Fill2 (x y : double) (p : Profile) : Profile :=
  mkProfile (p_book p) (p_nbinsY p) (p_ylow p) (p_yup p) (p_option p)
    (p_fills p ++ [(x, y)]) (p_xtitle p) (p_ytitle p).

Definition setProfileAxisTitle (title : string) (axis : Z) (p : Profile) : Profile :=
  mkProfile (p_book p) (p_nbinsY p) (p_ylow p) (p_yup p) (p_option p) (p_fills p)
    (if (axis =? 1)%Z then title else p_xtitle p)
    (if (axis =? 2)%Z then title else p_ytitle p).

(** ** Reading a bin back *)

Section BinLaws.
Implicit Types (h : Histo) (bin : Z) (v e : double).

Lemma in_bins_spec h bin : in_bins h bin = true <-> (1 <= bin <= GetNbinsX h)%Z.
Proof. unfold in_bins. rewrite andb_true_iff, !Z.leb_le. tauto. Qed.

Lemma GetNbinsX_setBinContent bin v h : GetNbinsX (setBinContent bin v h) = GetNbinsX h.
Proof. unfold setBinContent. destruct (in_bins h bin); reflexivity. Qed.

Lemma GetNbinsX_setBinError bin e h : GetNbinsX (setBinError bin e h) = GetNbinsX h.
Proof. unfold setBinError. destruct (in_bins h bin); reflexivity. Qed.

Lemma in_bins_setBinContent bin v h b : in_bins (setBinContent bin v h) b = in_bins h b.
Proof. unfold in_bins. rewrite GetNbinsX_setBinContent. reflexivity. Qed.

Lemma in_bins_setBinError bin e h b : in_bins (setBinError bin e h) b = in_bins h b.
Proof. unfold in_bins. rewrite GetNbinsX_setBinError. reflexivity. Qed.

(** A write to a bin of the axis is read back; a write outside is dropped. *)
Lemma GetBinContent_setBinContent bin v h b :
  GetBinContent (setBinContent bin v h) b
  = if in_bins h bin && (b =? bin)%Z then v else GetBinContent h b.
Proof.
  unfold setBinContent, GetBinContent. destruct (in_bins h bin); simpl; [|reflexivity].
  destruct (Z.eqb_spec b bin) as [->|Hne].
  - rewrite lookup_insert_eq. reflexivity.
  - rewrite lookup_insert_ne by congruence. reflexivity.
Qed.

Lemma GetBinError_setBinError bin e h b :
  GetBinError (setBinError bin e h) b
  = if in_bins h bin && (b =? bin)%Z then e else GetBinError h b.
Proof.
  unfold setBinError, GetBinError. destruct (in_bins h bin); simpl; [|reflexivity].
  destruct (Z.eqb_spec b bin) as [->|Hne].
  - rewrite lookup_insert_eq. reflexivity.
  - rewrite lookup_insert_ne by congruence. reflexivity.
Qed.

Lemma GetBinContent_setBinError bin e h b :
  GetBinContent (setBinError bin e h) b = GetBinContent h b.
Proof. unfold setBinError. destruct (in_bins h bin); reflexivity. Qed.

Lemma GetBinError_setBinContent bin v h b :
  GetBinError (setBinContent bin v h) b = GetBinError h b.
Proof. unfold setBinContent. destruct (in_bins h bin); reflexivity. Qed.

(** Writing the same bin twice keeps the last value. *)
Lemma setBinContent_twice bin v v' h :
  setBinContent bin v' (setBinContent bin v h) = setBinContent bin v' h.
Proof.
  unfold setBinContent at 1. rewrite in_bins_setBinContent.
  unfold setBinContent. destruct (in_bins h bin); [|reflexivity].
  simpl. rewrite insert_insert_eq. reflexivity.
Qed.

Lemma setBinError_twice bin e e' h :
  setBinError bin e' (setBinError bin e h) = setBinError bin e' h.
Proof.
  unfold setBinError at 1. rewrite in_bins_setBinError.
  unfold setBinError. destruct (in_bins h bin); [|reflexivity].
  simpl. rewrite insert_insert_eq. reflexivity.
Qed.

(** Content and error written to a bin of the axis are read back, and the
    other bins are as before. *)
Lemma set_bin_read bin v e h b :
  in_bins h bin = true ->
  let h' := setBinError bin e (setBinContent bin v h) in
  GetBinContent h' b = (if (b =? bin)%Z then v else GetBinContent h b)
  /\ GetBinError h' b = (if (b =? bin)%Z then e else GetBinError h b).
Proof.
  intros Hin. simpl.
  rewrite GetBinContent_setBinError, GetBinContent_setBinContent, Hin.
  rewrite GetBinError_setBinError, in_bins_setBinContent, Hin, GetBinError_setBinContent.
  split; reflexivity.
Qed.

(** Outside the axis both calls do nothing. *)
Lemma set_bin_outside bin v e h :
  in_bins h bin = false -> setBinError bin e (setBinContent bin v h) = h.
Proof.
  intros Hout. unfold setBinContent. rewrite Hout. unfold setBinError. rewrite Hout.
  reflexivity.
Qed.

Lemma h_book_setBinContent bin v h : h_book (setBinContent bin v h) = h_book h.
Proof. unfold setBinContent. destruct (in_bins h bin); reflexivity. Qed.

Lemma h_book_setBinError bin e h : h_book (setBinError bin e h) = h_book h.
Proof. unfold setBinError. destruct (in_bins h bin); reflexivity. Qed.

Lemma GetBinContent_Fill x h b : GetBinContent (Fill x h) b = GetBinContent h b.
Proof. reflexivity. Qed.

Lemma GetBinError_Fill x h b : GetBinError (Fill x h) b = GetBinError h b.
Proof. reflexivity. Qed.

Lemma h_fills_Fill x h : h_fills (Fill x h) = h_fills h ++ [x].
Proof. reflexivity. Qed.

Lemma h_fills_setBinContent bin v h : h_fills (setBinContent bin v h) = h_fills h.
Proof. unfold setBinContent. destruct (in_bins h bin); reflexivity. Qed.

Lemma h_fills_setBinError bin e h : h_fills (setBinError bin e h) = h_fills h.
Proof. unfold setBinError. destruct (in_bins h bin); reflexivity. Qed.

Lemma elem_of_bins_from n start bin :
  bin ∈ bins_from n start <-> (start <= bin < start + Z.of_nat n)%Z.
Proof.
  revert start. induction n as [|n IH]; intros start; simpl.
  - rewrite elem_of_nil. lia.
  - rewrite elem_of_cons, IH. lia.
Qed.

Lemma elem_of_bins h bin : bin ∈ bins h <-> (1 <= bin <= GetNbinsX h)%Z.
Proof. unfold bins. rewrite elem_of_bins_from. lia. Qed.

End BinLaws.

#[export] Hint Rewrite GetNbinsX_setBinContent GetNbinsX_setBinError
  in_bins_setBinContent in_bins_setBinError GetBinContent_setBinError
  GetBinError_setBinContent h_fills_Fill h_fills_setBinContent h_fills_setBinError
  h_book_setBinContent h_book_setBinError GetBinContent_Fill GetBinError_Fill : abm_rw.

(** ** Display settings *)

(** Stored minimum, stored maximum and axis range. *)
Definition h_display (h : Histo) : option double * option double * option (double * double) :=
  (h_minimum h, h_maximum h, h_range h).

Lemma h_display_setBinContent bin v h : h_display (setBinContent bin v h) = h_display h.
Proof. unfold setBinContent. destruct (in_bins h bin); reflexivity. Qed.

Lemma h_display_setBinError bin e h : h_display (setBinError bin e h) = h_display h.
Proof. unfold setBinError. destruct (in_bins h bin); reflexivity. Qed.

(** ** Writing one bin *)

(** [h'] is [h] with content [v] and error [e] in [bin], all other bins and
    the entries being as in [h]. *)
Definition bin_written (h h' : Histo) (bin : Z) (v e : double) : Prop :=
  GetBinContent h' bin = v /\ GetBinError h' bin = e
  /\ h_fills h' = h_fills h
  /\ forall b, b <> bin ->
       GetBinContent h' b = GetBinContent h b /\ GetBinError h' b = GetBinError h b.

Lemma set_bin_written bin v e h :
  in_bins h bin = true -> bin_written h (setBinError bin e (setBinContent bin v h)) bin v e.
Proof.
  intros Hin. pose proof (set_bin_read bin v e h) as Hr. simpl in Hr.
  unfold bin_written. rewrite h_fills_setBinError, h_fills_setBinContent.
  destruct (Hr bin Hin) as [-> ->]. rewrite Z.eqb_refl.
  split; [reflexivity|]. split; [reflexivity|]. split; [reflexivity|].
  intros b Hne. destruct (Hr b Hin) as [-> ->].
  rewrite (proj2 (Z.eqb_neq b bin) Hne). split; reflexivity.
Qed.

(** Writing a bin again replaces what was written. *)
Lemma bin_written_again h h1 h2 bin v1 e1 v2 e2 :
  bin_written h h1 bin v1 e1 -> bin_written h1 h2 bin v2 e2 -> bin_written h h2 bin v2 e2.
Proof.
  intros (_ & _ & Hf1 & Ho1) (Hv & He & Hf2 & Ho2). unfold bin_written.
  rewrite Hf2, Hf1. split; [exact Hv|]. split; [exact He|]. split; [reflexivity|].
  intros b Hne. destruct (Ho2 b Hne) as [-> ->]. apply Ho1, Hne.
Qed.

(** ** One write of content and error *)

(** [setBinContent(bin, v); setBinError(bin, e)] *)
Definition write_bin (bin : Z) (v e : double) (h : Histo) : Histo :=
  setBinError bin e (setBinContent bin v h).

Lemma setBinContent_setBinError bin v e h :
  setBinContent bin v (setBinError bin e h) = setBinError bin e (setBinContent bin v h).
Proof.
  unfold setBinContent, setBinError, in_bins, GetNbinsX.
  destruct ((1 <=? bin)%Z && (bin <=? b_nbins (h_book h))%Z) eqn:E; simpl; rewrite ?E;
    reflexivity.
Qed.

(** A second write to the same bin replaces the first. *)
Lemma write_bin_twice bin v e v' e' h :
  write_bin bin v' e' (write_bin bin v e h) = write_bin bin v' e' h.
Proof.
  unfold write_bin.
  rewrite (setBinContent_setBinError bin v' e), setBinError_twice, setBinContent_twice.
  reflexivity.
Qed.

(** ** Loops of calls on one histogram *)

Section Loops.
Context {A : Type}.
Variables (bin : Z) (val err : A -> double).
Implicit Types (l : list A) (h : Histo).

(** A loop that writes the same bin once per element. *)
Definition set_each l h : Histo :=
  fold_left (fun h a => setBinError bin (err a) (setBinContent bin (val a) h)) l h.

(** A loop that fills one entry per element. *)
Definition fill_each l h : Histo :=
  fold_left (fun h a => Fill (val a) h) l h.

Lemma in_bins_set_each l h b : in_bins (set_each l h) b = in_bins h b.
Proof.
  unfold set_each. revert h. induction l as [|a l IH]; intros h; simpl; [reflexivity|].
  rewrite IH, in_bins_setBinError, in_bins_setBinContent. reflexivity.
Qed.

(** Writing a list of values to a bin is writing the last of them. *)
Lemma set_each_write l x h :
  set_each (l ++ [x]) h = write_bin bin (val x) (err x) h.
Proof.
  unfold set_each. revert h. induction l as [|a l IH]; intros h; simpl; [reflexivity|].
  rewrite IH. apply write_bin_twice.
Qed.

Lemma set_each_last_write l h :
  set_each l h = match last l with
                 | Some x => write_bin bin (val x) (err x) h
                 | None => h
                 end.
Proof.
  destruct l as [|a l] using rev_ind; [reflexivity|].
  rewrite set_each_write, last_snoc. reflexivity.
Qed.

(** Of the values written to a bin one after the other, the last one
    stays. *)
Lemma set_each_last l x h :
  in_bins h bin = true -> bin_written h (set_each (l ++ [x]) h) bin (val x) (err x).
Proof.
  unfold set_each. revert h. induction l as [|a l IH]; intros h Hin; simpl.
  - apply set_bin_written, Hin.
  - eapply bin_written_again; [apply (set_bin_written bin (val a) (err a)), Hin|].
    apply IH. rewrite in_bins_setBinError, in_bins_setBinContent. exact Hin.
Qed.

(** A loop of fills appends one entry per element, in order, and leaves
    the bins alone. *)
Lemma fill_each_fills l h : h_fills (fill_each l h) = h_fills h ++ map val l.
Proof.
  unfold fill_each. revert h. induction l as [|a l IH]; intros h; simpl.
  - symmetry. apply app_nil_r.
  - rewrite IH, h_fills_Fill, <- app_assoc. reflexivity.
Qed.

Lemma fill_each_bins l h b :
  GetBinContent (fill_each l h) b = GetBinContent h b
  /\ GetBinError (fill_each l h) b = GetBinError h b.
Proof.
  unfold fill_each. revert h. induction l as [|a l IH]; intros h; simpl.
  - split; reflexivity.
  - destruct (IH (Fill (val a) h)) as [-> ->]. split; reflexivity.
Qed.

End Loops.
