(* ===== verification/Fitter.v ===== *)
(** * Fitter: the two external fitting engines

    [BeamFitter] (track based, "BF") and [PVFitter] (vertex based, "PV") are
    classes of another package.  The module feeds every event to both, asks
    each for a fit when a luminosity block closes, and resets them.  What the
    module relies on is the call interface only, so each engine is a class
    of operations over an abstract state; the handlers are defined and
    proved for any instance.  [ListBeamFitter] and [ListPVFitter] are the
    reference instances: the state is the list of events read since the last
    reset and the fit is a function of that list. *)

From S2P Require Export Prelude Double BeamSpot.

Class BeamFitterOps : Type := {
  BeamFitter : Type;
  (** [std::make_unique<BeamFitter>(ps, consumesCollector())] *)
  bf_make : BeamFitter;
  bf_readEvent : Event -> BeamFitter -> BeamFitter;
  (** [runPVandTrkFitter()]: success, and the fitter with its result *)
  bf_runPVandTrkFitter : BeamFitter -> bool * BeamFitter;
  bf_getBeamSpot : BeamFitter -> BeamSpot;
  bf_resetTrkVector : BeamFitter -> BeamFitter;
  bf_resetLSRange : BeamFitter -> BeamFitter;
  bf_resetRefTime : BeamFitter -> BeamFitter;
  bf_resetPVFitter : BeamFitter -> BeamFitter
}.

Class PVFitterOps : Type := {
  PVFitter : Type;
  pv_make : PVFitter;
  pv_readEvent : Event -> PVFitter -> PVFitter;
  (** [runFitter()] *)
  pv_runFitter : PVFitter -> bool * PVFitter;
  pv_getBeamSpot : PVFitter -> BeamSpot;
  pv_resetAll : PVFitter -> PVFitter
}.

(** The four resets the module always calls together on the beam fitter. *)
Definition bf_resetAll `{BeamFitterOps} (f : BeamFitter) : BeamFitter :=
  bf_resetPVFitter (bf_resetRefTime (bf_resetLSRange (bf_resetTrkVector f))).

(** ** Reference instances *)

Section ListFitters.
Variable fit : list Event -> option BeamSpot.

(** The state: the events read since the last reset (oldest first) and the
    result of the last fit. *)
Definition ListFitter : Type := list Event * BeamSpot.

Definition lf_read (e : Event) (f : ListFitter) : ListFitter := (fst f ++ [e], snd f).

Definition lf_run (f : ListFitter) : bool * ListFitter :=
  match fit (fst f) with
  | Some b => (true, (fst f, b))
  | None => (false, f)
  end.

Definition lf_reset (f : ListFitter) : ListFitter := ([], snd f).

(** Reading a run of events appends them to those held. *)
Lemma lf_read_all (events : list Event) (f : ListFitter) :
  fst (fold_left (fun f e => lf_read e f) events f) = fst f ++ events.
Proof.
  revert f. induction events as [|e events IH]; intros f; simpl.
  - symmetry. apply app_nil_r.
  - rewrite IH. simpl. rewrite <- app_assoc. reflexivity.
Qed.

Definition ListBeamFitter : BeamFitterOps := {|
  BeamFitter := ListFitter;
  bf_make := ([], BeamSpot_default);
  bf_readEvent := lf_read;
  bf_runPVandTrkFitter := lf_run;
  bf_getBeamSpot := snd;
  bf_resetTrkVector := lf_reset;
  bf_resetLSRange := fun f => f;
  bf_resetRefTime := fun f => f;
  bf_resetPVFitter := fun f => f
|}.

Definition ListPVFitter : PVFitterOps := {|
  PVFitter := ListFitter;
  pv_make := ([], BeamSpot_default);
  pv_readEvent := lf_read;
  pv_runFitter := lf_run;
  pv_getBeamSpot := snd;
  pv_resetAll := lf_reset
|}.

End ListFitters.
