(* ===== verification/Catalog.v ===== *)
(** * Catalog: the constructor and [bookHistograms]

    The constructor fixes the six variable names and, unless
    [perLSsaving] is set, the sixteen (scope, category) pairs, and fills
    [histosMap_] with a null pointer for every (variable, scope, category).
    [bookHistograms] then walks [histosMap_] and decides, from the names
    alone, which entries get a histogram and with which axis.  The state of
    the module is the record [Monitor]; besides the members of the class it
    carries the framework's luminosity block cache. *)

From S2P Require Export Prelude Double StdMap BeamSpot Histo Fitter.

Local Open Scope string_scope.
Local Open Scope list_scope.

(** ** Types *)

(** A [MonitorElement*]: [None] is [nullptr]. *)
Definition ME : Type := option Histo.

(** [HistosContainer]: variable, then scope, then category. *)
Definition HistosContainer : Type := list (string * list (string * list (string * ME))).

(** The parameters the constructor reads. *)
Record ParameterSet : Type := mkParameterSet {
  ps_MonitorName : string;
  ps_perLSsaving : bool
}.

Record Monitor `{BeamFitterOps} `{PVFitterOps} : Type := mkMonitor {
  monitorName_ : string;
  perLSsaving_ : bool;
  numberOfValuesToSave_ : Z;
  theBeamFitter_ : BeamFitter;
  thePVFitter_ : PVFitter;
  processedLumis_ : list Z;
  varNamesV_ : list string;
  histoByCategoryNames_ : list (string * string);
  histosMap_ : HistosContainer;
  hD0Phi0_ : option Profile;
  hDxyBS_ : ME;
  (** the framework's [LuminosityBlockCache]: index to cached pointer *)
  lumiCache_ : gmap Z (option BeamSpotInfo)
}.

(** Assignments to members. *)
Section Setters.
Context `{BeamFitterOps} `{PVFitterOps}.

Definition set_fitters (bf : BeamFitter) (pvf : PVFitter) (m : Monitor) : Monitor :=
  mkMonitor _ _ (monitorName_ m) (perLSsaving_ m) (numberOfValuesToSave_ m) bf pvf
    (processedLumis_ m) (varNamesV_ m) (histoByCategoryNames_ m) (histosMap_ m)
    (hD0Phi0_ m) (hDxyBS_ m) (lumiCache_ m).

Definition set_processedLumis (l : list Z) (m : Monitor) : Monitor :=
  mkMonitor _ _ (monitorName_ m) (perLSsaving_ m) (numberOfValuesToSave_ m)
    (theBeamFitter_ m) (thePVFitter_ m) l (varNamesV_ m) (histoByCategoryNames_ m)
    (histosMap_ m) (hD0Phi0_ m) (hDxyBS_ m) (lumiCache_ m).

Definition set_histosMap (hm : HistosContainer) (m : Monitor) : Monitor :=
  mkMonitor _ _ (monitorName_ m) (perLSsaving_ m) (numberOfValuesToSave_ m)
    (theBeamFitter_ m) (thePVFitter_ m) (processedLumis_ m) (varNamesV_ m)
    (histoByCategoryNames_ m) hm (hD0Phi0_ m) (hDxyBS_ m) (lumiCache_ m).

Definition set_trackHistos (p : option Profile) (h : ME) (m : Monitor) : Monitor :=
  mkMonitor _ _ (monitorName_ m) (perLSsaving_ m) (numberOfValuesToSave_ m)
    (theBeamFitter_ m) (thePVFitter_ m) (processedLumis_ m) (varNamesV_ m)
    (histoByCategoryNames_ m) (histosMap_ m) p h (lumiCache_ m).

Definition set_lumiCache (c : gmap Z (option BeamSpotInfo)) (m : Monitor) : Monitor :=
  mkMonitor _ _ (monitorName_ m) (perLSsaving_ m) (numberOfValuesToSave_ m)
    (theBeamFitter_ m) (thePVFitter_ m) (processedLumis_ m) (varNamesV_ m)
    (histoByCategoryNames_ m) (histosMap_ m) (hD0Phi0_ m) (hDxyBS_ m) c.

End Setters.

(** ** Access to [histosMap_] *)

(** [histosMap_.find(v)->second.find(s)->second.find(n)], when all three
    keys exist. *)
Definition hm_find (v s n : string) (hm : HistosContainer) : option ME :=
  match sm_find v hm with
  | Some scopes =>
      match sm_find s scopes with
      | Some names => sm_find n names
      | None => None
      end
  | None => None
  end.

(** [histosMap_[v][s][n] = x]: each [operator[]] creates the entry it
    does not find. *)
Definition hm_assign (v s n : string) (x : ME) (hm : HistosContainer) : HistosContainer :=
  let scopes := default [] (sm_find v hm) in
  let names := default [] (sm_find s scopes) in
  sm_insert v (sm_insert s (sm_insert n x names) scopes) hm.

(** [histosMap_[v][s][n]] read as an rvalue: the pointer, and the container
    with the null entry the read creates when there was none. *)
Definition hm_at (v s n : string) (hm : HistosContainer) : ME * HistosContainer :=
  match hm_find v s n hm with
  | Some x => (x, hm)
  | None => (None, hm_assign v s n None hm)
  end.

(** A call on the histogram an entry points to. *)
Definition hm_update (f : Histo -> Histo) (v s n : string) (hm : HistosContainer)
  : HistosContainer :=
  sm_alter (sm_alter (sm_alter (option_map f) n) s) v hm.

Arguments hm_find : simpl never.
Arguments hm_assign : simpl never.
Arguments hm_at : simpl never.
Arguments hm_update : simpl never.

(** The keys of the container, level by level. *)
Definition hm_shape (hm : HistosContainer) : list (string * list (string * list string)) :=
  map (fun e => (fst e, map (fun e' => (fst e', sm_keys (snd e'))) (snd e))) hm.

(** Sorted keys at every level. *)
Definition scopes_sorted (scopes : list (string * list (string * ME))) : bool :=
  sm_sorted scopes && sm_forall sm_sorted scopes.

Definition hm_sorted (hm : HistosContainer) : bool :=
  sm_sorted hm && sm_forall scopes_sorted hm.

(** ** The constructor *)

(** The six [push_back]s. *)
Definition ctor_varNames : list string :=
  ["x"; "y"; "z"; "sigmaX"; "sigmaY"; "sigmaZ"].

(** The pairs in the order of the [insert] calls. *)
Definition category_inserts : list (string * string) :=
  [ ("run", "Coordinate");
    ("run", "PrimaryVertex fit-DataBase");
    ("run", "PrimaryVertex fit-BeamFit");
    ("run", "PrimaryVertex fit-Online");
    ("run", "PrimaryVertex-DataBase");
    ("run", "PrimaryVertex-BeamFit");
    ("run", "PrimaryVertex-Online");
    ("lumi", "Lumibased BeamSpotFit");
    ("lumi", "Lumibased PrimaryVertex");
    ("lumi", "Lumibased DataBase");
    ("lumi", "Lumibased Online");
    ("lumi", "Lumibased PrimaryVertex-DataBase fit");
    ("lumi", "Lumibased PrimaryVertex-Online fit");
    ("validation", "Lumibased Online-DataBase fit");
    ("validation", "Lumibased PrimaryVertex-DataBase");
    ("validation", "Lumibased PrimaryVertex-Online") ].

(** [histoByCategoryNames_] after the constructor. *)
Definition ctor_categories (perLSsaving : bool) : list (string * string) :=
  if negb perLSsaving then mm_inserts category_inserts [] else [].

(** The double loop that nulls every entry of [histosMap_]. *)
Definition ctor_histosMap (vars : list string) (cats : list (string * string))
  : HistosContainer :=
  fold_left (fun hm v =>
    fold_left (fun hm p => hm_assign v (fst p) (snd p) None hm) cats hm) vars [].

Definition AlcaBeamMonitor `{BeamFitterOps} `{PVFitterOps} (ps : ParameterSet) : Monitor :=
  let monitorName := ps_MonitorName ps in
  let monitorName :=
    if negb (monitorName =? EmptyString) then monitorName +:+ "/" else monitorName in
  let cats := ctor_categories (ps_perLSsaving ps) in
  {| monitorName_ := monitorName;
     perLSsaving_ := ps_perLSsaving ps;
     numberOfValuesToSave_ := 0;
     theBeamFitter_ := bf_resetAll bf_make;
     thePVFitter_ := pv_make;
     processedLumis_ := [];
     varNamesV_ := ctor_varNames;
     histoByCategoryNames_ := cats;
     histosMap_ := ctor_histosMap ctor_varNames cats;
     hD0Phi0_ := None;
     hDxyBS_ := None;
     lumiCache_ := ∅ |}.

(** ** [bookHistograms] *)

Definition firstLumi_book : Z := 1.
Definition lastLumi_book : Z := 3000.

Definition is_fit_diff (cat : string) : bool :=
  (cat =? "PrimaryVertex fit-DataBase") || (cat =? "PrimaryVertex fit-BeamFit")
  || (cat =? "PrimaryVertex fit-Online").

Definition is_vtx_diff (cat : string) : bool :=
  (cat =? "PrimaryVertex-DataBase") || (cat =? "PrimaryVertex-BeamFit")
  || (cat =? "PrimaryVertex-Online").

(** The pointer a "run" entry holds after the booking chain; [old] is what
    it held before (the branches that only [assert] leave it). *)
Definition book_run (folder var cat : string) (old : ME) : ME :=
  let name := "h" +:+ var +:+ cat in
  let title := var +:+ "_{0} " +:+ cat in
  if (var =? "x") || (var =? "y") then
    if cat =? "Coordinate" then Some (book1D folder name title 1001 (-0.2525) 0.2525)
    else if is_fit_diff cat || is_vtx_diff cat then
      Some (book1D folder name title 1001 (-0.02525) 0.02525)
    else old
  else if var =? "z" then
    if cat =? "Coordinate" then Some (book1D folder name title 101 (-5.05) 5.05)
    else if is_fit_diff cat then Some (book1D folder name title 101 (-0.505) 0.505)
    else if is_vtx_diff cat then Some (book1D folder name title 1001 (-5.005) 5.005)
    else old
  else if (var =? "sigmaX") || (var =? "sigmaY") then
    if cat =? "Coordinate" then Some (book1D folder name title 100 0 0.015)
    else if is_fit_diff cat || is_vtx_diff cat then None
    else old
  else if var =? "sigmaZ" then
    if cat =? "Coordinate" then Some (book1D folder name title 110 0 11)
    else if is_fit_diff cat || is_vtx_diff cat then
      Some (book1D folder name title 101 (-5.05) 5.05)
    else old
  else old.

(** The axis titles of a "run" histogram. *)
Definition title_run (var cat : string) (h : Histo) : Histo :=
  let h1 :=
    if cat =? "Coordinate" then setAxisTitle (var +:+ "_{0} (cm)") 1 h
    else if is_fit_diff cat || is_vtx_diff cat then
      setAxisTitle (cat +:+ " " +:+ var +:+ "_{0} (cm)") 1 h
    else h in
  setAxisTitle "Entries" 2 h1.

(** [s.find(c) != string::npos] *)
Fixpoint contains_char (c : ascii) (s : string) : bool :=
  match s with
  | EmptyString => false
  | String c' s' => Ascii.eqb c c' || contains_char c s'
  end.

(** The per-luminosity-block axis: one bin per block of [1..3000]. *)
Definition book_lumi_axis (folder name title : string) : Histo :=
  setEfficiencyFlag
    (book1D folder name title (lastLumi_book - firstLumi_book + 1)
       (of_int firstLumi_book - 0.5) (of_int lastLumi_book + 0.5)).

(** The pointer an entry of a scope other than "run" holds after the
    booking chain. *)
Definition book_lumi (monitorName scope var cat : string) (old : ME) : ME :=
  let name := "h" +:+ var +:+ cat in
  let title := var +:+ "_{0} " +:+ cat in
  if scope =? "lumi" then
    Some (book_lumi_axis (monitorName +:+ "Debug") name title)
  else if (scope =? "validation") && (cat =? "Lumibased Online-DataBase fit") then
    Some (book_lumi_axis (monitorName +:+ "Validation") name title)
  else if (scope =? "validation") && negb (cat =? "Lumibased Online-DataBase fit")
          && ((var =? "x") || (var =? "y") || (var =? "z")) then
    Some (book_lumi_axis (monitorName +:+ "Validation") name title)
  else if (scope =? "validation")
          && ((var =? "sigmaX") || (var =? "sigmaY") || (var =? "sigmaZ")) then
    None
  else old.

(** The axis titles of a per-luminosity-block histogram. *)
Definition title_lumi (var cat : string) (h : Histo) : Histo :=
  let h1 :=
    if contains_char "-" cat then setAxisTitle ("#Delta " +:+ var +:+ "_{0} (cm)") 2 h
    else setAxisTitle (var +:+ "_{0} (cm)") 2 h in
  setAxisTitle "Lumisection" 1 h1.

(** The first inner loop: every entry of the "run" scope of a variable. *)
Definition book_run_names (monitorName var : string) (runs : list (string * ME))
  : list (string * ME) :=
  map (fun e => (fst e,
                 option_map (title_run var (fst e))
                   (book_run (monitorName +:+ "Debug") var (fst e) (snd e)))) runs.

(** The second inner loop, for one scope: every entry of a scope other
    than "run". *)
Definition book_scope (monitorName var scope : string) (names : list (string * ME))
  : list (string * ME) :=
  if negb (scope =? "run") then
    map (fun e => (fst e,
                   option_map (title_lumi var (fst e))
                     (book_lumi monitorName scope var (fst e) (snd e)))) names
  else names.

(** One iteration of the outer loop: the entry of one variable. *)
Definition book_var (monitorName var : string) (scopes : list (string * list (string * ME)))
  : list (string * list (string * ME)) :=
  let (runs, scopes1) := sm_at [] "run" scopes in
  let scopes2 := sm_alter (fun _ => book_run_names monitorName var runs) "run" scopes1 in
  map (fun e => (fst e, book_scope monitorName var (fst e) (snd e))) scopes2.

Definition book_histosMap (monitorName : string) (hm : HistosContainer) : HistosContainer :=
  map (fun e => (fst e, book_var monitorName (fst e) (snd e))) hm.

Definition book_hD0Phi0 (monitorName : string) : Profile :=
  setProfileAxisTitle "d_{0} (cm)" 2
    (setProfileAxisTitle "#phi_{0} (rad)" 1
       (bookProfile (monitorName +:+ "Validation") "hD0Phi0"
          "d_{0} vs. #phi_{0} (All Tracks)" 63 (-3.15) 3.15 100 (-0.5) 0.5 EmptyString)).

Definition book_hDxyBS (monitorName : string) : Histo :=
  setAxisTitle "dxy_{0} w.r.t. Beam spot (cm)" 1
    (book1D (monitorName +:+ "Debug") "hDxyBS" "dxy_{0} w.r.t. Beam spot (All Tracks)"
       100 (-0.1) 0.1).

Definition bookHistograms `{BeamFitterOps} `{PVFitterOps} (m : Monitor) : Monitor :=
  set_trackHistos (Some (book_hD0Phi0 (monitorName_ m))) (Some (book_hDxyBS (monitorName_ m)))
    (set_histosMap (book_histosMap (monitorName_ m) (histosMap_ m)) m).

(** ** Lemmas on the container *)

Section Container.
Implicit Types (v s n : string) (x : ME) (hm : HistosContainer).

Definition key3_eqb (v s n v' s' n' : string) : bool :=
  (v' =? v) && (s' =? s) && (n' =? n).

Lemma key3_eqb_spec v s n v' s' n' :
  key3_eqb v s n v' s' n' = true <-> v' = v /\ s' = s /\ n' = n.
Proof.
  unfold key3_eqb. rewrite !andb_true_iff, !String.eqb_eq. tauto.
Qed.

Lemma key3_eqb_refl v s n : key3_eqb v s n v s n = true.
Proof. apply key3_eqb_spec. auto. Qed.

Lemma hm_find_assign v s n x hm v' s' n' :
  hm_find v' s' n' (hm_assign v s n x hm)
  = if key3_eqb v s n v' s' n' then Some x else hm_find v' s' n' hm.
Proof.
  cbv beta zeta delta [hm_find hm_assign key3_eqb]. rewrite sm_find_insert.
  destruct (String.eqb_spec v' v) as [->|]; cbn [andb]; [|reflexivity].
  rewrite sm_find_insert.
  destruct (String.eqb_spec s' s) as [->|]; cbn [andb].
  - rewrite sm_find_insert. destruct (String.eqb n' n); [reflexivity|].
    destruct (sm_find v hm) as [scopes|]; simpl; [|reflexivity].
    destruct (sm_find s scopes); reflexivity.
  - destruct (sm_find v hm) as [scopes|]; reflexivity.
Qed.

Lemma hm_find_update f v s n hm v' s' n' :
  hm_find v' s' n' (hm_update f v s n hm)
  = if key3_eqb v s n v' s' n'
    then option_map (option_map f) (hm_find v' s' n' hm)
    else hm_find v' s' n' hm.
Proof.
  unfold hm_find, hm_update, key3_eqb. rewrite sm_find_alter.
  destruct (String.eqb_spec v' v) as [->|]; cbn [andb]; [|reflexivity].
  destruct (sm_find v hm) as [scopes|]; cbn [option_map];
    [|destruct (_ && _); reflexivity].
  rewrite sm_find_alter.
  destruct (String.eqb_spec s' s) as [->|]; cbn [andb]; [|reflexivity].
  destruct (sm_find s scopes) as [names|]; cbn [option_map];
    [|destruct (_ =? _); reflexivity].
  rewrite sm_find_alter. destruct (String.eqb n' n); reflexivity.
Qed.

Lemma hm_shape_update f v s n hm : hm_shape (hm_update f v s n hm) = hm_shape hm.
Proof.
  unfold hm_update, hm_shape.
  induction hm as [|[v0 scopes] hm IH]; simpl; [reflexivity|].
  destruct (String.eqb v v0); simpl; [|rewrite IH; reflexivity].
  f_equal. f_equal. clear IH.
  induction scopes as [|[s0 names] scopes IH]; simpl; [reflexivity|].
  destruct (String.eqb s s0); simpl; [|rewrite IH; reflexivity].
  rewrite sm_keys_alter. reflexivity.
Qed.

Lemma hm_update_ext f g v s n hm :
  (forall h, f h = g h) -> hm_update f v s n hm = hm_update g v s n hm.
Proof.
  intros Hfg. unfold hm_update. repeat (apply sm_alter_ext; intros ?).
  destruct v2; simpl; [rewrite Hfg|]; reflexivity.
Qed.

Lemma hm_update_id f v s n hm : (forall h, f h = h) -> hm_update f v s n hm = hm.
Proof.
  intros Hf. unfold hm_update. repeat (apply sm_alter_id; intros ?).
  destruct v2; simpl; [rewrite Hf|]; reflexivity.
Qed.

(** Two calls on the same histogram are one call of the composition. *)
Lemma hm_update_compose f g v s n hm :
  hm_update g v s n (hm_update f v s n hm) = hm_update (fun h => g (f h)) v s n hm.
Proof.
  unfold hm_update. rewrite sm_alter_compose. apply sm_alter_ext. intros scopes.
  rewrite sm_alter_compose. apply sm_alter_ext. intros names.
  rewrite sm_alter_compose. apply sm_alter_ext. intros [h|]; reflexivity.
Qed.

(** A read of an existing entry leaves the container alone. *)
Lemma hm_at_present v s n x hm : hm_find v s n hm = Some x -> hm_at v s n hm = (x, hm).
Proof. unfold hm_at. intros ->. reflexivity. Qed.

(** After a read the entry exists. *)
Lemma hm_at_find v s n hm :
  hm_find v s n (snd (hm_at v s n hm)) = Some (fst (hm_at v s n hm)).
Proof.
  unfold hm_at. destruct (hm_find v s n hm) eqn:E; simpl; [exact E|].
  rewrite hm_find_assign, key3_eqb_refl. reflexivity.
Qed.

End Container.

#[export] Hint Rewrite hm_find_assign hm_find_update hm_shape_update key3_eqb_refl : abm_rw.

(** ** The constructor's tables *)

Section Constructor.
Implicit Types (v s n : string) (hm : HistosContainer)
  (vars : list string) (cats : list (string * string)).

Lemma scopes_sorted_default hm v :
  hm_sorted hm = true -> scopes_sorted (default [] (sm_find v hm)) = true.
Proof.
  intros H. apply andb_true_iff in H. destruct H as [_ H].
  destruct (sm_find v hm) eqn:E; [|reflexivity].
  exact (sm_forall_find _ _ _ _ H E).
Qed.

Lemma hm_sorted_assign v s n x hm :
  hm_sorted hm = true -> hm_sorted (hm_assign v s n x hm) = true.
Proof.
  intros H. pose proof (scopes_sorted_default hm v H) as Hsc.
  apply andb_true_iff in H. destruct H as [H1 H2].
  apply andb_true_iff in Hsc. destruct Hsc as [Hs1 Hs2].
  unfold hm_assign, hm_sorted. apply andb_true_iff; split; [apply sm_sorted_insert, H1|].
  apply sm_forall_insert; [exact H2|].
  unfold scopes_sorted. apply andb_true_iff; split; [apply sm_sorted_insert, Hs1|].
  apply sm_forall_insert; [exact Hs2|]. apply sm_sorted_insert.
  destruct (sm_find s _) eqn:E; [|reflexivity].
  exact (sm_forall_find _ _ _ _ Hs2 E).
Qed.

Lemma hm_sorted_update f v s n hm : hm_sorted (hm_update f v s n hm) = hm_sorted hm.
Proof.
  unfold hm_sorted, hm_update. rewrite sm_sorted_alter. f_equal.
  apply sm_forall_alter_eq. intros scopes.
  unfold scopes_sorted. rewrite sm_sorted_alter. f_equal.
  apply sm_forall_alter_eq. intros names. apply sm_sorted_alter.
Qed.

(** Membership in the catalog. *)
Definition in_cats cats s n : bool :=
  existsb (fun p => (s =? fst p) && (n =? snd p)) cats.

Definition in_catalog vars cats v s n : bool :=
  existsb (String.eqb v) vars && in_cats cats s n.

Lemma ctor_inner_find v cats hm v' s' n' :
  hm_find v' s' n' (fold_left (fun hm p => hm_assign v (fst p) (snd p) None hm) cats hm)
  = if (v' =? v) && in_cats cats s' n' then Some None else hm_find v' s' n' hm.
Proof.
  revert hm. induction cats as [|[s0 n0] cats IH]; intros hm; simpl.
  - rewrite andb_false_r. reflexivity.
  - rewrite IH, hm_find_assign. unfold key3_eqb. simpl.
    destruct (v' =? v), (s' =? s0), (n' =? n0), (in_cats cats s' n'); reflexivity.
Qed.

(** After the constructor every entry of the catalog exists and is null, and
    there is no other entry. *)
Lemma ctor_histosMap_find vars cats v s n :
  hm_find v s n (ctor_histosMap vars cats)
  = if in_catalog vars cats v s n then Some None else None.
Proof.
  unfold ctor_histosMap, in_catalog.
  change None with (hm_find v s n []) at 3.
  generalize (@nil (string * list (string * list (string * ME)))).
  induction vars as [|v0 vars IH]; intros hm; simpl; [reflexivity|].
  rewrite IH, ctor_inner_find.
  destruct (v =? v0), (existsb (String.eqb v) vars), (in_cats cats s n); reflexivity.
Qed.

Lemma ctor_histosMap_sorted vars cats : hm_sorted (ctor_histosMap vars cats) = true.
Proof.
  unfold ctor_histosMap. apply fold_left_invariant; [|reflexivity].
  intros hm v _ Hhm. apply fold_left_invariant; [|exact Hhm].
  intros hm' p _. apply hm_sorted_assign.
Qed.

End Constructor.

(** ** The booking table *)

Section Booking.
Implicit Types (v s n mn : string) (hm : HistosContainer).

(** What the booking makes of one entry. *)
Definition book_entry mn v s n (old : ME) : ME :=
  if s =? "run" then option_map (title_run v n) (book_run (mn +:+ "Debug") v n old)
  else option_map (title_lumi v n) (book_lumi mn s v n old).

Lemma sm_at_run (scopes : list (string * list (string * ME))) :
  let scopes1 := snd (sm_at [] "run" scopes) in
  fst (sm_at [] "run" scopes) = default [] (sm_find "run" scopes)
  /\ sm_find "run" scopes1 = Some (default [] (sm_find "run" scopes))
  /\ (forall k, k <> "run" -> sm_find k scopes1 = sm_find k scopes).
Proof.
  unfold sm_at. destruct (sm_find "run" scopes) eqn:E; simpl; [auto|].
  split; [reflexivity|]. split; [apply sm_find_insert_eq|].
  intros k Hk. apply sm_find_insert_ne, Hk.
Qed.

Lemma book_var_find mn v scopes s n :
  match sm_find s (book_var mn v scopes) with
  | Some names => sm_find n names
  | None => None
  end
  = option_map (book_entry mn v s n)
      (match sm_find s scopes with Some names => sm_find n names | None => None end).
Proof.
  unfold book_var, book_entry.
  destruct (sm_at_run scopes) as (Hfst & Hrun & Hother).
  destruct (sm_at [] "run" scopes) as [runs scopes1]. simpl in Hfst, Hrun, Hother. subst runs.
  rewrite (sm_find_map (book_scope mn v)), sm_find_alter.
  destruct (String.eqb_spec s "run") as [->|Hne].
  - rewrite Hrun. cbn [option_map]. change (book_scope mn v "run" ?x) with x.
    unfold book_run_names.
    rewrite (sm_find_map (fun n old => option_map (title_run v n)
      (book_run (mn +:+ "Debug") v n old))).
    destruct (sm_find "run" scopes); reflexivity.
  - rewrite (Hother _ Hne). destruct (sm_find s scopes) as [names|]; [|reflexivity].
    cbn [option_map]. unfold book_scope.
    destruct (String.eqb_spec s "run") as [|_]; [contradiction|]. cbn [negb].
    apply (sm_find_map (fun n old => option_map (title_lumi v n) (book_lumi mn s v n old))).
Qed.

(** Booking acts entry by entry: what an entry holds afterwards depends on
    its three names and on what it held before, and on nothing else. *)
Lemma book_histosMap_find mn hm v s n :
  hm_find v s n (book_histosMap mn hm) = option_map (book_entry mn v s n) (hm_find v s n hm).
Proof.
  unfold book_histosMap, hm_find.
  rewrite (sm_find_map (fun v scopes => book_var mn v scopes)).
  destruct (sm_find v hm) as [scopes|]; [|reflexivity].
  apply book_var_find.
Qed.

End Booking.

(** ** What is booked *)

Section Booked.
Implicit Types (v s n mn : string) (hm : HistosContainer).

Lemma book_run_names_sorted mn v runs :
  sm_sorted (book_run_names mn v runs) = sm_sorted runs.
Proof.
  apply (sm_sorted_map (fun n old => option_map (title_run v n)
    (book_run (mn +:+ "Debug") v n old))).
Qed.

Lemma book_scope_sorted mn v s names :
  sm_sorted (book_scope mn v s names) = sm_sorted names.
Proof.
  unfold book_scope. destruct (negb (s =? "run")); [|reflexivity].
  apply (sm_sorted_map (fun n old => option_map (title_lumi v n) (book_lumi mn s v n old))).
Qed.

Lemma sm_at_scopes_sorted (scopes : list (string * list (string * ME))) :
  scopes_sorted scopes = true ->
  sm_sorted (fst (sm_at [] "run" scopes)) = true
  /\ scopes_sorted (snd (sm_at [] "run" scopes)) = true.
Proof.
  unfold scopes_sorted, sm_at. intros H.
  apply andb_true_iff in H. destruct H as [H1 H2].
  destruct (sm_find "run" scopes) eqn:E; simpl.
  - rewrite H1, H2. split; [exact (sm_forall_find _ _ _ _ H2 E) | reflexivity].
  - rewrite sm_sorted_insert, sm_forall_insert; auto.
Qed.

Lemma book_var_sorted mn v scopes :
  scopes_sorted scopes = true -> scopes_sorted (book_var mn v scopes) = true.
Proof.
  intros H. apply sm_at_scopes_sorted in H. destruct H as [Hruns H].
  unfold book_var. destruct (sm_at [] "run" scopes) as [runs scopes1].
  simpl in Hruns, H. unfold scopes_sorted in *.
  apply andb_true_iff in H. destruct H as [H1 H2]. apply andb_true_iff. split.
  - rewrite (sm_sorted_map (book_scope mn v)), sm_sorted_alter. exact H1.
  - apply (sm_forall_map (book_scope mn v) sm_sorted).
    + intros k names Hn. rewrite book_scope_sorted. exact Hn.
    + apply sm_forall_alter; [exact H2|].
      intros _ _. rewrite book_run_names_sorted. exact Hruns.
Qed.

(** Booking keeps the keys sorted at every level. *)
Lemma book_histosMap_sorted mn hm :
  hm_sorted hm = true -> hm_sorted (book_histosMap mn hm) = true.
Proof.
  unfold hm_sorted, book_histosMap. intros H.
  apply andb_true_iff in H. destruct H as [H1 H2]. apply andb_true_iff. split.
  - rewrite (sm_sorted_map (book_var mn)). exact H1.
  - apply (sm_forall_map (book_var mn) scopes_sorted); [|exact H2].
    intros v scopes. apply book_var_sorted.
Qed.

(** The entries of the catalog that stay null: the six "run" differences of
    [sigmaX] and [sigmaY], and the two per-vertex series of every width.
    The per-luminosity-block fit differences are booked for the widths too. *)
Definition width_var v : bool := (v =? "sigmaX") || (v =? "sigmaY") || (v =? "sigmaZ").

Definition inactive v s n : bool :=
  ((s =? "run") && ((v =? "sigmaX") || (v =? "sigmaY")) && (is_fit_diff n || is_vtx_diff n))
  || ((s =? "validation") && width_var v && negb (n =? "Lumibased Online-DataBase fit")).

(** The histograms of the module after the constructor and the booking. *)
Definition booked_histosMap mn : HistosContainer :=
  book_histosMap mn (ctor_histosMap ctor_varNames (ctor_categories false)).

Lemma in_catalog_cases v s n :
  in_catalog ctor_varNames (ctor_categories false) v s n = true ->
  In v ctor_varNames /\ In (s, n) (ctor_categories false).
Proof.
  unfold in_catalog, in_cats. rewrite andb_true_iff, !existsb_exists.
  intros [(v' & Hv & Ev) ((s', n') & Hc & Ec)].
  apply String.eqb_eq in Ev. subst v'.
  apply andb_true_iff in Ec. simpl in Ec. rewrite !String.eqb_eq in Ec.
  destruct Ec as [-> ->]. auto.
Qed.

Lemma booked_entry mn v s n :
  in_catalog ctor_varNames (ctor_categories false) v s n = true ->
  hm_find v s n (booked_histosMap mn) = Some (book_entry mn v s n None).
Proof.
  intros H. unfold booked_histosMap.
  rewrite book_histosMap_find, ctor_histosMap_find, H. reflexivity.
Qed.

(** C35. After the constructor and [bookHistograms], an entry of the catalog is
    null exactly when it is [inactive]: the "run" differences of [sigmaX]
    and [sigmaY] and the per-vertex series of the three widths.  Every
    other entry is booked, the per-block fit differences of the widths and
    the "run" differences of [sigmaZ] included. *)
Lemma booked_null_iff mn v s n :
  in_catalog ctor_varNames (ctor_categories false) v s n = true ->
  hm_find v s n (booked_histosMap mn) = Some None <-> inactive v s n = true.
Proof.
  intros H. rewrite (booked_entry mn v s n H).
  apply in_catalog_cases in H. destruct H as [Hv Hc].
  assert (E : match book_entry mn v s n None with
              | None => true | Some _ => false end = inactive v s n).
  { repeat (destruct Hv as [<-|Hv]; [repeat (destruct Hc as [[= <- <-]|Hc];
      [vm_compute; reflexivity|]); destruct Hc |]); destruct Hv. }
  rewrite <- E. destruct (book_entry mn v s n None); split; intros H;
    solve [reflexivity | discriminate | inversion H].
Qed.

End Booked.

(** ** Duplicates *)

(** The category table holds no pair twice. *)
Lemma ctor_categories_NoDup perLS : NoDup (ctor_categories perLS).
Proof.
  destruct perLS; apply (bool_decide_unpack _); vm_compute; exact I.
Qed.

Lemma ctor_varNames_NoDup : NoDup ctor_varNames.
Proof. apply (bool_decide_unpack _). vm_compute. exact I. Qed.

(** ** The default configuration *)

Lemma booked_null_iff_witness :
  hm_find "sigmaX" "run" "PrimaryVertex-DataBase" (booked_histosMap EmptyString)
  = Some None
  <-> inactive "sigmaX" "run" "PrimaryVertex-DataBase" = true.
Proof.
  apply (booked_null_iff EmptyString "sigmaX" "run" "PrimaryVertex-DataBase"). by_eval.
Defined.

