(* ===== verification/Cache.v ===== *)
(** * Cache: [globalBeginLuminosityBlock] and [analyze]

    When a luminosity block opens the module creates the block's
    [BeamSpotInfo] and tries to put the database beam spot into it under
    "DB"; the framework caches the pointer the handler returns, under the
    block's index.  [analyze] then runs once per event: it feeds both
    fitters, fills the two track histograms when the block has a "DB" entry,
    appends the selected primary vertices of the event to the block's
    samples, and installs the scaler beam spot under "SC" if the block has
    none yet.  A handler that dereferences a null pointer is modelled as
    returning a [Fault]. *)

From S2P Require Export Prelude Double StdMap BeamSpot Histo Fitter Catalog.

Local Open Scope string_scope.
Local Open Scope list_scope.

(** ** Faults *)

Inductive Fault : Type :=
| NullCache       (** the cached [BeamSpotInfo] pointer is null *)
| NoCache         (** the framework holds no cache for the index *)
| NullHistogram.  (** a histogram pointer used before booking *)

Definition Result (A : Type) : Type := Fault + A.

(** ** [globalBeginLuminosityBlock] *)

(** The translation of the database payload into the block's "DB" entry. *)
Definition db_beamspot (spotDB : BeamSpotObjects) : BeamSpot :=
  let apoint := mkPoint (bso_x spotDB) (bso_y spotDB) (bso_z spotDB) in
  let matrix := cov_tabulate (bso_covariance spotDB) in
  let aSpot :=
    BeamSpot_make apoint (bso_sigmaZ spotDB) (bso_dxdz spotDB) (bso_dydz spotDB)
      (bso_beamWidthX spotDB) matrix in
  let aSpot := setBeamWidthY (bso_beamWidthY spotDB) aSpot in
  let aSpot := setEmittanceX (bso_emittanceX spotDB) aSpot in
  let aSpot := setEmittanceY (bso_emittanceY spotDB) aSpot in
  let aSpot := setbetaStar (bso_betaStar spotDB) aSpot in
  if (bso_beamType spotDB =? 2)%Z then setType Tracker aSpot else setType Fake aSpot.

(** The pointer the handler returns: [None] is [nullptr]. *)
Definition globalBeginLuminosityBlock (db : DBLookup) : option BeamSpotInfo :=
  let beamSpotInfo := BeamSpotInfo_empty in
  match db with
  | DBThrows => None
  | DBValid spotDB =>
      Some (set_beamSpotMap (<["DB" := db_beamspot spotDB]> (beamSpotMap_ beamSpotInfo))
              beamSpotInfo)
  | DBInvalid => Some beamSpotInfo
  end.

(** ** [analyze] *)

(** The vertex selection: not fake and at least ten tracks. *)
Definition select_vertices (pvs : list Vertex) : list pvPosAndErr :=
  map pvPosAndErr_of
    (List.filter (fun pv => negb (vtx_isFake pv || (vtx_tracksSize pv <? 10)%Z)) pvs).

(** The track loop: two [Fill]s per track. *)
Definition fill_tracks (dbpos : Point) (tracks : list Track) (ph : Profile * Histo)
  : Profile * Histo :=
  fold_left (fun ph track =>
               (Fill2 (trk_phi track) (-1 * trk_dxy track)%float (fst ph),
                Fill (-1 * trk_dxy_at track dbpos)%float (snd ph)))
    tracks ph.

(** The scaler beam spot as it is stored: type [Tracker] when its width in
    x is not zero, [Fake] otherwise. *)
Definition scaler_beamspot (recoBeamSpot : BeamSpot) : BeamSpot :=
  if dne (BeamWidthX recoBeamSpot) 0 then setType Tracker recoBeamSpot
  else setType Fake recoBeamSpot.

(** The part of [analyze] that works on the block's cache object. *)
Definition sample_event (iEvent : Event) (beamSpotInfo : BeamSpotInfo) : BeamSpotInfo :=
  let info1 :=
    match ev_vertices iEvent with
    | Some pvs => set_vertices (vertices_ beamSpotInfo ++ [select_vertices pvs]) beamSpotInfo
    | None => beamSpotInfo
    end in
  match beamSpotMap_ info1 !! "SC" with
  | None =>
      match ev_scaler iEvent with
      | Some recoBeamSpot =>
          set_beamSpotMap (<["SC" := scaler_beamspot recoBeamSpot]> (beamSpotMap_ info1)) info1
      | None => info1
      end
  | Some _ => info1
  end.

Section Analyze.
Context `{BeamFitterOps} `{PVFitterOps}.

(** The track histograms after the event. *)
Definition analyze_tracks (iEvent : Event) (beamSpotInfo : BeamSpotInfo) (m : Monitor)
  : Result (option Profile * ME) :=
  match beamSpotMap_ beamSpotInfo !! "DB" with
  | Some db =>
      match ev_tracks iEvent with
      | [] => inr (hD0Phi0_ m, hDxyBS_ m)
      | tracks =>
          match hD0Phi0_ m, hDxyBS_ m with
          | Some p, Some h =>
              let ph := fill_tracks (position db) tracks (p, h) in
              inr (Some (fst ph), Some (snd ph))
          | _, _ => inl NullHistogram
          end
      end
  | None => inr (hD0Phi0_ m, hDxyBS_ m)
  end.

Definition analyze (iEvent : Event) (m : Monitor) : Result Monitor :=
  let m1 := set_fitters (bf_readEvent iEvent (theBeamFitter_ m))
              (pv_readEvent iEvent (thePVFitter_ m)) m in
  match lumiCache_ m1 !! ev_lumiIndex iEvent with
  | None => inl NoCache
  | Some None => inl NullCache
  | Some (Some beamSpotInfo) =>
      match analyze_tracks iEvent beamSpotInfo m1 with
      | inl f => inl f
      | inr (p, h) =>
          inr (set_lumiCache
                 (<[ev_lumiIndex iEvent := Some (sample_event iEvent beamSpotInfo)]>
                    (lumiCache_ m1))
                 (set_trackHistos p h m1))
      end
  end.

(** The framework's part of opening a block: the returned pointer is cached
    under the block's index. *)
Definition open_lumi (index : Z) (db : DBLookup) (m : Monitor) : Monitor :=
  set_lumiCache (<[index := globalBeginLuminosityBlock db]> (lumiCache_ m)) m.

(** A run of events, stopping at the first fault. *)
Fixpoint analyze_all (events : list Event) (m : Monitor) : Result Monitor :=
  match events with
  | [] => inr m
  | e :: events' =>
      match analyze e m with
      | inl f => inl f
      | inr m' => analyze_all events' m'
      end
  end.

End Analyze.

(** ** The database entry *)

Section BeginLumi.

Lemma db_beamspot_type spotDB :
  type_ (db_beamspot spotDB) = if (bso_beamType spotDB =? 2)%Z then Tracker else Fake.
Proof. unfold db_beamspot. destruct (bso_beamType spotDB =? 2)%Z; reflexivity. Qed.

End BeginLumi.

(** ** Sampling *)

Section Sampling.
Implicit Types (e : Event) (info : BeamSpotInfo) (pvs : list Vertex).

(** C36. A sample is recorded for exactly the vertices that are not fake and
    have at least ten tracks. *)
Lemma select_vertices_In pvs p :
  In p (select_vertices pvs)
  <-> exists pv, In pv pvs /\ vtx_isFake pv = false /\ (10 <= vtx_tracksSize pv)%Z
                 /\ p = pvPosAndErr_of pv.
Proof.
  unfold select_vertices. rewrite in_map_iff. split.
  - intros (pv & <- & Hin). apply filter_In in Hin. destruct Hin as [Hin Hsel].
    apply negb_true_iff, orb_false_iff in Hsel. destruct Hsel as [Hf Ht].
    apply Z.ltb_ge in Ht. eauto.
  - intros (pv & Hin & Hf & Ht & ->). exists pv. split; [reflexivity|].
    apply filter_In. split; [exact Hin|].
    apply negb_true_iff, orb_false_iff. split; [exact Hf | apply Z.ltb_ge, Ht].
Qed.

(** The selection keeps the order of the collection. *)
Lemma select_vertices_app pvs1 pvs2 :
  select_vertices (pvs1 ++ pvs2) = select_vertices pvs1 ++ select_vertices pvs2.
Proof. unfold select_vertices. rewrite List.filter_app, map_app. reflexivity. Qed.

(** What one event adds to the samples of its block. *)
Definition event_samples e : list (list pvPosAndErr) :=
  match ev_vertices e with
  | Some pvs => [select_vertices pvs]
  | None => []
  end.

Lemma sample_event_vertices e info :
  vertices_ (sample_event e info) = vertices_ info ++ event_samples e.
Proof.
  unfold sample_event, event_samples.
  destruct (ev_vertices e) as [pvs|]; simpl; rewrite ?app_nil_r;
    destruct (beamSpotMap_ info !! "SC"); try reflexivity;
    destruct (ev_scaler e); reflexivity.
Qed.

(** Only the key "SC" of the bag can change, and only from absent. *)
Lemma sample_event_beamSpotMap e info key :
  beamSpotMap_ (sample_event e info) !! key
  = match beamSpotMap_ info !! "SC", ev_scaler e with
    | None, Some b => if key =? "SC" then Some (scaler_beamspot b)
                      else beamSpotMap_ info !! key
    | _, _ => beamSpotMap_ info !! key
    end.
Proof.
  unfold sample_event.
  destruct (ev_vertices e) as [pvs|]; simpl;
    (destruct (beamSpotMap_ info !! "SC") eqn:ESC; [reflexivity|]);
    (destruct (ev_scaler e) as [b|]; [|reflexivity]); simpl;
    (destruct (String.eqb_spec key "SC") as [->|Hne];
      [apply lookup_insert_eq | apply lookup_insert_ne; congruence]).
Qed.

Lemma scaler_beamspot_type b :
  type_ (scaler_beamspot b) = if dne (BeamWidthX b) 0 then Tracker else Fake.
Proof. unfold scaler_beamspot. destruct (dne (BeamWidthX b) 0); reflexivity. Qed.

Lemma scaler_beamspot_x0 b : x0 (scaler_beamspot b) = x0 b.
Proof. unfold scaler_beamspot. destruct (dne (BeamWidthX b) 0); reflexivity. Qed.

End Sampling.

(** ** One event *)

Section AnalyzeFacts.
Context `{BeamFitterOps} `{PVFitterOps}.
Implicit Types (e : Event) (m : Monitor) (info : BeamSpotInfo) (idx : Z).

(** Both track histograms exist ([bookHistograms] has run). *)
Definition track_histos_booked m : bool :=
  match hD0Phi0_ m, hDxyBS_ m with
  | Some _, Some _ => true
  | _, _ => false
  end.

Lemma analyze_tracks_booked e info m :
  track_histos_booked m = true ->
  exists p h, analyze_tracks e info (set_fitters (bf_readEvent e (theBeamFitter_ m))
                (pv_readEvent e (thePVFitter_ m)) m) = inr (Some p, Some h).
Proof.
  unfold track_histos_booked, analyze_tracks. simpl.
  destruct (hD0Phi0_ m) as [p|], (hDxyBS_ m) as [h|]; try discriminate. intros _.
  destruct (beamSpotMap_ info !! "DB"); [destruct (ev_tracks e)|]; eauto.
Qed.

(** An event of a block whose cache pointer is null faults. *)
Lemma analyze_null_cache e m :
  lumiCache_ m !! ev_lumiIndex e = Some None -> analyze e m = inl NullCache.
Proof. unfold analyze. simpl. intros ->. reflexivity. Qed.

(** An event of an open block, after booking: the handler returns, the
    block's cache object is sampled, both fitters have read the event, and
    the histogram container, the processed blocks and the caches of the
    other blocks are as before. *)
Lemma analyze_ok e m info :
  track_histos_booked m = true ->
  lumiCache_ m !! ev_lumiIndex e = Some (Some info) ->
  exists m', analyze e m = inr m'
    /\ lumiCache_ m' = <[ev_lumiIndex e := Some (sample_event e info)]> (lumiCache_ m)
    /\ theBeamFitter_ m' = bf_readEvent e (theBeamFitter_ m)
    /\ thePVFitter_ m' = pv_readEvent e (thePVFitter_ m)
    /\ histosMap_ m' = histosMap_ m
    /\ processedLumis_ m' = processedLumis_ m
    /\ track_histos_booked m' = true.
Proof.
  intros Hb Hc. destruct (analyze_tracks_booked e info m Hb) as (p & h & Ht).
  unfold analyze. simpl. rewrite Hc, Ht.
  eexists. split; [reflexivity|]. repeat split; reflexivity.
Qed.

(** ** A run of events *)

(** The cache object of block [idx] after the events, starting from [info]. *)
Definition sample_events idx (events : list Event) info : BeamSpotInfo :=
  fold_left (fun i e => if (ev_lumiIndex e =? idx)%Z then sample_event e i else i) events info.

(** The samples the events of block [idx] contribute, in event order. *)
Definition lumi_samples idx (events : list Event) : list (list pvPosAndErr) :=
  flat_map (fun e => if (ev_lumiIndex e =? idx)%Z then event_samples e else []) events.

(** Every event belongs to a block with a non-null cache pointer. *)
Definition lumis_open (events : list Event) m : Prop :=
  forall e, In e events -> exists info, lumiCache_ m !! ev_lumiIndex e = Some (Some info).

Lemma analyze_cache e m m' idx :
  analyze e m = inr m' ->
  lumiCache_ m' !! idx
  = option_map (option_map (sample_events idx [e])) (lumiCache_ m !! idx).
Proof.
  unfold analyze. simpl.
  destruct (lumiCache_ m !! ev_lumiIndex e) as [[info|]|] eqn:Hc; try discriminate.
  destruct (analyze_tracks _ _ _) as [|[p h]]; [discriminate|].
  intros [= <-]. unfold sample_events. simpl.
  destruct (Z.eqb_spec (ev_lumiIndex e) idx) as [<-|Hne].
  - rewrite lookup_insert_eq, Hc. reflexivity.
  - rewrite lookup_insert_ne by exact Hne.
    destruct (lumiCache_ m !! idx) as [[i|]|]; reflexivity.
Qed.

(** The cache after a run of events: each block's object has been sampled by
    the block's own events, in their order; the events of other blocks do
    not touch it. *)
Lemma analyze_all_cache events m m' idx :
  analyze_all events m = inr m' ->
  lumiCache_ m' !! idx
  = option_map (option_map (sample_events idx events)) (lumiCache_ m !! idx).
Proof.
  revert m. induction events as [|e events IH]; intros m Hall; simpl in Hall.
  - injection Hall as <-. destruct (lumiCache_ m !! idx) as [[i|]|]; reflexivity.
  - destruct (analyze e m) as [|m1] eqn:E1; [discriminate|].
    rewrite (IH m1 Hall), (analyze_cache e m m1 idx E1).
    destruct (lumiCache_ m !! idx) as [[i|]|]; reflexivity.
Qed.

Lemma sample_events_vertices idx events info :
  vertices_ (sample_events idx events info) = vertices_ info ++ lumi_samples idx events.
Proof.
  unfold sample_events, lumi_samples. revert info.
  induction events as [|e events IH]; intros info; simpl; [rewrite app_nil_r; reflexivity|].
  rewrite IH. destruct (ev_lumiIndex e =? idx)%Z; [|reflexivity].
  rewrite sample_event_vertices, <- app_assoc. reflexivity.
Qed.

(** The "DB" entry is fixed when the block opens: no event changes it. *)
Lemma sample_events_DB idx events info :
  beamSpotMap_ (sample_events idx events info) !! "DB" = beamSpotMap_ info !! "DB".
Proof.
  unfold sample_events. revert info.
  induction events as [|e events IH]; intros info; simpl; [reflexivity|].
  rewrite IH. destruct (ev_lumiIndex e =? idx)%Z; [|reflexivity].
  rewrite sample_event_beamSpotMap.
  destruct (beamSpotMap_ info !! "SC"), (ev_scaler e); reflexivity.
Qed.

(** Only the block's own events matter, in their relative order: two
    interleavings of the same per-block streams leave the same object. *)
Lemma sample_events_filter idx events info :
  sample_events idx events info
  = sample_events idx (List.filter (fun e => (ev_lumiIndex e =? idx)%Z) events) info.
Proof.
  unfold sample_events. revert info.
  induction events as [|e events IH]; intros info; simpl; [reflexivity|].
  destruct (ev_lumiIndex e =? idx)%Z eqn:E; simpl; rewrite ?E; apply IH.
Qed.

Lemma analyze_lumis_open e m m' events :
  analyze e m = inr m' -> lumis_open events m -> lumis_open events m'.
Proof.
  intros Ha Ho e' Hin. destruct (Ho e' Hin) as [info Hc].
  rewrite (analyze_cache e m m' _ Ha), Hc. simpl. eauto.
Qed.

(** After booking, a run of events of open blocks never faults. *)
Lemma analyze_all_total events m :
  track_histos_booked m = true -> lumis_open events m ->
  exists m', analyze_all events m = inr m'.
Proof.
  revert m. induction events as [|e events IH]; intros m Hb Ho; simpl; [eauto|].
  destruct (Ho e (or_introl eq_refl)) as [info Hc].
  destruct (analyze_ok e m info Hb Hc) as (m1 & E1 & _ & _ & _ & _ & _ & Hb1).
  rewrite E1. apply IH; [exact Hb1|].
  apply (analyze_lumis_open e m m1 events E1).
  intros e' He'. apply Ho. right. exact He'.
Qed.

(** The samples of a block are the same, up to their order, whatever the
    order of the events. *)
#[export] Instance lumi_samples_Permutation idx :
  Proper (@Permutation Event ==> @Permutation (list pvPosAndErr)) (lumi_samples idx).
Proof. intros l l' E. unfold lumi_samples. apply Permutation_flat_map, E. Qed.

Lemma sample_events_Permutation idx events events' info :
  Permutation events events' ->
  Permutation (vertices_ (sample_events idx events info))
    (vertices_ (sample_events idx events' info)).
Proof. intros E. rewrite !sample_events_vertices, E. reflexivity. Qed.

(** The scaler beam spot of a block is stored once: an entry under "SC" is
    never replaced by a later event. *)
Lemma sample_event_SC e info b :
  beamSpotMap_ info !! "SC" = Some b -> beamSpotMap_ (sample_event e info) !! "SC" = Some b.
Proof.
  intros Hsc. rewrite sample_event_beamSpotMap, Hsc. reflexivity.
Qed.

(** C37. The first event of a block that carries a scaler record decides the
    block's online beam spot; the type is [Tracker] exactly when its width
    along x is not zero. *)
Theorem sample_events_SC_first idx events e later info b :
  beamSpotMap_ info !! "SC" = None ->
  Forall (fun e' => ev_lumiIndex e' = idx -> ev_scaler e' = None) events ->
  ev_lumiIndex e = idx -> ev_scaler e = Some b ->
  beamSpotMap_ (sample_events idx (events ++ e :: later) info) !! "SC"
  = Some (scaler_beamspot b).
Proof.
  intros Hnone Hall He Hb. unfold sample_events. rewrite fold_left_app. simpl.
  rewrite <- He, Z.eqb_refl.
  set (info1 := fold_left _ events info).
  assert (H1 : beamSpotMap_ info1 !! "SC" = None).
  { subst info1. revert info Hnone.
    induction Hall as [|e' events He' Hall IH]; intros info Hnone; simpl; [exact Hnone|].
    apply IH. destruct (Z.eqb_spec (ev_lumiIndex e') (ev_lumiIndex e)) as [E|_];
      [|exact Hnone].
    rewrite sample_event_beamSpotMap, Hnone, (He' (eq_trans E He)). reflexivity. }
  apply (fold_left_invariant
           (fun i => beamSpotMap_ i !! "SC" = Some (scaler_beamspot b))).
  - intros i e' _ Hi. destruct (_ =? _)%Z; [apply sample_event_SC|]; exact Hi.
  - rewrite sample_event_beamSpotMap, H1, Hb. reflexivity.
Qed.

(** C33. The outcome of [analyze], fault by fault: no cache entry, a null cache
    entry (the block's opening threw), tracks to fill into histograms that
    were not booked, or the sampled bag stored back. *)
Theorem analyze_outcomes e m :
  match analyze e m with
  | inl NoCache => lumiCache_ m !! ev_lumiIndex e = None
  | inl NullCache => lumiCache_ m !! ev_lumiIndex e = Some None
  | inl NullHistogram =>
      exists info db, lumiCache_ m !! ev_lumiIndex e = Some (Some info)
        /\ beamSpotMap_ info !! "DB" = Some db /\ ev_tracks e <> []
        /\ track_histos_booked m = false
  | inr m' =>
      exists info, lumiCache_ m !! ev_lumiIndex e = Some (Some info)
        /\ lumiCache_ m' !! ev_lumiIndex e = Some (Some (sample_event e info))
        /\ theBeamFitter_ m' = bf_readEvent e (theBeamFitter_ m)
        /\ thePVFitter_ m' = pv_readEvent e (thePVFitter_ m)
  end.
Proof.
  unfold analyze. simpl.
  destruct (lumiCache_ m !! ev_lumiIndex e) as [[info|]|] eqn:Hc; try reflexivity.
  unfold analyze_tracks, track_histos_booked. simpl.
  destruct (beamSpotMap_ info !! "DB") as [db|] eqn:Hdb;
    [destruct (ev_tracks e) as [|t ts] eqn:Ht;
       [|destruct (hD0Phi0_ m), (hDxyBS_ m);
         try (exists info, db; repeat split; [exact Hdb | discriminate])]|];
    exists info; simpl; rewrite lookup_insert_eq; auto.
Qed.

(** C32. The samples of a block after a run of events: the vertices selected
    from the block's own events, in their order, whatever events of other
    blocks came in between; the database entry is as the block was opened. *)
Theorem analyze_all_samples events m m' idx info :
  analyze_all events m = inr m' -> lumiCache_ m !! idx = Some (Some info) ->
  exists info', lumiCache_ m' !! idx = Some (Some info')
    /\ vertices_ info' = vertices_ info ++ lumi_samples idx events
    /\ beamSpotMap_ info' !! "DB" = beamSpotMap_ info !! "DB".
Proof.
  intros Hrun Hc. exists (sample_events idx events info).
  rewrite (analyze_all_cache events m m' idx Hrun), Hc.
  split; [reflexivity|]. split; [apply sample_events_vertices | apply sample_events_DB].
Qed.

End AnalyzeFacts.
