(* ===== verification/Scenario.v ===== *)
(** * Scenario: the end-to-end example of the specification

    Luminosity block 5 of a run: the conditions database gives
    x = 0.01 +- 0.001, the primary-vertex fit gives x = 0.012 +- 0.002, and
    three vertices were sampled with x = 0.011, 0.013 and 0.009, each with
    error 0.003.  The data below are the inputs on which the theorems of the
    later files are instantiated; every statement about them is evaluated
    by the kernel on IEEE doubles. *)

From S2P Require Export Prelude Double StdMap BeamSpot Histo Fitter Catalog Cache.

Local Open Scope string_scope.
Local Open Scope list_scope.

Module Scenario.

(** A covariance matrix with the same variance in each diagonal entry. *)
Definition cov (variance : double) : CovarianceMatrix :=
  cov_tabulate (fun i j => if (i =? j)%nat then variance else 0%float).

(** A beam spot at [x] whose error in every coordinate is [ex]. *)
Definition spot (x ex : double) (t : BeamType) : BeamSpot :=
  mkBeamSpot (mkPoint x 0 0) 5 0 0 0.003 0.003 0 0 0 (cov (ex * ex)%float) t.

Definition vertex (x : double) : pvPosAndErr :=
  mkPvPosAndErr (x, 0%float, 0%float) (0.003%float, 0.003%float, 0.003%float).

Definition lumi : Z := 5.

Definition samples : list (list pvPosAndErr) :=
  [[vertex 0.011; vertex 0.013; vertex 0.009]].

Definition db : BeamSpot := spot 0.01 0.001 Tracker.
Definition pv : BeamSpot := spot 0.012 0.002 Tracker.

(** Value and error of x in the two estimates, as the projection reads them
    (the error is the square root of the variance). *)
Definition db_x : double * double := (0.01, sqrt (0.001 * 0.001))%float.
Definition pv_x : double * double := (0.012, sqrt (0.002 * 0.002))%float.

(** The bag of block 5 when its end is reached: database and vertex fit. *)
Definition info : BeamSpotInfo :=
  mkBeamSpotInfo samples (<["PV" := pv]> (<["DB" := db]> ∅)).

(** The same block when the database payload is of type [Fake]. *)
Definition info_fake : BeamSpotInfo :=
  mkBeamSpotInfo samples (<["PV" := pv]> (<["DB" := spot 0.01 0.001 Fake]> ∅)).

(** A block whose database payload is of type [Fake], with an online
    beam spot x = 0.011 +- 0.002 and the vertex fit. *)
Definition info_fake_sc : BeamSpotInfo :=
  mkBeamSpotInfo samples
    (<["SC" := spot 0.011 0.002 Tracker]>
       (<["PV" := pv]> (<["DB" := spot 0.01 0.001 Fake]> ∅))).

(** The same block with no database entry and no fit. *)
Definition info_none : BeamSpotInfo := mkBeamSpotInfo samples ∅.

(** The container after the constructor and [bookHistograms], for the
    default configuration (empty monitor name, per-block saving off). *)
Definition histos : HistosContainer := booked_histosMap EmptyString.

Definition cats : list (string * string) := ctor_categories false.

(** The histogram booked for an entry of the catalog. *)
Definition booked (var scope cat : string) : Histo :=
  match hm_find var scope cat histos with
  | Some (Some h) => h
  | _ => book1D EmptyString EmptyString EmptyString 0 0 0
  end.

(** Projected values of x for all four sources. *)
Definition all_four : gmap string (double * double) :=
  <["SC" := (0.011, 0.002)%float]> (<["BF" := (0.0115, 0.002)%float]>
    (<["PV" := pv_x]> (<["DB" := db_x]> ∅))).

(** Two events of the block with cache index 0, one selected vertex
    each. *)
Definition event_a : Event :=
  mkEvent 0 [] (Some [mkVertex false 20 0.011 0 0 0.003 0.003 0.003]) None.
Definition event_b : Event :=
  mkEvent 0 [] (Some [mkVertex false 12 0.013 0 0 0.003 0.003 0.003]) None.

End Scenario.
