(* ===== verification/Engine.v ===== *)
(** * Engine: [globalEndLuminosityBlock]

    When a luminosity block closes the module records the block number,
    asks both fitters for a beam spot (storing it under "BF" and "PV" when
    the fit succeeds) and resets them, and then, for each of the six
    variables, projects the beam spots of type [Tracker] into [resultsMap]
    (key to value and error), gathers the vertex samples of the block into
    [vertexResults], and walks the category table: each category with a
    booked histogram fills it or sets the block's bin, provided the entries
    it reads are in [resultsMap].

    [resultsMap] and [histosMap_] are mutated along the walk, the first
    through [operator[]], the second through the histogram pointers; the
    walk is therefore written in the state monad over [Loc]. *)

From S2P Require Export Prelude Double StdMap BeamSpot Histo Fitter Catalog Cache.

Local Open Scope string_scope.
Local Open Scope list_scope.
Local Open Scope st_scope.

(** ** The fitters *)

Section Fitters.
Context `{BeamFitterOps} `{PVFitterOps}.

(** Run both fits, store what they deliver, reset both fitters. *)
Definition run_fitters (beamSpotInfo : BeamSpotInfo) (bf : BeamFitter) (pvf : PVFitter)
  : BeamSpotInfo * BeamFitter * PVFitter :=
  let (okBF, bf1) := bf_runPVandTrkFitter bf in
  let info1 :=
    if okBF then
      set_beamSpotMap (<["BF" := bf_getBeamSpot bf1]> (beamSpotMap_ beamSpotInfo)) beamSpotInfo
    else beamSpotInfo in
  let bf2 := bf_resetPVFitter (bf_resetRefTime (bf_resetLSRange (bf_resetTrkVector bf1))) in
  let (okPV, pvf1) := pv_runFitter pvf in
  let info2 :=
    if okPV then
      set_beamSpotMap (<["PV" := pv_getBeamSpot pvf1]> (beamSpotMap_ info1)) info1
    else info1 in
  (info2, bf2, pv_resetAll pvf1).

(** The bag after the fits: a successful fit is stored under its key, the
    other entries and the vertex samples are as they were. *)
Lemma run_fitters_bag beamSpotInfo bf pvf key :
  let info := fst (fst (run_fitters beamSpotInfo bf pvf)) in
  vertices_ info = vertices_ beamSpotInfo
  /\ beamSpotMap_ info !! key
     = if (key =? "PV") && fst (pv_runFitter pvf)
       then Some (pv_getBeamSpot (snd (pv_runFitter pvf)))
       else if (key =? "BF") && fst (bf_runPVandTrkFitter bf)
       then Some (bf_getBeamSpot (snd (bf_runPVandTrkFitter bf)))
       else beamSpotMap_ beamSpotInfo !! key.
Proof.
  unfold run_fitters.
  destruct (bf_runPVandTrkFitter bf) as [okBF bf1], (pv_runFitter pvf) as [okPV pvf1].
  simpl. split; [destruct okBF, okPV; reflexivity|].
  destruct (String.eqb_spec key "PV") as [Hpv|Hpv], (String.eqb_spec key "BF") as [Hbf|Hbf],
    okBF, okPV; subst; simpl; try discriminate;
    rewrite ?lookup_insert_eq, ?lookup_insert_ne by congruence;
    rewrite ?lookup_insert_eq, ?lookup_insert_ne by congruence; reflexivity.
Qed.

(** When neither fit succeeds the bag is as it was. *)
Lemma run_fitters_failed beamSpotInfo bf pvf :
  fst (bf_runPVandTrkFitter bf) = false -> fst (pv_runFitter pvf) = false ->
  fst (fst (run_fitters beamSpotInfo bf pvf)) = beamSpotInfo.
Proof.
  unfold run_fitters.
  destruct (bf_runPVandTrkFitter bf) as [okBF bf1], (pv_runFitter pvf) as [okPV pvf1].
  simpl. intros -> ->. reflexivity.
Qed.

(** Both fitters are reset, whatever the fits gave. *)
Lemma run_fitters_reset beamSpotInfo bf pvf :
  snd (fst (run_fitters beamSpotInfo bf pvf))
  = bf_resetAll (snd (bf_runPVandTrkFitter bf))
  /\ snd (run_fitters beamSpotInfo bf pvf) = pv_resetAll (snd (pv_runFitter pvf)).
Proof.
  unfold run_fitters.
  destruct (bf_runPVandTrkFitter bf) as [okBF bf1], (pv_runFitter pvf) as [okPV pvf1].
  split; reflexivity.
Qed.

End Fitters.

(** ** The projections of one variable *)

(** Value and error of a variable in a beam spot; [None] for a name that is
    none of the six. *)
Definition project (var : string) (bs : BeamSpot) : option (double * double) :=
  if var =? "x" then Some (x0 bs, x0Error bs)
  else if var =? "y" then Some (y0 bs, y0Error bs)
  else if var =? "z" then Some (z0 bs, z0Error bs)
  else if var =? "sigmaX" then Some (BeamWidthX bs, BeamWidthXError bs)
  else if var =? "sigmaY" then Some (BeamWidthY bs, BeamWidthYError bs)
  else if var =? "sigmaZ" then Some (sigmaZ bs, sigmaZ0Error bs)
  else None.

(** The loop over [beamSpotMap_] that fills [resultsMap]. *)
Definition build_resultsMap (var : string) (beamSpotMap : gmap string BeamSpot)
  : gmap string (double * double) :=
  map_fold (fun key bs resultsMap =>
              if is_tracker (type_ bs) then
                match project var bs with
                | Some p => <[key := p]> resultsMap
                | None => resultsMap
                end
              else resultsMap) ∅ beamSpotMap.

(** Value and error of a variable in a vertex sample; the widths have none. *)
Definition vertex_project (var : string) (pv : pvPosAndErr) : option (double * double) :=
  if var =? "x" then Some (xWithError pv)
  else if var =? "y" then Some (yWithError pv)
  else if var =? "z" then Some (zWithError pv)
  else None.

(** The double loop over [vertices_] that fills [vertexResults]. *)
Definition build_vertexResults (var : string) (vertices : list (list pvPosAndErr))
  : list (double * double) :=
  fold_left (fun acc itPV =>
    fold_left (fun acc pv =>
                 match vertex_project var pv with
                 | Some p => acc ++ [p]
                 | None => acc
                 end) itPV acc) vertices [].

(** ** The walk over the categories *)

(** The locals the walk mutates. *)
Record Loc : Type := mkLoc {
  resultsMap : gmap string (double * double);
  hmap : HistosContainer
}.

(** [resultsMap.find(key) != resultsMap.end()] *)
Definition rm_has (key : string) : St Loc bool :=
  fun s => (has_key key (resultsMap s), s).

(** [resultsMap[key]]: inserts a zero pair when the key is absent. *)
Definition rm_at (key : string) : St Loc (double * double) :=
  fun s =>
    match resultsMap s !! key with
    | Some p => (p, s)
    | None => ((0%float, 0%float),
               mkLoc (<[key := (0%float, 0%float)]> (resultsMap s)) (hmap s))
    end.

(** [histo = histosMap_[var][scope][cat]] *)
Definition histo_at (var scope cat : string) : St Loc ME :=
  fun s => let (x, hm) := hm_at var scope cat (hmap s) in (x, mkLoc (resultsMap s) hm).

(** A call through [histo]. *)
Definition on_histo (var scope cat : string) (f : Histo -> Histo) : St Loc unit :=
  modify (fun s => mkLoc (resultsMap s) (hm_update f var scope cat (hmap s))).

Section Categories.
(** The histogram the current category writes to, the block number, the
    block's bag and the vertex projections. *)
Variable upd : (Histo -> Histo) -> St Loc unit.
Variable lumi : Z.
Variable beamSpotMap : gmap string BeamSpot.
Variable vertexResults : list (double * double).

(** "Coordinate": the test looks into [beamSpotMap_], the read into
    [resultsMap]. *)
Definition fill_coordinate : St Loc unit :=
  when (has_key "DB" beamSpotMap)
    (let* db := rm_at "DB" in upd (Fill (fst db))).

(** "PrimaryVertex fit-X": one entry, the difference of two fits. *)
Definition fill_diff (a b : string) : St Loc unit :=
  let* ha := rm_has a in let* hb := rm_has b in
  when (ha && hb)
    (let* pa := rm_at a in let* pb := rm_at b in upd (Fill (fst pa - fst pb)%float)).

(** "PrimaryVertex-X": one entry per sampled vertex. *)
Definition fill_vertex_diff (a b : string) : St Loc unit :=
  let* ha := rm_has a in let* hb := rm_has b in
  when (ha && hb)
    (for_each vertexResults (fun itPV =>
       let* pb := rm_at b in upd (Fill (fst itPV - fst pb)%float))).

(** "Lumibased S": value and error of one source in the block's bin. *)
Definition set_value (a : string) : St Loc unit :=
  let* ha := rm_has a in
  when ha
    (let* pa := rm_at a in upd (setBinContent lumi (fst pa)) ;;
     let* pa' := rm_at a in upd (setBinError lumi (snd pa'))).

(** "Lumibased S1-S2 fit": difference and quadrature error in the block's
    bin. *)
Definition set_diff (a b : string) : St Loc unit :=
  let* ha := rm_has a in let* hb := rm_has b in
  when (ha && hb)
    (let* pa := rm_at a in let* pb := rm_at b in
     upd (setBinContent lumi (fst pa - fst pb)%float) ;;
     let* pa' := rm_at a in let* pb' := rm_at b in
     upd (setBinError lumi (quad_sum (snd pa') (snd pb')))).

(** "Lumibased PrimaryVertex-X": every sampled vertex is written to the
    block's bin, one after the other. *)
Definition set_vertex_diff (b : string) : St Loc unit :=
  let* hb := rm_has b in
  when (hb && negb (match vertexResults with [] => true | _ => false end))
    (for_each vertexResults (fun itPV =>
       let* pb := rm_at b in
       upd (setBinContent lumi (fst itPV - fst pb)%float) ;;
       let* pb' := rm_at b in
       upd (setBinError lumi (quad_sum (snd itPV) (snd pb'))))).

(** The chain of comparisons on the category name. *)
Definition dispatch (cat : string) : St Loc unit :=
  if cat =? "Coordinate" then fill_coordinate
  else if cat =? "PrimaryVertex fit-DataBase" then fill_diff "PV" "DB"
  else if cat =? "PrimaryVertex fit-BeamFit" then fill_diff "PV" "BF"
  else if cat =? "PrimaryVertex fit-Online" then fill_diff "PV" "SC"
  else if cat =? "PrimaryVertex-DataBase" then fill_vertex_diff "PV" "DB"
  else if cat =? "PrimaryVertex-BeamFit" then fill_vertex_diff "PV" "BF"
  else if cat =? "PrimaryVertex-Online" then fill_vertex_diff "PV" "SC"
  else if cat =? "Lumibased BeamSpotFit" then set_value "BF"
  else if cat =? "Lumibased PrimaryVertex" then set_value "PV"
  else if cat =? "Lumibased DataBase" then set_value "DB"
  else if cat =? "Lumibased Online" then set_value "SC"
  else if cat =? "Lumibased PrimaryVertex-DataBase fit" then set_diff "PV" "DB"
  else if cat =? "Lumibased PrimaryVertex-Online fit" then set_diff "PV" "SC"
  else if cat =? "Lumibased Online-DataBase fit" then set_diff "SC" "DB"
  else if cat =? "Lumibased PrimaryVertex-DataBase" then set_vertex_diff "DB"
  else if cat =? "Lumibased PrimaryVertex-Online" then set_vertex_diff "SC"
  else ret tt.

End Categories.

(** One iteration of the loop over [histoByCategoryNames_]. *)
Definition fill_category (lumi : Z) (beamSpotMap : gmap string BeamSpot)
    (vertexResults : list (double * double)) (var scope cat : string) : St Loc unit :=
  let* histo := histo_at var scope cat in
  match histo with
  | None => ret tt
  | Some _ => dispatch (on_histo var scope cat) lumi beamSpotMap vertexResults cat
  end.

(** One iteration of the loop over [varNamesV_]. *)
Definition endLumi_var (lumi : Z) (beamSpotInfo : BeamSpotInfo)
    (cats : list (string * string)) (hm : HistosContainer) (var : string)
  : HistosContainer :=
  let rm := build_resultsMap var (beamSpotMap_ beamSpotInfo) in
  let vr := build_vertexResults var (vertices_ beamSpotInfo) in
  hmap (exec (for_each cats (fun itM =>
                fill_category lumi (beamSpotMap_ beamSpotInfo) vr var (fst itM) (snd itM)))
          (mkLoc rm hm)).

(** The loop over [varNamesV_]. *)
Definition endLumi_vars (lumi : Z) (beamSpotInfo : BeamSpotInfo)
    (cats : list (string * string)) (vars : list string) (hm : HistosContainer)
  : HistosContainer :=
  fold_left (endLumi_var lumi beamSpotInfo cats) vars hm.

Section Handler.
Context `{BeamFitterOps} `{PVFitterOps}.

(** The handler, for the block numbered [lumi] whose cache index is
    [index]. *)
Definition globalEndLuminosityBlock (lumi index : Z) (m : Monitor) : Result Monitor :=
  let m1 := set_processedLumis (processedLumis_ m ++ [lumi]) m in
  match lumiCache_ m1 !! index with
  | None => inl NoCache
  | Some None => inl NullCache
  | Some (Some beamSpotInfo) =>
      let '(info, bf, pvf) := run_fitters beamSpotInfo (theBeamFitter_ m1) (thePVFitter_ m1) in
      let hm := endLumi_vars lumi info (histoByCategoryNames_ m1)
                  (varNamesV_ m1) (histosMap_ m1) in
      inr (set_lumiCache (<[index := Some info]> (lumiCache_ m1))
             (set_histosMap hm (set_fitters bf pvf m1)))
  end.

End Handler.

(** ** What a category does, as a function *)

(** The effect of each kind of category on the histogram it writes to,
    given the [resultsMap] it reads. *)
Section Effects.
Variable lumi : Z.
Variable beamSpotMap : gmap string BeamSpot.
Variable vertexResults : list (double * double).
Variable rm : gmap string (double * double).

Definition eff_coordinate : Histo -> Histo :=
  if has_key "DB" beamSpotMap
  then Fill (fst (default (0%float, 0%float) (rm !! "DB")))
  else fun h => h.

Definition eff_fill_diff (a b : string) : Histo -> Histo :=
  match rm !! a, rm !! b with
  | Some pa, Some pb => Fill (fst pa - fst pb)%float
  | _, _ => fun h => h
  end.

Definition eff_fill_vertex_diff (a b : string) : Histo -> Histo :=
  match rm !! a, rm !! b with
  | Some _, Some pb =>
      fun h => fold_left (fun h itPV => Fill (fst itPV - fst pb)%float h) vertexResults h
  | _, _ => fun h => h
  end.

Definition eff_set_value (a : string) : Histo -> Histo :=
  match rm !! a with
  | Some pa => fun h => setBinError lumi (snd pa) (setBinContent lumi (fst pa) h)
  | None => fun h => h
  end.

Definition eff_set_diff (a b : string) : Histo -> Histo :=
  match rm !! a, rm !! b with
  | Some pa, Some pb =>
      fun h => setBinError lumi (quad_sum (snd pa) (snd pb))
                 (setBinContent lumi (fst pa - fst pb)%float h)
  | _, _ => fun h => h
  end.

Definition eff_set_vertex_diff (b : string) : Histo -> Histo :=
  match rm !! b with
  | Some pb =>
      fun h => fold_left (fun h itPV =>
                 setBinError lumi (quad_sum (snd itPV) (snd pb))
                   (setBinContent lumi (fst itPV - fst pb)%float h)) vertexResults h
  | None => fun h => h
  end.

(** The effect of the category named [cat]. *)
Definition cat_effect (cat : string) : Histo -> Histo :=
  if cat =? "Coordinate" then eff_coordinate
  else if cat =? "PrimaryVertex fit-DataBase" then eff_fill_diff "PV" "DB"
  else if cat =? "PrimaryVertex fit-BeamFit" then eff_fill_diff "PV" "BF"
  else if cat =? "PrimaryVertex fit-Online" then eff_fill_diff "PV" "SC"
  else if cat =? "PrimaryVertex-DataBase" then eff_fill_vertex_diff "PV" "DB"
  else if cat =? "PrimaryVertex-BeamFit" then eff_fill_vertex_diff "PV" "BF"
  else if cat =? "PrimaryVertex-Online" then eff_fill_vertex_diff "PV" "SC"
  else if cat =? "Lumibased BeamSpotFit" then eff_set_value "BF"
  else if cat =? "Lumibased PrimaryVertex" then eff_set_value "PV"
  else if cat =? "Lumibased DataBase" then eff_set_value "DB"
  else if cat =? "Lumibased Online" then eff_set_value "SC"
  else if cat =? "Lumibased PrimaryVertex-DataBase fit" then eff_set_diff "PV" "DB"
  else if cat =? "Lumibased PrimaryVertex-Online fit" then eff_set_diff "PV" "SC"
  else if cat =? "Lumibased Online-DataBase fit" then eff_set_diff "SC" "DB"
  else if cat =? "Lumibased PrimaryVertex-DataBase" then eff_set_vertex_diff "DB"
  else if cat =? "Lumibased PrimaryVertex-Online" then eff_set_vertex_diff "SC"
  else fun h => h.

(** [resultsMap] after the category: "Coordinate" adds a zero pair under
    "DB" when the bag has a "DB" entry that did not pass the type filter. *)
Definition cat_rm (cat : string) : gmap string (double * double) :=
  if (cat =? "Coordinate") && has_key "DB" beamSpotMap && negb (has_key "DB" rm)
  then <["DB" := (0%float, 0%float)]> rm
  else rm.

End Effects.

(** ** The primitives on [Loc] *)

Section LocPrimitives.
Implicit Types (s : Loc) (key var scope cat : string).

Lemma rm_at_present key p s : resultsMap s !! key = Some p -> rm_at key s = (p, s).
Proof. unfold rm_at. intros ->. reflexivity. Qed.

Lemma eval_rm_has key s : eval (rm_has key) s = has_key key (resultsMap s).
Proof. reflexivity. Qed.

Lemma exec_rm_has key s : exec (rm_has key) s = s.
Proof. reflexivity. Qed.

Lemma on_histo_run f var scope cat s :
  on_histo var scope cat f s = (tt, mkLoc (resultsMap s) (hm_update f var scope cat (hmap s))).
Proof. reflexivity. Qed.

Lemma Loc_eta s : mkLoc (resultsMap s) (hmap s) = s.
Proof. destruct s; reflexivity. Qed.

End LocPrimitives.

(** ** The walk computes the effects *)

Section Runs.
Variables (lumi : Z) (beamSpotMap : gmap string BeamSpot)
  (vertexResults : list (double * double)) (var scope cat : string).

Local Abbreviation upd := (on_histo var scope cat).

(** The state after a category whose effect on its histogram is [f] and
    which leaves [rm'] as [resultsMap]. *)
Definition after (f : Histo -> Histo) (rm' : gmap string (double * double)) (s : Loc) : Loc :=
  mkLoc rm' (hm_update f var scope cat (hmap s)).

Lemma after_id s : after (fun h => h) (resultsMap s) s = s.
Proof. unfold after. rewrite hm_update_id by reflexivity. apply Loc_eta. Qed.

Lemma after_after f g rm1 rm2 s : after g rm2 (after f rm1 s) = after (fun h => g (f h)) rm2 s.
Proof. unfold after. simpl. rewrite hm_update_compose. reflexivity. Qed.

Local Ltac run :=
  unfold exec, when, bind, ret, rm_has, rm_at, on_histo, has_key; unfold modify; simpl.

Lemma fill_coordinate_run s :
  exec (fill_coordinate upd beamSpotMap) s
  = after (eff_coordinate beamSpotMap (resultsMap s))
      (cat_rm beamSpotMap (resultsMap s) "Coordinate") s.
Proof.
  unfold fill_coordinate, eff_coordinate, cat_rm. run.
  destruct (beamSpotMap !! "DB"); simpl; [|symmetry; apply after_id].
  destruct (resultsMap s !! "DB") as [db|] eqn:E; reflexivity.
Qed.

Lemma fill_diff_run a b s :
  exec (fill_diff upd a b) s = after (eff_fill_diff (resultsMap s) a b) (resultsMap s) s.
Proof.
  unfold fill_diff, eff_fill_diff. run.
  destruct (resultsMap s !! a) as [pa|] eqn:Ea; simpl; [|symmetry; apply after_id].
  destruct (resultsMap s !! b) as [pb|] eqn:Eb; simpl; [|symmetry; apply after_id].
  repeat (rewrite ?Ea, ?Eb; simpl). reflexivity.
Qed.

Lemma set_value_run a s :
  exec (set_value upd lumi a) s = after (eff_set_value lumi (resultsMap s) a) (resultsMap s) s.
Proof.
  unfold set_value, eff_set_value. run.
  destruct (resultsMap s !! a) as [pa|] eqn:Ea; simpl; [|symmetry; apply after_id].
  rewrite Ea. simpl. rewrite Ea. simpl.
  unfold after. rewrite hm_update_compose. reflexivity.
Qed.

Lemma set_diff_run a b s :
  exec (set_diff upd lumi a b) s
  = after (eff_set_diff lumi (resultsMap s) a b) (resultsMap s) s.
Proof.
  unfold set_diff, eff_set_diff. run.
  destruct (resultsMap s !! a) as [pa|] eqn:Ea; simpl; [|symmetry; apply after_id].
  destruct (resultsMap s !! b) as [pb|] eqn:Eb; simpl; [|symmetry; apply after_id].
  repeat (rewrite ?Ea, ?Eb; simpl).
  unfold after. rewrite hm_update_compose. reflexivity.
Qed.

(** A loop whose body reads a present key and calls the histogram. *)
Lemma vertex_loop_run (g : double * double -> double * double -> Histo -> Histo) b pb
    (body : double * double -> St Loc unit) s :
  resultsMap s !! b = Some pb ->
  (forall itPV s', resultsMap s' !! b = Some pb ->
     exec (body itPV) s' = after (g itPV pb) (resultsMap s') s') ->
  exec (for_each vertexResults body) s
  = after (fun h => fold_left (fun h itPV => g itPV pb h) vertexResults h) (resultsMap s) s.
Proof.
  intros Hb Hbody. revert s Hb.
  induction vertexResults as [|itPV vr IH]; intros s Hb; simpl.
  - symmetry. apply after_id.
  - rewrite exec_bind, Hbody by exact Hb. rewrite IH by exact Hb.
    simpl. apply after_after.
Qed.

Lemma fill_vertex_diff_run a b s :
  exec (fill_vertex_diff upd vertexResults a b) s
  = after (eff_fill_vertex_diff vertexResults (resultsMap s) a b) (resultsMap s) s.
Proof.
  unfold fill_vertex_diff, eff_fill_vertex_diff.
  rewrite !exec_bind, !eval_rm_has, !exec_rm_has. unfold has_key.
  destruct (resultsMap s !! a) as [pa|] eqn:Ea; [|symmetry; apply after_id].
  destruct (resultsMap s !! b) as [pb|] eqn:Eb; [|symmetry; apply after_id].
  simpl. apply (vertex_loop_run (fun itPV pb => Fill (fst itPV - fst pb)%float) b pb);
    [exact Eb|].
  intros itPV s' Hb'. run. rewrite Hb'. reflexivity.
Qed.

Lemma set_vertex_diff_run b s :
  exec (set_vertex_diff upd lumi vertexResults b) s
  = after (eff_set_vertex_diff lumi vertexResults (resultsMap s) b) (resultsMap s) s.
Proof.
  unfold set_vertex_diff, eff_set_vertex_diff.
  rewrite exec_bind, eval_rm_has, exec_rm_has. unfold has_key.
  destruct (resultsMap s !! b) as [pb|] eqn:Eb; [|symmetry; apply after_id].
  destruct vertexResults as [|it0 vr] eqn:Evr; [symmetry; apply after_id|].
  rewrite <- Evr. simpl.
  apply (vertex_loop_run (fun itPV pb h =>
    setBinError lumi (quad_sum (snd itPV) (snd pb))
      (setBinContent lumi (fst itPV - fst pb)%float h)) b pb); [exact Eb|].
  intros itPV s' Hb'. run. rewrite Hb'. simpl. rewrite Hb'. simpl.
  unfold after. rewrite hm_update_compose. reflexivity.
Qed.

End Runs.

(** ** One category, one variable *)

Section Walk.
Variables (lumi : Z) (beamSpotMap : gmap string BeamSpot)
  (vertexResults : list (double * double)) (var : string).
Implicit Types (s : Loc) (scope cat : string) (itM : string * string).

(** The dispatch has the effect [cat_effect] on its histogram and leaves
    [cat_rm] as [resultsMap]. *)
Lemma dispatch_run scope cat c s :
  exec (dispatch (on_histo var scope c) lumi beamSpotMap vertexResults cat) s
  = after var scope c (cat_effect lumi beamSpotMap vertexResults (resultsMap s) cat)
      (cat_rm beamSpotMap (resultsMap s) cat) s.
Proof.
  unfold dispatch, cat_effect, cat_rm.
  destruct (cat =? "Coordinate"); [apply fill_coordinate_run|]. cbn [andb].
  repeat (destruct (cat =? _);
    [first [apply fill_diff_run | apply fill_vertex_diff_run | apply set_value_run
           | apply set_diff_run | apply set_vertex_diff_run]|]).
  symmetry. apply after_id.
Qed.

(** One iteration of the category loop, as a function on the state. *)
Definition cat_step s itM : Loc :=
  match hm_find var (fst itM) (snd itM) (hmap s) with
  | Some (Some _) =>
      after var (fst itM) (snd itM)
        (cat_effect lumi beamSpotMap vertexResults (resultsMap s) (snd itM))
        (cat_rm beamSpotMap (resultsMap s) (snd itM)) s
  | Some None => s
  | None => mkLoc (resultsMap s) (hm_assign var (fst itM) (snd itM) None (hmap s))
  end.

Lemma fill_category_run scope cat s :
  exec (fill_category lumi beamSpotMap vertexResults var scope cat) s
  = cat_step s (scope, cat).
Proof.
  unfold fill_category, cat_step. rewrite exec_bind.
  unfold eval at 1, exec at 2, histo_at, hm_at. simpl.
  destruct (hm_find var scope cat (hmap s)) as [[h|]|] eqn:E; simpl.
  - rewrite Loc_eta. apply dispatch_run.
  - apply Loc_eta.
  - reflexivity.
Qed.

(** The category loop is the fold of [cat_step]. *)
Lemma categories_run cats s :
  exec (for_each cats (fun itM =>
          fill_category lumi beamSpotMap vertexResults var (fst itM) (snd itM))) s
  = fold_left cat_step cats s.
Proof.
  rewrite for_each_fold. revert s.
  induction cats as [|[scope cat] cats IH]; intros s; simpl; [reflexivity|].
  rewrite fill_category_run. apply IH.
Qed.

End Walk.

(** ** Facts about the walk *)

Section WalkFacts.
Variables (lumi : Z) (beamSpotMap : gmap string BeamSpot)
  (vertexResults : list (double * double)) (var : string).
Implicit Types (s : Loc) (scope cat kv ks kn : string) (itM : string * string)
  (cats : list (string * string)) (rm : gmap string (double * double)).

Local Abbreviation step := (cat_step lumi beamSpotMap vertexResults var).
Local Abbreviation effect := (cat_effect lumi beamSpotMap vertexResults).

Lemma cat_rm_other rm cat key : key <> "DB" -> cat_rm beamSpotMap rm cat !! key = rm !! key.
Proof.
  intros Hk. unfold cat_rm. destruct (_ && _); [|reflexivity].
  apply lookup_insert_ne. congruence.
Qed.

Lemma cat_rm_present rm cat p : rm !! "DB" = Some p -> cat_rm beamSpotMap rm cat = rm.
Proof.
  intros Hp. unfold cat_rm, has_key. rewrite Hp, andb_false_r. reflexivity.
Qed.

Lemma cat_rm_not_coordinate rm cat : cat <> "Coordinate" -> cat_rm beamSpotMap rm cat = rm.
Proof.
  intros Hc. unfold cat_rm. destruct (String.eqb_spec cat "Coordinate"); [contradiction|].
  reflexivity.
Qed.

(** What a step leaves in an entry of the container. *)
Lemma cat_step_find s itM kv ks kn :
  hm_find kv ks kn (hmap (step s itM))
  = if key3_eqb var (fst itM) (snd itM) kv ks kn then
      match hm_find kv ks kn (hmap s) with
      | Some (Some h) => Some (Some (effect (resultsMap s) (snd itM) h))
      | _ => Some None
      end
    else hm_find kv ks kn (hmap s).
Proof.
  unfold cat_step, after.
  destruct (key3_eqb var (fst itM) (snd itM) kv ks kn) eqn:Ek.
  - apply key3_eqb_spec in Ek. destruct Ek as (-> & -> & ->).
    destruct (hm_find var (fst itM) (snd itM) (hmap s)) as [[h|]|] eqn:E; simpl.
    + rewrite hm_find_update, key3_eqb_refl, E. reflexivity.
    + exact E.
    + rewrite hm_find_assign, key3_eqb_refl. reflexivity.
  - destruct (hm_find var (fst itM) (snd itM) (hmap s)) as [[h|]|] eqn:E; simpl.
    + rewrite hm_find_update, Ek. reflexivity.
    + reflexivity.
    + rewrite hm_find_assign, Ek. reflexivity.
Qed.

Lemma cat_step_rm s itM :
  resultsMap (step s itM)
  = match hm_find var (fst itM) (snd itM) (hmap s) with
    | Some (Some _) => cat_rm beamSpotMap (resultsMap s) (snd itM)
    | _ => resultsMap s
    end.
Proof.
  unfold cat_step.
  destruct (hm_find var (fst itM) (snd itM) (hmap s)) as [[h|]|]; reflexivity.
Qed.

(** The categories before and after the one that owns an entry leave the
    entry alone. *)
Lemma walk_frame cats s kv ks kn :
  (forall itM, In itM cats -> key3_eqb var (fst itM) (snd itM) kv ks kn = false) ->
  hm_find kv ks kn (hmap (fold_left step cats s)) = hm_find kv ks kn (hmap s).
Proof.
  revert s. induction cats as [|itM cats IH]; intros s Hne; simpl; [reflexivity|].
  rewrite IH by (intros; apply Hne; right; assumption).
  rewrite cat_step_find, Hne by (left; reflexivity). reflexivity.
Qed.

(** No category changes an entry of [resultsMap] other than "DB". *)
Lemma walk_rm_other cats s key :
  key <> "DB" -> resultsMap (fold_left step cats s) !! key = resultsMap s !! key.
Proof.
  intros Hk. revert s. induction cats as [|itM cats IH]; intros s; simpl; [reflexivity|].
  rewrite IH, cat_step_rm.
  destruct (hm_find _ _ _ _) as [[h|]|]; try reflexivity. apply cat_rm_other, Hk.
Qed.

(** A "DB" entry that passed the type filter is never changed. *)
Lemma walk_rm_present cats s p :
  resultsMap s !! "DB" = Some p -> resultsMap (fold_left step cats s) = resultsMap s.
Proof.
  revert s. induction cats as [|itM cats IH]; intros s Hp; simpl; [reflexivity|].
  assert (Hs : resultsMap (step s itM) = resultsMap s).
  { rewrite cat_step_rm. destruct (hm_find _ _ _ _) as [[h|]|]; try reflexivity.
    eapply cat_rm_present, Hp. }
  rewrite IH by (rewrite Hs; exact Hp). exact Hs.
Qed.

(** A bag without a "DB" entry never has one put into [resultsMap]. *)
Lemma cat_rm_missing rm cat : beamSpotMap !! "DB" = None -> cat_rm beamSpotMap rm cat = rm.
Proof.
  intros Hm. unfold cat_rm, has_key. rewrite Hm, andb_false_r. reflexivity.
Qed.

Lemma walk_rm_missing cats s :
  beamSpotMap !! "DB" = None -> resultsMap (fold_left step cats s) = resultsMap s.
Proof.
  intros Hm. revert s. induction cats as [|itM cats IH]; intros s; simpl; [reflexivity|].
  rewrite IH, cat_step_rm. destruct (hm_find _ _ _ _) as [[h|]|]; try reflexivity.
  apply cat_rm_missing, Hm.
Qed.

(** Before "Coordinate" is reached, [resultsMap] is what the projection
    built. *)
Lemma walk_rm_no_coordinate cats s :
  (forall itM, In itM cats -> snd itM <> "Coordinate") ->
  resultsMap (fold_left step cats s) = resultsMap s.
Proof.
  revert s. induction cats as [|itM cats IH]; intros s Hc; simpl; [reflexivity|].
  rewrite IH by (intros; apply Hc; right; assumption).
  rewrite cat_step_rm. destruct (hm_find _ _ _ _) as [[h|]|]; try reflexivity.
  apply cat_rm_not_coordinate, Hc. left. reflexivity.
Qed.

(** Once "Coordinate" has been walked with a booked histogram,
    [resultsMap] is what the projection built plus what "Coordinate"
    inserted. *)
Lemma walk_rm_coordinate pre post scope s hc :
  (forall itM, In itM pre -> snd itM <> "Coordinate") ->
  (forall itM, In itM post -> snd itM <> "Coordinate") ->
  hm_find var scope "Coordinate" (hmap s) = Some (Some hc) ->
  resultsMap (fold_left step (pre ++ (scope, "Coordinate") :: post) s)
  = cat_rm beamSpotMap (resultsMap s) "Coordinate".
Proof.
  intros Hpre Hpost Hc. rewrite fold_left_app. simpl.
  rewrite walk_rm_no_coordinate by exact Hpost. rewrite cat_step_rm. simpl.
  rewrite walk_frame, Hc; [apply f_equal2; [apply walk_rm_no_coordinate, Hpre|reflexivity]|].
  intros itM Hin. apply not_true_is_false. intros Hk.
  apply key3_eqb_spec in Hk. destruct Hk as (_ & _ & Hk). exact (Hpre itM Hin (eq_sym Hk)).
Qed.

(** The entry of a category after the walk: the category's effect, computed
    from the [resultsMap] the earlier categories left, on what the entry
    held before. *)
Lemma walk_entry prefix suffix scope cat s h :
  ~ In (scope, cat) prefix -> ~ In (scope, cat) suffix ->
  hm_find var scope cat (hmap s) = Some (Some h) ->
  hm_find var scope cat (hmap (fold_left step (prefix ++ (scope, cat) :: suffix) s))
  = Some (Some (effect (resultsMap (fold_left step prefix s)) cat h)).
Proof.
  intros Hpre Hsuf Hh.
  assert (Hframe : forall l, ~ In (scope, cat) l ->
            forall itM, In itM l -> key3_eqb var (fst itM) (snd itM) var scope cat = false).
  { intros l Hl [sc c] Hin. apply not_true_is_false. intros Hk.
    apply key3_eqb_spec in Hk. simpl in Hk. destruct Hk as (_ & -> & ->). auto. }
  rewrite fold_left_app. simpl.
  rewrite walk_frame by (apply Hframe, Hsuf).
  rewrite cat_step_find. simpl. rewrite key3_eqb_refl.
  rewrite walk_frame by (apply Hframe, Hpre). rewrite Hh. reflexivity.
Qed.

(** The walk reads the container only at its own variable: two states with
    the same [resultsMap] whose containers agree there stay so. *)
Definition agree kv (hm hm' : HistosContainer) : Prop :=
  forall ks kn, hm_find kv ks kn hm = hm_find kv ks kn hm'.

Lemma cat_step_agree s s' itM :
  resultsMap s = resultsMap s' -> agree var (hmap s) (hmap s') ->
  resultsMap (step s itM) = resultsMap (step s' itM)
  /\ agree var (hmap (step s itM)) (hmap (step s' itM)).
Proof.
  intros Hrm Hag. split.
  - rewrite !cat_step_rm, Hag, Hrm. reflexivity.
  - intros ks kn. rewrite !cat_step_find, Hag, Hrm. reflexivity.
Qed.

Lemma walk_agree cats s s' :
  resultsMap s = resultsMap s' -> agree var (hmap s) (hmap s') ->
  agree var (hmap (fold_left step cats s)) (hmap (fold_left step cats s')).
Proof.
  revert s s'. induction cats as [|itM cats IH]; intros s s' Hrm Hag; simpl; [exact Hag|].
  destruct (cat_step_agree s s' itM Hrm Hag) as [Hrm' Hag']. apply IH; assumption.
Qed.

(** A null entry stays null. *)
Lemma walk_null cats s kv ks kn :
  hm_find kv ks kn (hmap s) = Some None ->
  hm_find kv ks kn (hmap (fold_left step cats s)) = Some None.
Proof.
  revert s. induction cats as [|itM cats IH]; intros s Hn; simpl; [exact Hn|].
  apply IH. rewrite cat_step_find, Hn. destruct (key3_eqb _ _ _ _ _ _); reflexivity.
Qed.

End WalkFacts.

(** ** The projections *)

Section Projections.
Implicit Types (var key : string) (bs : BeamSpot).

(** What [resultsMap] holds for a beam spot of the bag: its projection,
    provided its type is [Tracker]. *)
Definition tracker_value var bs : option (double * double) :=
  if is_tracker (type_ bs) then project var bs else None.

(** The loop over the bag computes the filtered projection, key by key. *)
Lemma build_resultsMap_lookup var (beamSpotMap : gmap string BeamSpot) key :
  build_resultsMap var beamSpotMap !! key
  = match beamSpotMap !! key with
    | Some bs => tracker_value var bs
    | None => None
    end.
Proof.
  unfold build_resultsMap.
  apply (map_fold_weak_ind (fun rm (m : gmap string BeamSpot) =>
    rm !! key = match m !! key with Some bs => tracker_value var bs | None => None end)).
  - rewrite !lookup_empty. reflexivity.
  - intros i bs m rm Hi IH. unfold tracker_value in *.
    destruct (decide (key = i)) as [->|Hne].
    + rewrite lookup_insert_eq. rewrite Hi in IH.
      destruct (is_tracker (type_ bs)); [|exact IH].
      destruct (project var bs); [apply lookup_insert_eq | exact IH].
    + rewrite (lookup_insert_ne m) by congruence.
      destruct (is_tracker (type_ bs)); [|exact IH].
      destruct (project var bs); [|exact IH].
      rewrite lookup_insert_ne by congruence. exact IH.
Qed.

(** The samples of a variable, event by event and vertex by vertex. *)
Definition vertex_values var (vertices : list (list pvPosAndErr)) : list (double * double) :=
  flat_map (fun pv => match vertex_project var pv with Some p => [p] | None => [] end)
    (concat vertices).

Lemma vertex_loop_acc var (itPV : list pvPosAndErr) (acc : list (double * double)) :
  fold_left (fun acc pv => match vertex_project var pv with
                           | Some p => acc ++ [p]
                           | None => acc
                           end) itPV acc
  = acc ++ flat_map (fun pv => match vertex_project var pv with
                               | Some p => [p]
                               | None => []
                               end) itPV.
Proof.
  revert acc. induction itPV as [|pv itPV IH]; intros acc; simpl;
    [rewrite app_nil_r; reflexivity|].
  rewrite IH. destruct (vertex_project var pv); simpl; rewrite <- ?app_assoc; reflexivity.
Qed.

Lemma build_vertexResults_acc var vertices (acc : list (double * double)) :
  fold_left (fun acc itPV =>
    fold_left (fun acc pv => match vertex_project var pv with
                             | Some p => acc ++ [p]
                             | None => acc
                             end) itPV acc) vertices acc
  = acc ++ vertex_values var vertices.
Proof.
  unfold vertex_values. revert acc.
  induction vertices as [|itPV vertices IH]; intros acc; simpl;
    [rewrite app_nil_r; reflexivity|].
  rewrite IH, vertex_loop_acc, flat_map_app, app_assoc. reflexivity.
Qed.

(** [vertexResults] holds one pair per sample, in sampling order. *)
Lemma build_vertexResults_flat var vertices :
  build_vertexResults var vertices = vertex_values var vertices.
Proof. apply (build_vertexResults_acc var vertices []). Qed.

(** The samples of a variable are the same, up to their order, whatever
    the order of the events they were taken from. *)
#[export] Instance vertex_values_Permutation var :
  Proper (@Permutation (list pvPosAndErr) ==> @Permutation (double * double))
    (vertex_values var).
Proof.
  intros l l' E. unfold vertex_values. apply Permutation_flat_map.
  assert (Hc : forall v : list (list pvPosAndErr), concat v = flat_map (fun x => x) v)
    by (induction v as [|x v IH]; simpl; [|rewrite IH]; reflexivity).
  rewrite !Hc. apply Permutation_flat_map, E.
Qed.

(** C30. The order in which the events of a block are analyzed does not change
    the values that enter the vertex distributions when the block closes,
    only their order; the database entry of the bag does not depend on the
    events at all. *)
Theorem vertex_values_any_order idx events events' info var :
  Permutation events events' ->
  Permutation (vertex_values var (vertices_ (sample_events idx events info)))
    (vertex_values var (vertices_ (sample_events idx events' info)))
  /\ beamSpotMap_ (sample_events idx events info) !! "DB"
     = beamSpotMap_ (sample_events idx events' info) !! "DB".
Proof.
  intros E. split.
  - rewrite (sample_events_Permutation idx events events' info E). reflexivity.
  - rewrite !sample_events_DB. reflexivity.
Qed.

(** The widths have no vertex samples. *)
Lemma vertex_values_width var vertices : width_var var = true -> vertex_values var vertices = [].
Proof.
  intros Hw. unfold vertex_values. induction (concat vertices) as [|pv l IH]; [reflexivity|].
  simpl. rewrite IH. unfold vertex_project, width_var in *.
  destruct (String.eqb_spec var "sigmaX") as [->|]; [reflexivity|].
  destruct (String.eqb_spec var "sigmaY") as [->|]; [reflexivity|].
  destruct (String.eqb_spec var "sigmaZ") as [->|]; [reflexivity|discriminate].
Qed.

End Projections.

(** ** One variable: what the histograms hold afterwards *)

Section EndLumiVar.
Variables (lumi : Z) (info : BeamSpotInfo) (var : string).
Implicit Types (hm : HistosContainer) (cats : list (string * string))
  (scope cat key : string) (h : Histo).

Local Abbreviation bsm := (beamSpotMap_ info).
Local Abbreviation vr := (build_vertexResults var (vertices_ info)).
Local Abbreviation step := (cat_step lumi bsm vr var).
Local Abbreviation start hm := (mkLoc (build_resultsMap var bsm) hm).

(** The value and error of source [key] that the walk works with. *)
Definition source_value key : option (double * double) :=
  match bsm !! key with
  | Some bs => tracker_value var bs
  | None => None
  end.

Lemma endLumi_var_fold cats hm :
  endLumi_var lumi info cats hm var = hmap (fold_left step cats (start hm)).
Proof. unfold endLumi_var. rewrite categories_run. reflexivity. Qed.

(** The source entries of [resultsMap] when a category is reached: the
    projections, except that "DB" may have been created as a zero pair. *)
Lemma walk_source cats hm key p :
  source_value key = Some p ->
  resultsMap (fold_left step cats (start hm)) !! key = Some p.
Proof.
  intros Hp. unfold source_value in Hp. rewrite <- build_resultsMap_lookup in Hp.
  destruct (String.eqb_spec key "DB") as [->|Hne].
  - erewrite walk_rm_present; [exact Hp | exact Hp].
  - rewrite walk_rm_other by exact Hne. exact Hp.
Qed.

Lemma walk_source_absent cats hm key :
  key <> "DB" -> source_value key = None ->
  resultsMap (fold_left step cats (start hm)) !! key = None.
Proof.
  intros Hne Hp. unfold source_value in Hp. rewrite <- build_resultsMap_lookup in Hp.
  rewrite walk_rm_other by exact Hne. exact Hp.
Qed.

(** A source the bag does not hold is absent all along the walk. *)
Lemma walk_source_missing cats hm key :
  bsm !! key = None -> resultsMap (fold_left step cats (start hm)) !! key = None.
Proof.
  intros Hm. destruct (String.eqb_spec key "DB") as [->|Hne].
  - rewrite walk_rm_missing by exact Hm. simpl. rewrite build_resultsMap_lookup, Hm.
    reflexivity.
  - apply walk_source_absent; [exact Hne|]. unfold source_value. rewrite Hm. reflexivity.
Qed.

(** With a "DB" entry in the bag that is not of type [Tracker], the walk
    past a booked "Coordinate" leaves a zero pair under "DB". *)
Lemma reached_fake_DB pre post scope hm hc bs :
  (forall itM, In itM pre -> snd itM <> "Coordinate") ->
  (forall itM, In itM post -> snd itM <> "Coordinate") ->
  hm_find var scope "Coordinate" hm = Some (Some hc) ->
  bsm !! "DB" = Some bs -> is_tracker (type_ bs) = false ->
  resultsMap (fold_left step (pre ++ (scope, "Coordinate") :: post) (start hm))
  = <["DB" := (0%float, 0%float)]> (build_resultsMap var bsm).
Proof.
  intros Hpre Hpost Hc Hdb Hty.
  rewrite (walk_rm_coordinate lumi bsm vr var pre post scope (start hm) hc Hpre Hpost Hc).
  unfold cat_rm, has_key. simpl. rewrite Hdb, build_resultsMap_lookup, Hdb.
  unfold tracker_value. rewrite Hty. reflexivity.
Qed.

(** Every entry of the bag under "DB" is of type [Tracker]. *)
Definition genuine_DB : Prop :=
  forall bs, bsm !! "DB" = Some bs -> is_tracker (type_ bs) = true.

(** Each of the six variables has a projection. *)
Lemma project_total bs : In var ctor_varNames -> exists p, project var bs = Some p.
Proof.
  intros Hin. repeat (destruct Hin as [<-|Hin]; [eexists; reflexivity|]). destruct Hin.
Qed.

(** With a genuine database entry, or none, [resultsMap] stays what the
    projection built all along the walk: [operator[]] never inserts. *)
Lemma walk_rm_genuine cats hm :
  genuine_DB -> In var ctor_varNames ->
  resultsMap (fold_left step cats (start hm)) = build_resultsMap var bsm.
Proof.
  intros Hg Hvar. destruct (bsm !! "DB") as [bs|] eqn:Hdb.
  - destruct (project_total bs Hvar) as [p Hp].
    apply (walk_rm_present lumi bsm vr var cats (start hm) p). simpl.
    rewrite build_resultsMap_lookup, Hdb. unfold tracker_value.
    rewrite (Hg bs Hdb). exact Hp.
  - apply walk_rm_missing, Hdb.
Qed.

(** The entry of a category after the walk over a duplicate-free table. *)
Lemma endLumi_var_entry cats hm scope cat h :
  NoDup cats -> In (scope, cat) cats ->
  hm_find var scope cat hm = Some (Some h) ->
  exists prefix suffix, cats = prefix ++ (scope, cat) :: suffix
    /\ hm_find var scope cat (endLumi_var lumi info cats hm var)
       = Some (Some (cat_effect lumi bsm vr
                       (resultsMap (fold_left step prefix (start hm))) cat h)).
Proof.
  intros Hnd Hin Hh.
  destruct (NoDup_split _ _ Hnd Hin) as (prefix & suffix & -> & Hpre & Hsuf).
  exists prefix, suffix. split; [reflexivity|].
  rewrite endLumi_var_fold. apply walk_entry; assumption.
Qed.

(** The walk for one variable leaves the entries of the others alone. *)
Lemma endLumi_var_frame cats hm kv ks kn :
  kv <> var ->
  hm_find kv ks kn (endLumi_var lumi info cats hm var) = hm_find kv ks kn hm.
Proof.
  intros Hne. rewrite endLumi_var_fold. apply walk_frame.
  intros itM _. apply not_true_is_false. intros Hk.
  apply key3_eqb_spec in Hk. destruct Hk as (-> & _). apply Hne. reflexivity.
Qed.

End EndLumiVar.

(** ** All variables *)

Section EndLumiVars.
Variables (lumi : Z) (info : BeamSpotInfo) (cats : list (string * string)).
Implicit Types (hm : HistosContainer) (vars : list string) (var kv ks kn : string).

Lemma endLumi_vars_app vars1 vars2 hm :
  endLumi_vars lumi info cats (vars1 ++ vars2) hm
  = endLumi_vars lumi info cats vars2 (endLumi_vars lumi info cats vars1 hm).
Proof. apply fold_left_app. Qed.

Lemma endLumi_vars_frame vars hm kv ks kn :
  ~ In kv vars ->
  hm_find kv ks kn (endLumi_vars lumi info cats vars hm) = hm_find kv ks kn hm.
Proof.
  unfold endLumi_vars. revert hm.
  induction vars as [|var vars IH]; intros hm Hnin; simpl; [reflexivity|].
  rewrite IH by (intros Hin; apply Hnin; right; exact Hin).
  apply endLumi_var_frame. intros ->. apply Hnin. left. reflexivity.
Qed.

(** The entries of a variable after the loop are those its own iteration
    leaves: the iterations are independent of one another. *)
Lemma endLumi_vars_var vars hm var ks kn :
  NoDup vars -> In var vars ->
  hm_find var ks kn (endLumi_vars lumi info cats vars hm)
  = hm_find var ks kn (endLumi_var lumi info cats hm var).
Proof.
  intros Hnd Hin. destruct (NoDup_split _ _ Hnd Hin) as (pre & suf & -> & Hpre & Hsuf).
  rewrite endLumi_vars_app. change (var :: suf) with ([var] ++ suf).
  rewrite endLumi_vars_app, (endLumi_vars_frame suf) by exact Hsuf.
  change (endLumi_vars lumi info cats [var] ?x) with (endLumi_var lumi info cats x var).
  rewrite !endLumi_var_fold. apply walk_agree; [reflexivity|].
  intros ks' kn'. apply endLumi_vars_frame, Hpre.
Qed.

(** C22. The "Coordinate" distribution receives the database value of the
    variable when the database entry is of type [Tracker]. *)
Theorem endLumi_coordinate (Hcats : NoDup cats) vars hm var scope h p :
  NoDup vars -> In var vars -> In (scope, "Coordinate") cats ->
  hm_find var scope "Coordinate" hm = Some (Some h) ->
  source_value info var "DB" = Some p ->
  hm_find var scope "Coordinate" (endLumi_vars lumi info cats vars hm)
  = Some (Some (Fill (fst p) h)).
Proof.
  intros Hvars Hvar Hin Hh Hp. rewrite endLumi_vars_var by assumption.
  destruct (endLumi_var_entry lumi info var cats hm scope "Coordinate" h Hcats Hin Hh)
    as (prefix & suffix & _ & ->).
  unfold cat_effect, eff_coordinate, has_key. simpl.
  rewrite (walk_source lumi info var prefix hm "DB" p Hp).
  unfold source_value in Hp. destruct (beamSpotMap_ info !! "DB"); [reflexivity | discriminate].
Qed.

End EndLumiVars.

(** ** A block without any estimate *)

Section EmptyBag.
Variables (lumi : Z) (vertices : list (list pvPosAndErr)).
Implicit Types (hm : HistosContainer) (s : Loc) (var cat kv ks kn : string) (x : ME).

Local Abbreviation nothing := (mkBeamSpotInfo vertices ∅).

Lemma cat_effect_empty vr cat h : cat_effect lumi ∅ vr ∅ cat h = h.
Proof.
  unfold cat_effect, eff_coordinate, eff_fill_diff, eff_fill_vertex_diff, eff_set_value,
    eff_set_diff, eff_set_vertex_diff, has_key. rewrite !lookup_empty.
  repeat (destruct (cat =? _); [reflexivity|]). reflexivity.
Qed.

(** The walk of a block without estimates changes no entry that exists. *)
Lemma walk_empty vr var cats s kv ks kn x :
  resultsMap s = ∅ -> hm_find kv ks kn (hmap s) = Some x ->
  hm_find kv ks kn (hmap (fold_left (cat_step lumi ∅ vr var) cats s)) = Some x.
Proof.
  revert s. induction cats as [|itM cats IH]; intros s Hrm Hx; simpl; [exact Hx|].
  apply IH.
  - rewrite cat_step_rm, Hrm.
    destruct (hm_find var (fst itM) (snd itM) (hmap s)) as [[h|]|]; try reflexivity.
    apply cat_rm_missing, lookup_empty.
  - rewrite cat_step_find, Hx, Hrm. destruct (key3_eqb _ _ _ _ _ _); [|reflexivity].
    destruct x as [h|]; [rewrite cat_effect_empty|]; reflexivity.
Qed.

Lemma endLumi_vars_empty cats vars hm kv ks kn x :
  hm_find kv ks kn hm = Some x ->
  hm_find kv ks kn (endLumi_vars lumi nothing cats vars hm) = Some x.
Proof.
  unfold endLumi_vars. revert hm.
  induction vars as [|var vars IH]; intros hm Hx; simpl; [exact Hx|].
  apply IH. rewrite endLumi_var_fold. apply walk_empty; [reflexivity | exact Hx].
Qed.

End EmptyBag.

(** ** Sortedness of the container *)

Section Sorted.
Variables (lumi : Z) (info : BeamSpotInfo) (cats : list (string * string))
  (vars : list string).
Implicit Types (hm : HistosContainer).

(** The keys of the container stay sorted at every level. *)
Lemma cat_step_sorted beamSpotMap vertexResults var s itM :
  hm_sorted (hmap s) = true ->
  hm_sorted (hmap (cat_step lumi beamSpotMap vertexResults var s itM)) = true.
Proof.
  intros Hs. unfold cat_step, after.
  destruct (hm_find _ _ _ _) as [[h|]|]; simpl;
    [rewrite hm_sorted_update; exact Hs | exact Hs | apply hm_sorted_assign, Hs].
Qed.

Lemma endLumi_var_sorted hm var :
  hm_sorted hm = true -> hm_sorted (endLumi_var lumi info cats hm var) = true.
Proof.
  intros Hs. rewrite endLumi_var_fold.
  apply (fold_left_invariant (fun s => hm_sorted (hmap s) = true)); [|exact Hs].
  intros s itM _. apply cat_step_sorted.
Qed.

(** The container is a well-formed map after the handler's loop if it
    was before: keys strictly increasing at each of its three levels. *)
Lemma endLumi_vars_sorted hm :
  hm_sorted hm = true -> hm_sorted (endLumi_vars lumi info cats vars hm) = true.
Proof.
  intros Hs. unfold endLumi_vars.
  apply (fold_left_invariant (fun hm => hm_sorted hm = true)); [|exact Hs].
  intros hm' var _. apply endLumi_var_sorted.
Qed.

End Sorted.
