(* ===== verification/Series.v ===== *)
(** * Series: what a closed luminosity block leaves in the histograms

    The theorems of this file state, for the loop of
    [globalEndLuminosityBlock] over variables and categories
    ([endLumi_vars]), what each kind of category holds afterwards: the
    per-block value series, the per-block difference series, the per-vertex
    series, and the per-run distributions.  They are instantiated on the
    block of [Scenario]. *)

From S2P Require Export Engine Scenario.

Local Open Scope string_scope.
Local Open Scope list_scope.

(** ** The categories by kind *)

(** The difference series: scope, category, minuend, subtrahend. *)
Definition diff_series : list (string * string * string * string) :=
  [ ("lumi", "Lumibased PrimaryVertex-DataBase fit", "PV", "DB");
    ("lumi", "Lumibased PrimaryVertex-Online fit", "PV", "SC");
    ("validation", "Lumibased Online-DataBase fit", "SC", "DB") ].

(** The value series: scope, category, source. *)
Definition value_series : list (string * string * string) :=
  [ ("lumi", "Lumibased BeamSpotFit", "BF");
    ("lumi", "Lumibased PrimaryVertex", "PV");
    ("lumi", "Lumibased DataBase", "DB");
    ("lumi", "Lumibased Online", "SC") ].

(** The per-vertex series: scope, category, reference. *)
Definition vertex_series : list (string * string * string) :=
  [ ("validation", "Lumibased PrimaryVertex-DataBase", "DB");
    ("validation", "Lumibased PrimaryVertex-Online", "SC") ].

(** The per-run distributions of fit differences: category, minuend,
    subtrahend. *)
Definition fit_distributions : list (string * string * string) :=
  [ ("PrimaryVertex fit-DataBase", "PV", "DB");
    ("PrimaryVertex fit-BeamFit", "PV", "BF");
    ("PrimaryVertex fit-Online", "PV", "SC") ].

(** The per-run distributions of vertex differences: category, required
    fit, reference. *)
Definition vertex_distributions : list (string * string * string) :=
  [ ("PrimaryVertex-DataBase", "PV", "DB");
    ("PrimaryVertex-BeamFit", "PV", "BF");
    ("PrimaryVertex-Online", "PV", "SC") ].

Section Series.
Variables (lumi : Z) (info : BeamSpotInfo) (cats : list (string * string))
  (vars : list string) (hm : HistosContainer) (var : string).
Hypotheses (Hcats : NoDup cats) (Hvars : NoDup vars) (Hvar : In var vars).
Implicit Types (scope cat a b : string) (h : Histo) (pa pb : double * double)
  (rm : gmap string (double * double)).

Local Abbreviation bsm := (beamSpotMap_ info).
Local Abbreviation vr := (build_vertexResults var (vertices_ info)).
Local Abbreviation effect := (cat_effect lumi bsm vr).
Local Abbreviation after_walk := (endLumi_vars lumi info cats vars hm).
Local Abbreviation reached prefix :=
  (resultsMap (fold_left (cat_step lumi bsm vr var) prefix
                 (mkLoc (build_resultsMap var bsm) hm))).

(** The entry of a booked category after the loop. *)
Lemma series_entry scope cat h :
  In (scope, cat) cats -> hm_find var scope cat hm = Some (Some h) ->
  exists prefix suffix, cats = prefix ++ (scope, cat) :: suffix
    /\ hm_find var scope cat after_walk = Some (Some (effect (reached prefix) cat h)).
Proof.
  intros Hin Hh. rewrite endLumi_vars_var by assumption.
  apply endLumi_var_entry; assumption.
Qed.

Lemma cat_effect_diff scope cat a b rm :
  In (scope, cat, a, b) diff_series -> effect rm cat = eff_set_diff lumi rm a b.
Proof.
  intros Hin. repeat (destruct Hin as [[= <- <- <- <-]|Hin]; [reflexivity|]). destruct Hin.
Qed.

Lemma cat_effect_value scope cat a rm :
  In (scope, cat, a) value_series -> effect rm cat = eff_set_value lumi rm a.
Proof.
  intros Hin. repeat (destruct Hin as [[= <- <- <-]|Hin]; [reflexivity|]). destruct Hin.
Qed.

(** The entry of a difference series whose two sources were projected. *)
Lemma diff_series_entry scope cat a b h pa pb :
  In (scope, cat) cats -> In (scope, cat, a, b) diff_series ->
  hm_find var scope cat hm = Some (Some h) ->
  source_value info var a = Some pa -> source_value info var b = Some pb ->
  hm_find var scope cat after_walk
  = Some (Some (setBinError lumi (quad_sum (snd pa) (snd pb))
                  (setBinContent lumi (fst pa - fst pb)%float h))).
Proof.
  intros Hin Hser Hh Ha Hb.
  destruct (series_entry scope cat h Hin Hh) as (prefix & suffix & _ & ->).
  rewrite (cat_effect_diff scope cat a b _ Hser). unfold eff_set_diff.
  rewrite (walk_source lumi info var prefix hm a pa Ha),
    (walk_source lumi info var prefix hm b pb Hb). reflexivity.
Qed.

(** The entry of a value series whose source was projected. *)
Lemma value_series_entry scope cat a h pa :
  In (scope, cat) cats -> In (scope, cat, a) value_series ->
  hm_find var scope cat hm = Some (Some h) -> source_value info var a = Some pa ->
  hm_find var scope cat after_walk
  = Some (Some (setBinError lumi (snd pa) (setBinContent lumi (fst pa) h))).
Proof.
  intros Hin Hser Hh Ha.
  destruct (series_entry scope cat h Hin Hh) as (prefix & suffix & _ & ->).
  rewrite (cat_effect_value scope cat a _ Hser). unfold eff_set_value.
  rewrite (walk_source lumi info var prefix hm a pa Ha). reflexivity.
Qed.

(** C3. When both sources of a difference series delivered an estimate of
    type [Tracker], the block's bin of the series holds the difference of
    the two values and the quadrature sum of the two errors; the other bins
    are as before. *)
Theorem endLumi_diff_series scope cat a b h pa pb :
  In (scope, cat) cats -> In (scope, cat, a, b) diff_series ->
  hm_find var scope cat hm = Some (Some h) -> in_bins h lumi = true ->
  source_value info var a = Some pa -> source_value info var b = Some pb ->
  exists h', hm_find var scope cat after_walk = Some (Some h')
    /\ bin_written h h' lumi (fst pa - fst pb)%float (quad_sum (snd pa) (snd pb)).
Proof.
  intros Hin Hser Hh Hbins Ha Hb. eexists. split.
  - apply (diff_series_entry scope cat a b h pa pb); assumption.
  - apply set_bin_written, Hbins.
Qed.

(** C4. When the source of a value series delivered an estimate of type
    [Tracker], the block's bin of the series holds its value and its
    error. *)
Theorem endLumi_value_series scope cat a h pa :
  In (scope, cat) cats -> In (scope, cat, a) value_series ->
  hm_find var scope cat hm = Some (Some h) -> in_bins h lumi = true ->
  source_value info var a = Some pa ->
  exists h', hm_find var scope cat after_walk = Some (Some h')
    /\ bin_written h h' lumi (fst pa) (snd pa).
Proof.
  intros Hin Hser Hh Hbins Ha. eexists. split.
  - apply (value_series_entry scope cat a h pa); assumption.
  - apply set_bin_written, Hbins.
Qed.

(** C15. A difference series is left as it was when the bag of the block
    holds no estimate for one of its two sources. *)
Theorem endLumi_diff_gap scope cat a b h :
  In (scope, cat) cats -> In (scope, cat, a, b) diff_series ->
  hm_find var scope cat hm = Some (Some h) ->
  bsm !! a = None \/ bsm !! b = None ->
  hm_find var scope cat after_walk = Some (Some h).
Proof.
  intros Hin Hser Hh Hmiss.
  destruct (series_entry scope cat h Hin Hh) as (prefix & suffix & _ & ->).
  rewrite (cat_effect_diff scope cat a b _ Hser). unfold eff_set_diff.
  destruct Hmiss as [Hm|Hm]; rewrite (walk_source_missing lumi info var prefix hm _ Hm);
    [|destruct (_ !! a)]; reflexivity.
Qed.

(** C16. A value series is left as it was when the bag of the block holds no
    estimate for its source. *)
Theorem endLumi_value_gap scope cat a h :
  In (scope, cat) cats -> In (scope, cat, a) value_series ->
  hm_find var scope cat hm = Some (Some h) -> bsm !! a = None ->
  hm_find var scope cat after_walk = Some (Some h).
Proof.
  intros Hin Hser Hh Hm.
  destruct (series_entry scope cat h Hin Hh) as (prefix & suffix & _ & ->).
  rewrite (cat_effect_value scope cat a _ Hser). unfold eff_set_value.
  rewrite (walk_source_missing lumi info var prefix hm _ Hm). reflexivity.
Qed.

Lemma cat_effect_vertex scope cat b rm :
  In (scope, cat, b) vertex_series -> effect rm cat = eff_set_vertex_diff lumi vr rm b.
Proof.
  intros Hin. repeat (destruct Hin as [[= <- <- <-]|Hin]; [reflexivity|]). destruct Hin.
Qed.

Lemma cat_effect_fit cat a b rm :
  In (cat, a, b) fit_distributions -> effect rm cat = eff_fill_diff rm a b.
Proof.
  intros Hin. repeat (destruct Hin as [[= <- <- <-]|Hin]; [reflexivity|]). destruct Hin.
Qed.

Lemma cat_effect_vertices cat a b rm :
  In (cat, a, b) vertex_distributions -> effect rm cat = eff_fill_vertex_diff vr rm a b.
Proof.
  intros Hin. repeat (destruct Hin as [[= <- <- <-]|Hin]; [reflexivity|]). destruct Hin.
Qed.

(** C6. A per-vertex series keeps one vertex per block: every sampled vertex
    is written to the block's bin in sampling order, so the bin ends with
    the difference between the last sampled vertex and the reference, with
    the quadrature sum of their errors. *)
Theorem endLumi_vertex_series_last scope cat b h pb front last :
  In (scope, cat) cats -> In (scope, cat, b) vertex_series ->
  hm_find var scope cat hm = Some (Some h) -> in_bins h lumi = true ->
  source_value info var b = Some pb ->
  vertex_values var (vertices_ info) = front ++ [last] ->
  exists h', hm_find var scope cat after_walk = Some (Some h')
    /\ bin_written h h' lumi (fst last - fst pb)%float (quad_sum (snd last) (snd pb)).
Proof.
  intros Hin Hser Hh Hbins Hb Hv.
  destruct (series_entry scope cat h Hin Hh) as (prefix & suffix & _ & ->).
  rewrite (cat_effect_vertex scope cat b _ Hser). unfold eff_set_vertex_diff.
  rewrite (walk_source lumi info var prefix hm b pb Hb), build_vertexResults_flat, Hv.
  eexists. split; [reflexivity|].
  apply (set_each_last lumi (fun itPV => fst itPV - fst pb)%float
           (fun itPV => quad_sum (snd itPV) (snd pb)) front last h Hbins).
Qed.

(** C20. A per-run distribution of vertex differences receives one entry per
    sampled vertex of the block, in sampling order, each the vertex value
    minus the reference value, provided the vertex fit and the reference
    are both of type [Tracker]; its bins are not written. *)
Theorem endLumi_vertex_distribution cat a b h pa pb :
  In ("run", cat) cats -> In (cat, a, b) vertex_distributions ->
  hm_find var "run" cat hm = Some (Some h) ->
  source_value info var a = Some pa -> source_value info var b = Some pb ->
  exists h', hm_find var "run" cat after_walk = Some (Some h')
    /\ h_fills h' = h_fills h
         ++ map (fun itPV => (fst itPV - fst pb)%float) (vertex_values var (vertices_ info))
    /\ forall bin, GetBinContent h' bin = GetBinContent h bin
                   /\ GetBinError h' bin = GetBinError h bin.
Proof.
  intros Hin Hser Hh Ha Hb.
  destruct (series_entry "run" cat h Hin Hh) as (prefix & suffix & _ & ->).
  rewrite (cat_effect_vertices cat a b _ Hser). unfold eff_fill_vertex_diff.
  rewrite (walk_source lumi info var prefix hm a pa Ha),
    (walk_source lumi info var prefix hm b pb Hb), build_vertexResults_flat.
  eexists. split; [reflexivity|]. split.
  - apply (fill_each_fills (fun itPV => fst itPV - fst pb)%float).
  - intros bin. apply (fill_each_bins (fun itPV => fst itPV - fst pb)%float).
Qed.

(** C21. A per-run distribution of fit differences receives one entry, the
    difference of the two fitted values, when both are of type
    [Tracker]. *)
Theorem endLumi_fit_distribution cat a b h pa pb :
  In ("run", cat) cats -> In (cat, a, b) fit_distributions ->
  hm_find var "run" cat hm = Some (Some h) ->
  source_value info var a = Some pa -> source_value info var b = Some pb ->
  hm_find var "run" cat after_walk = Some (Some (Fill (fst pa - fst pb)%float h)).
Proof.
  intros Hin Hser Hh Ha Hb.
  destruct (series_entry "run" cat h Hin Hh) as (prefix & suffix & _ & ->).
  rewrite (cat_effect_fit cat a b _ Hser). unfold eff_fill_diff.
  rewrite (walk_source lumi info var prefix hm a pa Ha),
    (walk_source lumi info var prefix hm b pb Hb). reflexivity.
Qed.

End Series.

(** ** A database entry that is not of type Tracker *)

(** The catalog in iteration order: the "lumi" scope, then "run" starting
    with "Coordinate", then "validation". *)
Definition lumi_cats : list (string * string) :=
  [ ("lumi", "Lumibased BeamSpotFit"); ("lumi", "Lumibased PrimaryVertex");
    ("lumi", "Lumibased DataBase"); ("lumi", "Lumibased Online");
    ("lumi", "Lumibased PrimaryVertex-DataBase fit");
    ("lumi", "Lumibased PrimaryVertex-Online fit") ].

Definition run_cats_after : list (string * string) :=
  [ ("run", "PrimaryVertex fit-DataBase"); ("run", "PrimaryVertex fit-BeamFit");
    ("run", "PrimaryVertex fit-Online"); ("run", "PrimaryVertex-DataBase");
    ("run", "PrimaryVertex-BeamFit"); ("run", "PrimaryVertex-Online") ].

Definition before_validation : list (string * string) :=
  lumi_cats ++ ("run", "Coordinate") :: run_cats_after.

Lemma ctor_categories_walk :
  ctor_categories false
  = before_validation
      ++ ("validation", "Lumibased Online-DataBase fit")
      :: [ ("validation", "Lumibased PrimaryVertex-DataBase");
           ("validation", "Lumibased PrimaryVertex-Online") ].
Proof. reflexivity. Qed.

(** Membership in a list of literal pairs is refuted by comparing them. *)
Ltac not_among :=
  let H := fresh in
  intros ? H; repeat (destruct H as [<-|H]; [discriminate|]); destruct H.

(** The bag holds a database entry [bs] that is not of type [Tracker]. *)
Definition fake_DB (info : BeamSpotInfo) (bs : BeamSpot) : Prop :=
  beamSpotMap_ info !! "DB" = Some bs /\ is_tracker (type_ bs) = false.

Section FakeDB.
Variables (lumi : Z) (info : BeamSpotInfo) (vars : list string)
  (hm : HistosContainer) (var : string) (bs : BeamSpot).
Hypotheses (Hvars : NoDup vars) (Hvar : In var vars).

Local Abbreviation bsm := (beamSpotMap_ info).
Local Abbreviation vr := (build_vertexResults var (vertices_ info)).
Local Abbreviation after_walk := (endLumi_vars lumi info (ctor_categories false) vars hm).

(** The database value is not projected. *)
Lemma fake_DB_source : fake_DB info bs -> source_value info var "DB" = None.
Proof.
  intros [Hdb Hty]. unfold source_value, tracker_value.
  rewrite Hdb, Hty. reflexivity.
Qed.

(** The "validation" entry of the Online-DataBase series after the loop. *)
Lemma fake_DB_validation_entry h hc :
  fake_DB info bs ->
  hm_find var "run" "Coordinate" hm = Some (Some hc) ->
  hm_find var "validation" "Lumibased Online-DataBase fit" hm = Some (Some h) ->
  hm_find var "validation" "Lumibased Online-DataBase fit" after_walk
  = Some (Some (eff_set_diff lumi
                  (<["DB" := (0%float, 0%float)]> (build_resultsMap var bsm)) "SC" "DB" h)).
Proof.
  intros [Hdb Hty] Hc Hh. rewrite endLumi_vars_var by assumption.
  rewrite endLumi_var_fold, ctor_categories_walk.
  rewrite (walk_entry lumi bsm vr var _ _ "validation" "Lumibased Online-DataBase fit" _ h);
    [| simpl; intuition discriminate | simpl; intuition discriminate | exact Hh].
  unfold before_validation.
  rewrite (reached_fake_DB lumi info var lumi_cats run_cats_after "run" hm hc bs);
    [reflexivity | not_among | not_among | exact Hc | exact Hdb | exact Hty].
Qed.

(** C5. When the database entry of the block is not of type [Tracker] and
    the "Coordinate" distribution is booked, the Online-DataBase series of
    the "validation" scope is nevertheless written: its bin holds the
    online value minus zero, with the online error alone, because
    "Coordinate" has put a zero pair under "DB" into [resultsMap]. *)
Theorem fake_DB_leaks_into_validation h hc pa :
  fake_DB info bs ->
  hm_find var "run" "Coordinate" hm = Some (Some hc) ->
  hm_find var "validation" "Lumibased Online-DataBase fit" hm = Some (Some h) ->
  in_bins h lumi = true -> source_value info var "SC" = Some pa ->
  exists h', hm_find var "validation" "Lumibased Online-DataBase fit" after_walk
             = Some (Some h')
    /\ bin_written h h' lumi (fst pa - 0)%float (quad_sum (snd pa) 0).
Proof.
  intros Hfake Hc Hh Hbins Hsc. rewrite (fake_DB_validation_entry h hc Hfake Hc Hh).
  unfold eff_set_diff. rewrite lookup_insert_ne, lookup_insert_eq by discriminate.
  unfold source_value in Hsc. rewrite <- build_resultsMap_lookup in Hsc. rewrite Hsc.
  eexists. split; [reflexivity|]. apply set_bin_written, Hbins.
Qed.

(** C23. In the same block the PrimaryVertex-DataBase series of the "lumi"
    scope, which is walked before "Coordinate", is left as it was: the two
    scopes disagree on whether the block has a database value. *)
Theorem fake_DB_skips_lumi h :
  fake_DB info bs ->
  hm_find var "lumi" "Lumibased PrimaryVertex-DataBase fit" hm = Some (Some h) ->
  hm_find var "lumi" "Lumibased PrimaryVertex-DataBase fit" after_walk = Some (Some h).
Proof.
  intros Hfake Hh. rewrite endLumi_vars_var by assumption.
  rewrite endLumi_var_fold.
  change (ctor_categories false) with
    (firstn 4 lumi_cats ++ ("lumi", "Lumibased PrimaryVertex-DataBase fit")
       :: skipn 5 (ctor_categories false)).
  rewrite (walk_entry lumi bsm vr var _ _ "lumi" "Lumibased PrimaryVertex-DataBase fit" _ h);
    [| simpl; intuition discriminate | vm_compute; intuition discriminate | exact Hh].
  rewrite walk_rm_no_coordinate by not_among. simpl.
  unfold cat_effect, eff_set_diff. simpl.
  pose proof (fake_DB_source Hfake) as Hs. unfold source_value in Hs.
  rewrite <- build_resultsMap_lookup in Hs. rewrite Hs.
  destruct (_ !! "PV"); reflexivity.
Qed.

End FakeDB.

(** ** The block of the scenario *)

Section SeriesWitnesses.
Import Scenario.

Lemma endLumi_diff_series_witness :
  exists h', hm_find "x" "lumi" "Lumibased PrimaryVertex-DataBase fit"
               (endLumi_vars lumi info cats ctor_varNames histos) = Some (Some h')
    /\ bin_written (booked "x" "lumi" "Lumibased PrimaryVertex-DataBase fit") h' 5
         (fst pv_x - fst db_x)%float (quad_sum (snd pv_x) (snd db_x)).
Proof.
  apply (endLumi_diff_series lumi info cats ctor_varNames histos "x"
           (ctor_categories_NoDup false) ctor_varNames_NoDup ltac:(by_eval)
           "lumi" "Lumibased PrimaryVertex-DataBase fit" "PV" "DB"); by_eval.
Defined.

Lemma endLumi_value_series_witness :
  exists h', hm_find "x" "lumi" "Lumibased PrimaryVertex"
               (endLumi_vars lumi info cats ctor_varNames histos) = Some (Some h')
    /\ bin_written (booked "x" "lumi" "Lumibased PrimaryVertex") h' 5 (fst pv_x) (snd pv_x).
Proof.
  apply (endLumi_value_series lumi info cats ctor_varNames histos "x"
           (ctor_categories_NoDup false) ctor_varNames_NoDup ltac:(by_eval)
           "lumi" "Lumibased PrimaryVertex" "PV"); by_eval.
Defined.

Lemma endLumi_diff_gap_witness :
  hm_find "x" "lumi" "Lumibased PrimaryVertex-Online fit"
    (endLumi_vars lumi info cats ctor_varNames histos)
  = Some (Some (booked "x" "lumi" "Lumibased PrimaryVertex-Online fit")).
Proof.
  apply (endLumi_diff_gap lumi info cats ctor_varNames histos "x"
           (ctor_categories_NoDup false) ctor_varNames_NoDup ltac:(by_eval)
           "lumi" "Lumibased PrimaryVertex-Online fit" "PV" "SC"); by_eval.
Defined.

Lemma endLumi_value_gap_witness :
  hm_find "x" "lumi" "Lumibased BeamSpotFit"
    (endLumi_vars lumi info cats ctor_varNames histos)
  = Some (Some (booked "x" "lumi" "Lumibased BeamSpotFit")).
Proof.
  apply (endLumi_value_gap lumi info cats ctor_varNames histos "x"
           (ctor_categories_NoDup false) ctor_varNames_NoDup ltac:(by_eval)
           "lumi" "Lumibased BeamSpotFit" "BF"); by_eval.
Defined.

Lemma endLumi_vertex_series_last_witness :
  exists h', hm_find "x" "validation" "Lumibased PrimaryVertex-DataBase"
               (endLumi_vars lumi info cats ctor_varNames histos) = Some (Some h')
    /\ bin_written (booked "x" "validation" "Lumibased PrimaryVertex-DataBase") h' 5
         (0.009 - fst db_x)%float (quad_sum 0.003 (snd db_x)).
Proof.
  apply (endLumi_vertex_series_last lumi info cats ctor_varNames histos "x"
           (ctor_categories_NoDup false) ctor_varNames_NoDup ltac:(by_eval)
           "validation" "Lumibased PrimaryVertex-DataBase" "DB" _ db_x
           [(0.011, 0.003); (0.013, 0.003)]%float (0.009, 0.003)%float); by_eval.
Defined.

Lemma endLumi_vertex_distribution_witness :
  exists h', hm_find "x" "run" "PrimaryVertex-DataBase"
               (endLumi_vars lumi info cats ctor_varNames histos) = Some (Some h')
    /\ h_fills h' = h_fills (booked "x" "run" "PrimaryVertex-DataBase")
         ++ map (fun itPV => (fst itPV - fst db_x)%float) (vertex_values "x" samples)
    /\ forall bin,
         GetBinContent h' bin = GetBinContent (booked "x" "run" "PrimaryVertex-DataBase") bin
         /\ GetBinError h' bin = GetBinError (booked "x" "run" "PrimaryVertex-DataBase") bin.
Proof.
  apply (endLumi_vertex_distribution lumi info cats ctor_varNames histos "x"
           (ctor_categories_NoDup false) ctor_varNames_NoDup ltac:(by_eval)
           "PrimaryVertex-DataBase" "PV" "DB" _ pv_x db_x); by_eval.
Defined.

Lemma endLumi_fit_distribution_witness :
  hm_find "x" "run" "PrimaryVertex fit-DataBase"
    (endLumi_vars lumi info cats ctor_varNames histos)
  = Some (Some (Fill (fst pv_x - fst db_x)%float (booked "x" "run" "PrimaryVertex fit-DataBase"))).
Proof.
  apply (endLumi_fit_distribution lumi info cats ctor_varNames histos "x"
           (ctor_categories_NoDup false) ctor_varNames_NoDup ltac:(by_eval)
           "PrimaryVertex fit-DataBase" "PV" "DB" _ pv_x db_x); by_eval.
Defined.

Lemma fake_DB_leaks_into_validation_witness :
  exists h', hm_find "x" "validation" "Lumibased Online-DataBase fit"
               (endLumi_vars lumi info_fake_sc (ctor_categories false) ctor_varNames histos)
             = Some (Some h')
    /\ bin_written (booked "x" "validation" "Lumibased Online-DataBase fit") h' 5
         (0.011 - 0)%float (quad_sum (sqrt (0.002 * 0.002)) 0).
Proof.
  apply (fake_DB_leaks_into_validation lumi info_fake_sc ctor_varNames histos "x"
           (spot 0.01 0.001 Fake) ctor_varNames_NoDup ltac:(by_eval)
           _ (booked "x" "run" "Coordinate") (0.011, sqrt (0.002 * 0.002))%float);
    first [by_eval | split; by_eval].
Defined.

Lemma fake_DB_skips_lumi_witness :
  hm_find "x" "lumi" "Lumibased PrimaryVertex-DataBase fit"
    (endLumi_vars lumi info_fake_sc (ctor_categories false) ctor_varNames histos)
  = Some (Some (booked "x" "lumi" "Lumibased PrimaryVertex-DataBase fit")).
Proof.
  apply (fake_DB_skips_lumi lumi info_fake_sc ctor_varNames histos "x"
           (spot 0.01 0.001 Fake) ctor_varNames_NoDup ltac:(by_eval));
    first [by_eval | split; by_eval].
Defined.

Lemma endLumi_coordinate_witness :
  hm_find "x" "run" "Coordinate" (endLumi_vars lumi info cats ctor_varNames histos)
  = Some (Some (Fill (fst db_x) (booked "x" "run" "Coordinate"))).
Proof.
  apply (endLumi_coordinate lumi info cats (ctor_categories_NoDup false)
           ctor_varNames histos "x" "run" (booked "x" "run" "Coordinate") db_x
           ctor_varNames_NoDup); by_eval.
Defined.

(** Two events of block 0, one vertex each, analyzed in either order. *)
Lemma vertex_values_any_order_witness :
  Permutation
    (vertex_values "x" (vertices_ (sample_events 0 [event_a; event_b] BeamSpotInfo_empty)))
    (vertex_values "x" (vertices_ (sample_events 0 [event_b; event_a] BeamSpotInfo_empty)))
  /\ beamSpotMap_ (sample_events 0 [event_a; event_b] BeamSpotInfo_empty) !! "DB"
     = beamSpotMap_ (sample_events 0 [event_b; event_a] BeamSpotInfo_empty) !! "DB".
Proof.
  apply (vertex_values_any_order 0 [event_a; event_b] [event_b; event_a]
           BeamSpotInfo_empty "x").
  apply perm_swap.
Defined.

End SeriesWitnesses.
