(* ===== verification/Spec.v ===== *)
(** * Spec: the table of categories, and the loop as its implementation

    The specification of the module describes what each category records
    by a formula over four sources (its Table 1).  [table1] gives the
    formula of each of the sixteen category names and [spec_effect] what
    the formula does to the category's histogram when a block closes, as a
    function of the projected sources and the sampled vertices alone.

    The refinement theorem states that the loop of
    [globalEndLuminosityBlock], which walks the multimap and reads and
    writes [resultsMap] through [operator[]], has exactly this effect on
    every booked entry, provided the database entry of the block, if any,
    is of type [Tracker].  (Without the proviso it does not hold: see
    [Series.fake_DB_leaks_into_validation].) *)

From S2P Require Export Series.

Local Open Scope string_scope.
Local Open Scope list_scope.

(** ** Sources and formulas *)

Inductive SourceKey : Type := Database | OnlineScaler | TrackFit | VertexFit.

#[export] Instance SourceKey_eq_dec : EqDecision SourceKey.
Proof. solve_decision. Defined.

(** The key of a source in the bag of a block. *)
Definition key_name (k : SourceKey) : string :=
  match k with
  | Database => "DB"
  | OnlineScaler => "SC"
  | TrackFit => "BF"
  | VertexFit => "PV"
  end.

Inductive Formula : Type :=
| ValueAt (s : SourceKey)
| FitMinus (x : SourceKey)
| VertexMinus (x : SourceKey)
| SeriesOf (s : SourceKey)
| SeriesMinus (s1 s2 : SourceKey)
| SeriesVertexMinus (x : SourceKey).

(** The formula of a category. *)
Definition table1 (cat : string) : option Formula :=
  if cat =? "Coordinate" then Some (ValueAt Database)
  else if cat =? "PrimaryVertex fit-DataBase" then Some (FitMinus Database)
  else if cat =? "PrimaryVertex fit-BeamFit" then Some (FitMinus TrackFit)
  else if cat =? "PrimaryVertex fit-Online" then Some (FitMinus OnlineScaler)
  else if cat =? "PrimaryVertex-DataBase" then Some (VertexMinus Database)
  else if cat =? "PrimaryVertex-BeamFit" then Some (VertexMinus TrackFit)
  else if cat =? "PrimaryVertex-Online" then Some (VertexMinus OnlineScaler)
  else if cat =? "Lumibased BeamSpotFit" then Some (SeriesOf TrackFit)
  else if cat =? "Lumibased PrimaryVertex" then Some (SeriesOf VertexFit)
  else if cat =? "Lumibased DataBase" then Some (SeriesOf Database)
  else if cat =? "Lumibased Online" then Some (SeriesOf OnlineScaler)
  else if cat =? "Lumibased PrimaryVertex-DataBase fit" then
    Some (SeriesMinus VertexFit Database)
  else if cat =? "Lumibased PrimaryVertex-Online fit" then
    Some (SeriesMinus VertexFit OnlineScaler)
  else if cat =? "Lumibased Online-DataBase fit" then
    Some (SeriesMinus OnlineScaler Database)
  else if cat =? "Lumibased PrimaryVertex-DataBase" then Some (SeriesVertexMinus Database)
  else if cat =? "Lumibased PrimaryVertex-Online" then Some (SeriesVertexMinus OnlineScaler)
  else None.

(** Value and error of a variable at each source that delivered an
    estimate of type [Tracker]. *)
Definition Sources : Type := SourceKey -> option (double * double).

(** What a formula does to the histogram of its category for one block:
    the distributions get entries, the series get the block's bin written.
    A missing operand leaves the histogram as it is.  The per-vertex
    distributions also ask for the vertex fit, and the per-vertex series
    record the last sampled vertex. *)
Definition spec_effect (lumi : Z) (f : Formula) (src : Sources)
    (vtx : list (double * double)) (h : Histo) : Histo :=
  match f with
  | ValueAt s =>
      match src s with Some p => Fill (fst p) h | None => h end
  | FitMinus x =>
      match src VertexFit, src x with
      | Some pa, Some pb => Fill (fst pa - fst pb)%float h
      | _, _ => h
      end
  | VertexMinus x =>
      match src VertexFit, src x with
      | Some _, Some pb => fill_each (fun v => (fst v - fst pb)%float) vtx h
      | _, _ => h
      end
  | SeriesOf s =>
      match src s with Some p => write_bin lumi (fst p) (snd p) h | None => h end
  | SeriesMinus s1 s2 =>
      match src s1, src s2 with
      | Some pa, Some pb =>
          write_bin lumi (fst pa - fst pb)%float (quad_sum (snd pa) (snd pb)) h
      | _, _ => h
      end
  | SeriesVertexMinus x =>
      match src x, last vtx with
      | Some pb, Some v =>
          write_bin lumi (fst v - fst pb)%float (quad_sum (snd v) (snd pb)) h
      | _, _ => h
      end
  end.

(** The sources of a variable in the bag of a block. *)
Definition abs_sources (info : BeamSpotInfo) (var : string) : Sources :=
  fun k => source_value info var (key_name k).

(** ** The effect of a category is the effect of its formula *)

Section Refinement.
Variables (lumi : Z) (info : BeamSpotInfo) (var : string).
Hypotheses (Hgenuine : genuine_DB info) (Hsix : In var ctor_varNames).
Implicit Types (cat : string) (h : Histo).

Local Abbreviation bsm := (beamSpotMap_ info).
Local Abbreviation rm0 := (build_resultsMap var bsm).
Local Abbreviation vtx := (vertex_values var (vertices_ info)).

Lemma rm0_source key : rm0 !! key = source_value info var key.
Proof. apply build_resultsMap_lookup. Qed.

(** "Coordinate" reads a value exactly when the database was projected. *)
Lemma coordinate_genuine h :
  eff_coordinate bsm rm0 h = spec_effect lumi (ValueAt Database) (abs_sources info var) vtx h.
Proof.
  unfold eff_coordinate, has_key, spec_effect.
  rewrite rm0_source. unfold abs_sources, source_value, key_name.
  destruct (bsm !! "DB") as [bs|] eqn:Hdb; [|reflexivity].
  destruct (project_total var bs Hsix) as [p Hp].
  unfold tracker_value. rewrite (Hgenuine bs Hdb), Hp. reflexivity.
Qed.

Lemma vertex_series_last x h :
  eff_set_vertex_diff lumi vtx rm0 (key_name x) h
  = spec_effect lumi (SeriesVertexMinus x) (abs_sources info var) vtx h.
Proof.
  unfold eff_set_vertex_diff, spec_effect, abs_sources. rewrite rm0_source.
  destruct (source_value info var (key_name x)) as [pb|]; [|reflexivity].
  apply (set_each_last_write lumi (fun v => fst v - fst pb)%float
           (fun v => quad_sum (snd v) (snd pb))).
Qed.

(** The effect of every category on its histogram, computed from the
    projection, is the effect of its formula. *)
Lemma cat_effect_table1 cat h :
  cat_effect lumi bsm vtx rm0 cat h
  = match table1 cat with
    | Some f => spec_effect lumi f (abs_sources info var) vtx h
    | None => h
    end.
Proof.
  unfold cat_effect, table1.
  destruct (cat =? "Coordinate"); [apply coordinate_genuine|].
  repeat (destruct (cat =? _);
    [first [ apply (vertex_series_last Database) | apply (vertex_series_last OnlineScaler)
           | unfold eff_fill_diff, eff_fill_vertex_diff, eff_set_value, eff_set_diff,
               spec_effect;
             rewrite !rm0_source; unfold abs_sources, key_name;
             repeat destruct (source_value _ _ _); reflexivity ]|]).
  reflexivity.
Qed.

End Refinement.

Section Loop.
Variables (lumi : Z) (info : BeamSpotInfo) (cats : list (string * string))
  (vars : list string) (hm : HistosContainer) (var : string).
Hypotheses (Hcats : NoDup cats) (Hvars : NoDup vars) (Hvar : In var vars).

(** C2. Refinement.  With a genuine database entry or none, the loop over
    variables and categories leaves in every booked entry of the catalog
    what the formula of its category prescribes for the block, as a
    function of the projected sources and the sampled vertices. *)
Theorem endLumi_refines_table1 scope cat h :
  genuine_DB info -> In var ctor_varNames -> In (scope, cat) cats ->
  hm_find var scope cat hm = Some (Some h) ->
  hm_find var scope cat (endLumi_vars lumi info cats vars hm)
  = Some (Some match table1 cat with
               | Some f => spec_effect lumi f (abs_sources info var)
                             (vertex_values var (vertices_ info)) h
               | None => h
               end).
Proof.
  intros Hg Hsix Hin Hh.
  destruct (series_entry lumi info cats vars hm var Hcats Hvars Hvar scope cat h Hin Hh)
    as (prefix & suffix & _ & ->).
  rewrite (walk_rm_genuine lumi info var prefix hm Hg Hsix), build_vertexResults_flat.
  rewrite (cat_effect_table1 lumi info var Hg Hsix). reflexivity.
Qed.

End Loop.

(** ** The block of the scenario *)

Section SpecWitnesses.
Import Scenario.

Lemma scenario_genuine : genuine_DB info.
Proof. intros bs Hbs. vm_compute in Hbs. injection Hbs as <-. reflexivity. Qed.

(** Of the three vertices 0.011, 0.013 and 0.009 the series holds the
    last. *)
Lemma endLumi_refines_table1_witness :
  hm_find "x" "validation" "Lumibased PrimaryVertex-DataBase"
    (endLumi_vars lumi info cats ctor_varNames histos)
  = Some (Some (write_bin 5 (0.009 - 0.01)%float (quad_sum 0.003 (sqrt (0.001 * 0.001)))
                  (booked "x" "validation" "Lumibased PrimaryVertex-DataBase"))).
Proof.
  apply (endLumi_refines_table1 lumi info cats ctor_varNames histos "x"
           (ctor_categories_NoDup false) ctor_varNames_NoDup ltac:(by_eval)
           "validation" "Lumibased PrimaryVertex-DataBase" _ scenario_genuine); by_eval.
Defined.

End SpecWitnesses.
