(* ===== verification/Frame.v ===== *)
(** * Frame: what the end of a luminosity block leaves alone

    A relation between the histogram before and after that is reflexive,
    transitive and holds across the effect of every category holds across
    the whole loop of [globalEndLuminosityBlock], for every entry of the
    container.  Instantiated with [same_but], this gives the invariants of
    the handler: the booking of every histogram is kept, null entries stay
    null, no bin other than the block's is written, entries of the
    distributions are only appended, and the display settings are not
    touched.  Instantiated with [bins_kept], it gives the behaviour at the
    edge of the binning: a block whose number is no bin of a histogram
    leaves the bins of that histogram as they were. *)

From S2P Require Export Engine Scenario.

Local Open Scope string_scope.
Local Open Scope list_scope.

(** ** Relations kept by the walk *)

Section Preservation.
Variables (lumi : Z) (R : Histo -> Histo -> Prop).
Hypothesis R_refl : forall h, R h h.
Hypothesis R_trans : forall h1 h2 h3, R h1 h2 -> R h2 h3 -> R h1 h3.
Hypothesis R_effect : forall beamSpotMap vertexResults rm cat h,
  R h (cat_effect lumi beamSpotMap vertexResults rm cat h).

(** The relation on container entries: null stays null. *)
Definition lift (x y : ME) : Prop :=
  match x, y with
  | Some h, Some h' => R h h'
  | None, None => True
  | _, _ => False
  end.

Lemma lift_refl x : lift x x.
Proof. destruct x; simpl; auto. Qed.

Lemma lift_trans x y z : lift x y -> lift y z -> lift x z.
Proof. destruct x, y, z; simpl; try tauto. apply R_trans. Qed.

Lemma cat_step_preserves beamSpotMap vertexResults var s itM kv ks kn x :
  hm_find kv ks kn (hmap s) = Some x ->
  exists y, hm_find kv ks kn (hmap (cat_step lumi beamSpotMap vertexResults var s itM))
            = Some y /\ lift x y.
Proof.
  intros Hx. rewrite cat_step_find, Hx.
  destruct (key3_eqb _ _ _ _ _ _); [|exists x; split; [reflexivity | apply lift_refl]].
  destruct x as [h|]; eexists; (split; [reflexivity|]); simpl; auto.
Qed.

Lemma walk_preserves beamSpotMap vertexResults var cats s kv ks kn x :
  hm_find kv ks kn (hmap s) = Some x ->
  exists y, hm_find kv ks kn
              (hmap (fold_left (cat_step lumi beamSpotMap vertexResults var) cats s))
            = Some y /\ lift x y.
Proof.
  revert s x. induction cats as [|itM cats IH]; intros s x Hx; simpl.
  - exists x. split; [exact Hx | apply lift_refl].
  - destruct (cat_step_preserves beamSpotMap vertexResults var s itM kv ks kn x Hx)
      as (y & Hy & Hxy).
    destruct (IH _ y Hy) as (z & Hz & Hyz). exists z. split; [exact Hz|].
    eapply lift_trans; eassumption.
Qed.

(** The relation holds across the loop over all variables, for every entry
    present in the container. *)
Lemma endLumi_vars_preserves info cats vars hm kv ks kn x :
  hm_find kv ks kn hm = Some x ->
  exists y, hm_find kv ks kn (endLumi_vars lumi info cats vars hm) = Some y /\ lift x y.
Proof.
  unfold endLumi_vars. revert hm x.
  induction vars as [|var vars IH]; intros hm x Hx; simpl.
  - exists x. split; [exact Hx | apply lift_refl].
  - assert (Hv : exists y, hm_find kv ks kn (endLumi_var lumi info cats hm var) = Some y
                           /\ lift x y).
    { rewrite endLumi_var_fold. apply walk_preserves. exact Hx. }
    destruct Hv as (y & Hy & Hxy). destruct (IH _ y Hy) as (z & Hz & Hyz).
    exists z. split; [exact Hz|]. eapply lift_trans; eassumption.
Qed.

End Preservation.

(** ** From the entry after the block to the entry before *)

(** The converse, with a relation that may depend on the name of the
    entry: a histogram found after the loop was there before the loop, and
    is related to it, when the relation is reflexive, transitive and holds
    across the effect of the category the entry is named after.  (An entry
    is only ever changed by the category of its own name.) *)
Section Backward.
Variables (lumi : Z) (R : string -> Histo -> Histo -> Prop).
Hypothesis R_refl : forall n h, R n h h.
Hypothesis R_trans : forall n h1 h2 h3, R n h1 h2 -> R n h2 h3 -> R n h1 h3.
Hypothesis R_effect : forall beamSpotMap vertexResults rm cat h,
  R cat h (cat_effect lumi beamSpotMap vertexResults rm cat h).

Lemma cat_step_back beamSpotMap vertexResults var s itM kv ks kn h' :
  hm_find kv ks kn (hmap (cat_step lumi beamSpotMap vertexResults var s itM))
  = Some (Some h') ->
  exists h, hm_find kv ks kn (hmap s) = Some (Some h) /\ R kn h h'.
Proof.
  rewrite cat_step_find.
  destruct (key3_eqb var (fst itM) (snd itM) kv ks kn) eqn:Ek.
  - apply key3_eqb_spec in Ek. destruct Ek as (_ & _ & ->).
    destruct (hm_find kv ks (snd itM) (hmap s)) as [[h|]|]; try discriminate.
    intros [= <-]. exists h. split; [reflexivity | apply R_effect].
  - intros Hh. exists h'. split; [exact Hh | apply R_refl].
Qed.

Lemma walk_back beamSpotMap vertexResults var cats s kv ks kn h' :
  hm_find kv ks kn
    (hmap (fold_left (cat_step lumi beamSpotMap vertexResults var) cats s))
  = Some (Some h') ->
  exists h, hm_find kv ks kn (hmap s) = Some (Some h) /\ R kn h h'.
Proof.
  revert s. induction cats as [|itM cats IH]; intros s Hh; simpl in Hh.
  - exists h'. split; [exact Hh | apply R_refl].
  - destruct (IH _ Hh) as (h1 & H1 & R1).
    destruct (cat_step_back _ _ _ _ _ _ _ _ _ H1) as (h & H0 & R0).
    exists h. split; [exact H0 | eapply R_trans; eassumption].
Qed.

Lemma endLumi_vars_back info cats vars hm kv ks kn h' :
  hm_find kv ks kn (endLumi_vars lumi info cats vars hm) = Some (Some h') ->
  exists h, hm_find kv ks kn hm = Some (Some h) /\ R kn h h'.
Proof.
  unfold endLumi_vars. revert hm.
  induction vars as [|var vars IH]; intros hm Hh; simpl in Hh.
  - exists h'. split; [exact Hh | apply R_refl].
  - destruct (IH _ Hh) as (h1 & H1 & R1). rewrite endLumi_var_fold in H1.
    destruct (walk_back _ _ _ _ _ _ _ _ _ H1) as (h & H0 & R0).
    exists h. split; [exact H0 | eapply R_trans; eassumption].
Qed.

End Backward.

(** ** The frame of a block *)

(** [h'] differs from [h] at most in the bin [lumi] and in entries appended
    by [Fill]. *)
Record same_but (lumi : Z) (h h' : Histo) : Prop := mkSameBut {
  sb_book : h_book h' = h_book h;
  sb_bins : forall b, b <> lumi ->
              GetBinContent h' b = GetBinContent h b /\ GetBinError h' b = GetBinError h b;
  sb_fills : exists l, h_fills h' = h_fills h ++ l;
  sb_display : h_display h' = h_display h
}.

Section SameBut.
Variable lumi : Z.
Implicit Types (h : Histo).

Lemma same_but_refl h : same_but lumi h h.
Proof.
  split; first [tauto | exists []; symmetry; apply app_nil_r].
Qed.

Lemma same_but_trans h1 h2 h3 : same_but lumi h1 h2 -> same_but lumi h2 h3 -> same_but lumi h1 h3.
Proof.
  intros [Hb1 Hn1 [l1 Hf1] Hd1] [Hb2 Hn2 [l2 Hf2] Hd2]. split.
  - congruence.
  - intros b Hne. destruct (Hn2 b Hne) as [-> ->]. apply Hn1, Hne.
  - exists (l1 ++ l2). rewrite Hf2, Hf1, app_assoc. reflexivity.
  - congruence.
Qed.

Lemma same_but_Fill x h : same_but lumi h (Fill x h).
Proof. split; first [tauto | exists [x]; reflexivity]. Qed.

Lemma same_but_set v e h : same_but lumi h (setBinError lumi e (setBinContent lumi v h)).
Proof.
  split.
  - rewrite h_book_setBinError. apply h_book_setBinContent.
  - intros b Hne. rewrite GetBinContent_setBinError, GetBinContent_setBinContent,
      GetBinError_setBinError, GetBinError_setBinContent.
    rewrite (proj2 (Z.eqb_neq b lumi) Hne), !andb_false_r. split; reflexivity.
  - exists []. rewrite h_fills_setBinError, h_fills_setBinContent, app_nil_r. reflexivity.
  - rewrite h_display_setBinError. apply h_display_setBinContent.
Qed.

(** A loop of steps that each keep the relation keeps it. *)
Lemma same_but_loop {A : Type} (f : Histo -> A -> Histo) (l : list A) h :
  (forall h a, same_but lumi h (f h a)) -> same_but lumi h (fold_left f l h).
Proof.
  intros Hf. revert h. induction l as [|a l IH]; intros h; simpl; [apply same_but_refl|].
  eapply same_but_trans; [apply Hf | apply IH].
Qed.

Lemma same_but_effect beamSpotMap vertexResults rm cat h :
  same_but lumi h (cat_effect lumi beamSpotMap vertexResults rm cat h).
Proof.
  unfold cat_effect, eff_coordinate, eff_fill_diff, eff_fill_vertex_diff, eff_set_value,
    eff_set_diff, eff_set_vertex_diff.
  repeat (destruct (cat =? _); [repeat (destruct (_ !! _) || destruct (has_key _ _));
    first [ apply same_but_refl | apply same_but_Fill | apply same_but_set
          | apply same_but_loop; intros; first [apply same_but_Fill | apply same_but_set] ]|]).
  apply same_but_refl.
Qed.

End SameBut.

(** ** A block outside the binning *)

(** [h'] has the booking of [h] and, when [lumi] is no bin of [h], its
    bins. *)
Definition bins_kept (lumi : Z) (h h' : Histo) : Prop :=
  h_book h' = h_book h
  /\ (in_bins h lumi = false -> h_content h' = h_content h /\ h_error h' = h_error h).

Section BinsKept.
Variable lumi : Z.
Implicit Types (h : Histo).

Lemma bins_kept_refl h : bins_kept lumi h h.
Proof. split; auto. Qed.

Lemma bins_kept_trans h1 h2 h3 :
  bins_kept lumi h1 h2 -> bins_kept lumi h2 h3 -> bins_kept lumi h1 h3.
Proof.
  intros [Hb1 Hk1] [Hb2 Hk2]. split; [congruence|]. intros Hout.
  assert (Hout2 : in_bins h2 lumi = false)
    by (unfold in_bins, GetNbinsX in *; rewrite Hb1; exact Hout).
  destruct (Hk1 Hout) as [<- <-]. apply Hk2, Hout2.
Qed.

Lemma bins_kept_Fill x h : bins_kept lumi h (Fill x h).
Proof. split; auto. Qed.

Lemma bins_kept_set v e h :
  bins_kept lumi h (setBinError lumi e (setBinContent lumi v h)).
Proof.
  split.
  - rewrite h_book_setBinError. apply h_book_setBinContent.
  - intros Hout. rewrite set_bin_outside by exact Hout. auto.
Qed.

Lemma bins_kept_loop {A : Type} (f : Histo -> A -> Histo) (l : list A) h :
  (forall h a, bins_kept lumi h (f h a)) -> bins_kept lumi h (fold_left f l h).
Proof.
  intros Hf. revert h. induction l as [|a l IH]; intros h; simpl; [apply bins_kept_refl|].
  eapply bins_kept_trans; [apply Hf | apply IH].
Qed.

Lemma bins_kept_effect beamSpotMap vertexResults rm cat h :
  bins_kept lumi h (cat_effect lumi beamSpotMap vertexResults rm cat h).
Proof.
  unfold cat_effect, eff_coordinate, eff_fill_diff, eff_fill_vertex_diff, eff_set_value,
    eff_set_diff, eff_set_vertex_diff.
  repeat (destruct (cat =? _); [repeat (destruct (_ !! _) || destruct (has_key _ _));
    first [ apply bins_kept_refl | apply bins_kept_Fill | apply bins_kept_set
          | apply bins_kept_loop; intros; first [apply bins_kept_Fill | apply bins_kept_set] ]|]).
  apply bins_kept_refl.
Qed.

End BinsKept.

(** ** The invariants of the handler *)

Section Invariants.
Variables (lumi : Z) (info : BeamSpotInfo) (cats : list (string * string))
  (vars : list string).
Implicit Types (hm : HistosContainer) (kv ks kn : string) (x : ME).

(** C9. Closing a block touches, in every histogram of the container, at
    most the block's own bin and the list of filled entries, which only
    grows; the booking and the display settings are kept, and a null entry
    stays null. *)
Theorem endLumi_touches_own_bin hm kv ks kn x :
  hm_find kv ks kn hm = Some x ->
  exists y, hm_find kv ks kn (endLumi_vars lumi info cats vars hm) = Some y
            /\ lift (same_but lumi) x y.
Proof.
  intros Hx. apply endLumi_vars_preserves; try assumption.
  - apply same_but_refl.
  - apply same_but_trans.
  - apply same_but_effect.
Qed.

(** C18. A block whose number is no bin of a series (the series are booked
    with the bins 1 to 3000) leaves every bin of the series as it was: its
    value is not recorded, and no other bin is overwritten. *)
Theorem endLumi_block_out_of_range hm kv ks kn h :
  hm_find kv ks kn hm = Some (Some h) -> in_bins h lumi = false ->
  exists h', hm_find kv ks kn (endLumi_vars lumi info cats vars hm) = Some (Some h')
    /\ bins_kept lumi h h' /\ h_content h' = h_content h /\ h_error h' = h_error h.
Proof.
  intros Hh Hout.
  destruct (endLumi_vars_preserves lumi (bins_kept lumi) (bins_kept_refl lumi)
              (bins_kept_trans lumi) (bins_kept_effect lumi) info cats vars hm kv ks kn
              (Some h) Hh) as ([h'|] & Hy & Hk); [|contradiction].
  exists h'. split; [exact Hy|]. split; [exact Hk|]. apply Hk, Hout.
Qed.

End Invariants.

(** ** The block of the scenario *)

Section FrameWitnesses.
Import Scenario.

Lemma endLumi_touches_own_bin_witness :
  exists y, hm_find "z" "lumi" "Lumibased DataBase"
              (endLumi_vars lumi info cats ctor_varNames histos) = Some y
            /\ lift (same_but lumi) (Some (booked "z" "lumi" "Lumibased DataBase")) y.
Proof.
  apply (endLumi_touches_own_bin lumi info cats ctor_varNames histos
           "z" "lumi" "Lumibased DataBase"); by_eval.
Defined.

(** The block numbered 3001 is no bin of a series of 3000 bins. *)
Lemma endLumi_block_out_of_range_witness :
  exists h', hm_find "x" "lumi" "Lumibased DataBase"
               (endLumi_vars 3001 info cats ctor_varNames histos) = Some (Some h')
    /\ bins_kept 3001 (booked "x" "lumi" "Lumibased DataBase") h'
    /\ h_content h' = h_content (booked "x" "lumi" "Lumibased DataBase")
    /\ h_error h' = h_error (booked "x" "lumi" "Lumibased DataBase").
Proof.
  apply (endLumi_block_out_of_range 3001 info cats ctor_varNames histos
           "x" "lumi" "Lumibased DataBase"); by_eval.
Defined.

End FrameWitnesses.
