(* ===== verification/Normalizer.v ===== *)
(** * Normalizer: [dqmEndRun]

    At the end of a run with at least one processed luminosity block the
    module sorts the block numbers and, for every variable and every scope
    other than "run", scans the populated bins of the booked histograms for
    the least and greatest content, separately for the value series and the
    difference series of the scope, sets the display bounds of each
    histogram from the extremes of its group (or widens the histogram's own
    bounds by 0.01 when the group has no spread), and restricts the x axis
    to the processed blocks.  Sorting is a morphism from permutations to
    equality, so the outcome does not depend on the order of closing. *)

From S2P Require Export Frame.
From stdpp Require Import sorting.

Local Open Scope string_scope.
Local Open Scope list_scope.

(** ** The two groups of series *)

Definition bigNumber : double := 1000000%float.

(** The value series. *)
Definition is_abs (name : string) : bool :=
  (name =? "Lumibased BeamSpotFit") || (name =? "Lumibased PrimaryVertex")
  || (name =? "Lumibased DataBase") || (name =? "Lumibased Online").

(** The difference series. *)
Definition is_delta (name : string) : bool :=
  (name =? "Lumibased PrimaryVertex-DataBase fit")
  || (name =? "Lumibased PrimaryVertex-Online fit")
  || (name =? "Lumibased Online-DataBase fit")
  || (name =? "Lumibased PrimaryVertex-DataBase")
  || (name =? "Lumibased PrimaryVertex-Online").

(** ** The scan *)

(** The four running extremes of a scope. *)
Record Extremes : Type := mkExtremes {
  min : double;
  max : double;
  minDelta : double;
  maxDelta : double
}.

Definition extremes_init : Extremes :=
  mkExtremes bigNumber (- bigNumber) bigNumber (- bigNumber).

(** [if (min > c) min = c] *)
Definition lower (m c : double) : double := if dgt m c then c else m.

(** [if (max < c) max = c] *)
Definition raise (m c : double) : double := if (m <? c)%float then c else m.

(** A bin counts when its error or its content is not zero. *)
Definition populated (h : Histo) (bin : Z) : bool :=
  dne (GetBinError h bin) 0 || dne (GetBinContent h bin) 0.

(** The body of the loop over the bins of a histogram. *)
Definition scan_bin (name : string) (h : Histo) (e : Extremes) (bin : Z) : Extremes :=
  if populated h bin then
    let c := GetBinContent h bin in
    if is_abs name then mkExtremes (lower (min e) c) (raise (max e) c) (minDelta e) (maxDelta e)
    else if is_delta name then
      mkExtremes (min e) (max e) (lower (minDelta e) c) (raise (maxDelta e) c)
    else e
  else e.

(** The loop over the bins [1..GetNbinsX()] of an entry. *)
Definition scan_histo (e : Extremes) (itHHH : string * ME) : Extremes :=
  match snd itHHH with
  | Some h => fold_left (scan_bin (fst itHHH) h) (bins h) e
  | None => e
  end.

(** The first loop over the entries of a scope. *)
Definition scan_scope (names : list (string * ME)) : Extremes :=
  fold_left scan_histo names extremes_init.

(** ** The bounds *)

(** No populated bin was seen, or all seen contents are equal. *)
Definition degenerate (mn mx : double) : bool :=
  ((mx =? - bigNumber)%float && (mn =? bigNumber)%float) || (mx - mn =? 0)%float.

(** The histogram's own bounds, widened by 0.01 on each side. *)
Definition widen_own (h : Histo) : Histo :=
  let h1 := SetMinimum (GetMinimum h - 0.01)%float h in
  SetMaximum (GetMaximum h1 + 0.01)%float h1.

(** The extremes of the group, padded by [k] times their spread. *)
Definition pad (k mn mx : double) (h : Histo) : Histo :=
  SetMaximum (mx + k * (mx - mn))%float (SetMinimum (mn - k * (mx - mn))%float h).

Definition set_group_bounds (k mn mx : double) (h : Histo) : Histo :=
  if degenerate mn mx then widen_own h else pad k mn mx h.

(** The body of the second loop over the entries of a scope. *)
Definition set_bounds (e : Extremes) (firstLumi lastLumi : Z) (name : string) (h : Histo)
  : Histo :=
  let h1 :=
    if is_abs name then set_group_bounds 0.1 (min e) (max e) h
    else if is_delta name then set_group_bounds 2 (minDelta e) (maxDelta e) h
    else h in
  SetRangeUser (of_int firstLumi - 0.5)%float (of_int lastLumi + 0.5)%float h1.

(** The body of the loop over the scopes of a variable. *)
Definition endRun_scope (firstLumi lastLumi : Z) (scope : string) (names : list (string * ME))
  : list (string * ME) :=
  if negb (scope =? "run") then
    let e := scan_scope names in
    map (fun itHHH => (fst itHHH,
                       option_map (set_bounds e firstLumi lastLumi (fst itHHH)) (snd itHHH)))
      names
  else names.

(** The loops over variables and scopes. *)
Definition endRun_histosMap (firstLumi lastLumi : Z) (hm : HistosContainer) : HistosContainer :=
  map (fun itH =>
         (fst itH, map (fun itHH => (fst itHH, endRun_scope firstLumi lastLumi
                                                 (fst itHH) (snd itHH)))
                     (snd itH))) hm.

(** [std::sort(processedLumis_.begin(), processedLumis_.end())] *)
Definition sort_lumis (l : list Z) : list Z := merge_sort Z.le l.

Section Handler.
Context `{BeamFitterOps} `{PVFitterOps}.

Definition dqmEndRun (m : Monitor) : Monitor :=
  match processedLumis_ m with
  | [] => m
  | _ =>
      let sorted := sort_lumis (processedLumis_ m) in
      let firstLumi := default 0%Z (head sorted) in
      let lastLumi := default 0%Z (last sorted) in
      set_histosMap (endRun_histosMap firstLumi lastLumi (histosMap_ m))
        (set_processedLumis sorted m)
  end.

End Handler.

(** ** The extremes bound what was scanned *)

(** The two groups, and the extremes of each. *)
Inductive Group : Type := Abs | Delta.

Definition group_of (name : string) : option Group :=
  if is_abs name then Some Abs else if is_delta name then Some Delta else None.

Definition lo (g : Group) (e : Extremes) : double :=
  match g with Abs => min e | Delta => minDelta e end.

Definition hi (g : Group) (e : Extremes) : double :=
  match g with Abs => max e | Delta => maxDelta e end.

(** The padding factor of a group. *)
Definition padding (g : Group) : double :=
  match g with Abs => 0.1%float | Delta => 2%float end.

(** [c] is neither below the lower nor above the upper extreme. *)
Definition within (g : Group) (e : Extremes) (c : double) : Prop :=
  (c <? lo g e)%float = false /\ (hi g e <? c)%float = false.

Section Scan.
Implicit Types (m c x : double) (e : Extremes) (h : Histo) (g : Group).

Lemma lower_bound m c : (c <? lower m c)%float = false.
Proof.
  unfold lower, dgt. destruct (c <? m)%float eqn:E; [apply ltb_irrefl | exact E].
Qed.

Lemma raise_bound m c : (raise m c <? c)%float = false.
Proof.
  unfold raise. destruct (m <? c)%float eqn:E; [apply ltb_irrefl | exact E].
Qed.

(** Lowering the minimum keeps it below what it was below. *)
Lemma lower_keeps m c x : (x <? m)%float = false -> (x <? lower m c)%float = false.
Proof.
  intros Hx. unfold lower, dgt. destruct (c <? m)%float eqn:E; [|exact Hx].
  destruct (x <? c)%float eqn:Exc; [|reflexivity].
  rewrite (ltb_trans x c m Exc E) in Hx. discriminate.
Qed.

Lemma raise_keeps m c x : (m <? x)%float = false -> (raise m c <? x)%float = false.
Proof.
  intros Hx. unfold raise. destruct (m <? c)%float eqn:E; [|exact Hx].
  destruct (c <? x)%float eqn:Ecx; [|reflexivity].
  rewrite (ltb_trans m c x E Ecx) in Hx. discriminate.
Qed.

Lemma group_of_abs name : group_of name = Some Abs -> is_abs name = true.
Proof. unfold group_of. destruct (is_abs name), (is_delta name); congruence. Qed.

Lemma group_of_delta name :
  group_of name = Some Delta -> is_abs name = false /\ is_delta name = true.
Proof. unfold group_of. destruct (is_abs name), (is_delta name); try congruence; auto. Qed.

(** A step of the scan keeps every content it has covered within the
    extremes. *)
Lemma scan_bin_keeps g name h e bin c :
  within g e c -> within g (scan_bin name h e bin) c.
Proof.
  intros [Hlo Hhi]. unfold scan_bin.
  destruct (populated h bin); [|split; assumption].
  destruct (is_abs name); [|destruct (is_delta name); [|split; assumption]];
    destruct g; split; simpl; auto using lower_keeps, raise_keeps.
Qed.

(** A populated bin of a series of the group is covered by the step that
    visits it. *)
Lemma scan_bin_covers g name h e bin :
  group_of name = Some g -> populated h bin = true ->
  within g (scan_bin name h e bin) (GetBinContent h bin).
Proof.
  intros Hg Hp. unfold scan_bin. rewrite Hp. destruct g.
  - rewrite (group_of_abs name Hg). split; [apply lower_bound | apply raise_bound].
  - destruct (group_of_delta name Hg) as [-> ->].
    split; [apply lower_bound | apply raise_bound].
Qed.

Lemma scan_bins_keeps g name h l e c :
  within g e c -> within g (fold_left (scan_bin name h) l e) c.
Proof.
  intros Hw. apply (fold_left_invariant (fun e => within g e c)); [|exact Hw].
  intros e' bin _. apply scan_bin_keeps.
Qed.

Lemma scan_bins_covers g name h l e bin :
  group_of name = Some g -> populated h bin = true -> In bin l ->
  within g (fold_left (scan_bin name h) l e) (GetBinContent h bin).
Proof.
  intros Hg Hp. revert e. induction l as [|b l IH]; intros e Hin; [destruct Hin|].
  simpl. destruct Hin as [->|Hin]; [|apply IH, Hin].
  apply scan_bins_keeps, scan_bin_covers; assumption.
Qed.

Lemma scan_histo_keeps g e itHHH c : within g e c -> within g (scan_histo e itHHH) c.
Proof.
  intros Hw. unfold scan_histo. destruct (snd itHHH); [|exact Hw].
  apply scan_bins_keeps, Hw.
Qed.

(** Every populated bin of every booked series of a group lies within the
    extremes the scan of the scope ends with. *)
Lemma scan_scope_covers g names name h bin :
  In (name, Some h) names -> group_of name = Some g ->
  in_bins h bin = true -> populated h bin = true ->
  within g (scan_scope names) (GetBinContent h bin).
Proof.
  intros Hin Hg Hb Hp. unfold scan_scope. generalize extremes_init.
  induction names as [|it names IH]; intros e; [destruct Hin|]. simpl.
  destruct Hin as [->|Hin]; [|apply IH, Hin].
  apply (fold_left_invariant (fun e => within g e (GetBinContent h bin)));
    [intros e' it _; apply scan_histo_keeps|].
  unfold scan_histo. simpl. apply scan_bins_covers; try assumption.
  apply list_elem_of_In, elem_of_bins, in_bins_spec, Hb.
Qed.

End Scan.

(** ** What [set_bounds] leaves in a histogram *)

Section Bounds.
Implicit Types (e : Extremes) (h : Histo) (g : Group) (name : string).

(** The body of the second loop, by group. *)
Lemma set_bounds_group g e firstLumi lastLumi name h :
  group_of name = Some g ->
  set_bounds e firstLumi lastLumi name h
  = SetRangeUser (of_int firstLumi - 0.5)%float (of_int lastLumi + 0.5)%float
      (set_group_bounds (padding g) (lo g e) (hi g e) h).
Proof.
  intros Hg. unfold set_bounds. destruct g.
  - rewrite (group_of_abs name Hg). reflexivity.
  - destruct (group_of_delta name Hg) as [-> ->]. reflexivity.
Qed.

(** The bins and entries are not touched. *)
Lemma set_bounds_data e firstLumi lastLumi name h :
  let h' := set_bounds e firstLumi lastLumi name h in
  h_book h' = h_book h /\ h_content h' = h_content h /\ h_error h' = h_error h
  /\ h_fills h' = h_fills h.
Proof.
  unfold set_bounds, set_group_bounds, widen_own, pad.
  destruct (is_abs name); [|destruct (is_delta name)];
    repeat match goal with |- context [degenerate ?a ?b] => destruct (degenerate a b) end;
    simpl; repeat split; reflexivity.
Qed.

Lemma set_bounds_range e firstLumi lastLumi name h :
  h_range (set_bounds e firstLumi lastLumi name h)
  = Some ((of_int firstLumi - 0.5)%float, (of_int lastLumi + 0.5)%float).
Proof. reflexivity. Qed.

End Bounds.

(** ** The container after the run *)

(** The entries of a scope of a variable. *)
Definition hm_names (v s : string) (hm : HistosContainer) : list (string * ME) :=
  default [] (sm_find s (default [] (sm_find v hm))).

Section Container.
Variables (firstLumi lastLumi : Z).
Implicit Types (hm : HistosContainer) (v s n : string).

Lemma hm_find_names v s n hm x :
  hm_find v s n hm = Some x -> sm_find n (hm_names v s hm) = Some x.
Proof.
  unfold hm_find, hm_names. destruct (sm_find v hm) as [scopes|]; [|discriminate]. simpl.
  destruct (sm_find s scopes) as [names|]; [|discriminate]. simpl. auto.
Qed.

(** An entry after the run: untouched in the "run" scope, and elsewhere
    given its bounds from the scan of its scope. *)
Lemma endRun_histosMap_find hm v s n :
  hm_find v s n (endRun_histosMap firstLumi lastLumi hm)
  = if s =? "run" then hm_find v s n hm
    else option_map (option_map (set_bounds (scan_scope (hm_names v s hm))
                                   firstLumi lastLumi n))
           (hm_find v s n hm).
Proof.
  unfold endRun_histosMap, hm_find, hm_names.
  rewrite (sm_find_map (fun _ scopes => map (fun itHH =>
             (fst itHH, endRun_scope firstLumi lastLumi (fst itHH) (snd itHH))) scopes)).
  destruct (sm_find v hm) as [scopes|]; simpl; [|destruct (s =? "run"); reflexivity].
  rewrite (sm_find_map (fun s names => endRun_scope firstLumi lastLumi s names)).
  destruct (sm_find s scopes) as [names|]; simpl; [|destruct (s =? "run"); reflexivity].
  unfold endRun_scope. destruct (s =? "run"); simpl; [reflexivity|].
  apply (sm_find_map (fun n x => option_map (set_bounds (scan_scope names)
                                               firstLumi lastLumi n) x)).
Qed.

End Container.

(** ** Sorting the processed blocks *)

Section Sorting.
Implicit Types (l : list Z) (x : Z).

Lemma sort_lumis_Permutation l : Permutation (sort_lumis l) l.
Proof. apply merge_sort_Permutation. Qed.

Lemma sort_lumis_In l x : In x (sort_lumis l) <-> In x l.
Proof.
  split; intros Hin; (eapply Permutation_in; [|exact Hin]);
    [|symmetry]; apply sort_lumis_Permutation.
Qed.

Lemma sort_lumis_sorted l : StronglySorted Z.le (sort_lumis l).
Proof.
  apply Sorted_StronglySorted; [intros x y z; apply Z.le_trans|].
  apply (Sorted_merge_sort Z.le).
Qed.

(** The first element of a sorted list is its least, the last its
    greatest. *)
Lemma sorted_head_least l x y :
  StronglySorted Z.le l -> head l = Some x -> In y l -> (x <= y)%Z.
Proof.
  intros Hs Hh Hy. destruct l as [|a l]; [discriminate|]. injection Hh as ->.
  apply StronglySorted_inv in Hs. destruct Hs as [_ Hall].
  destruct Hy as [->|Hy]; [lia|]. rewrite List.Forall_forall in Hall. auto.
Qed.

Lemma sorted_last_greatest l x :
  StronglySorted Z.le l -> last l = Some x -> forall y, In y l -> (y <= x)%Z.
Proof.
  intros Hs. induction Hs as [|a l Hs IH Hall]; intros Hl y Hy; [destruct Hy|].
  destruct l as [|b l]; [injection Hl as <-; destruct Hy as [->|[]]; lia|].
  destruct Hy as [->|Hy]; [|apply IH; [exact Hl | exact Hy]].
  rewrite List.Forall_forall in Hall. specialize (IH Hl b (or_introl eq_refl)).
  specialize (Hall b (or_introl eq_refl)). lia.
Qed.

Lemma sort_lumis_nonempty l : l <> [] -> sort_lumis l <> [].
Proof.
  intros Hne Hs. destruct l as [|x l]; [contradiction|].
  assert (Hin : In x (sort_lumis (x :: l))) by (apply sort_lumis_In; left; reflexivity).
  rewrite Hs in Hin. destruct Hin.
Qed.

(** The ends of the sorted blocks are the least and the greatest processed
    block. *)
Lemma sort_lumis_ends l :
  l <> [] ->
  exists firstLumi lastLumi,
    head (sort_lumis l) = Some firstLumi /\ last (sort_lumis l) = Some lastLumi
    /\ In firstLumi l /\ In lastLumi l
    /\ forall x, In x l -> (firstLumi <= x <= lastLumi)%Z.
Proof.
  intros Hne. pose proof (sort_lumis_nonempty l Hne) as Hs.
  pose proof (sort_lumis_sorted l) as Hsorted.
  destruct (head (sort_lumis l)) as [f|] eqn:Hh;
    [|destruct (sort_lumis l); [contradiction|discriminate]].
  destruct (last (sort_lumis l)) as [la|] eqn:Hl;
    [|apply last_None in Hl; contradiction].
  exists f, la. split; [reflexivity|]. split; [reflexivity|].
  split; [apply sort_lumis_In, list_elem_of_In, head_Some_elem_of, Hh|].
  split; [apply sort_lumis_In, list_elem_of_In, last_Some_elem_of, Hl|].
  intros x Hx. apply sort_lumis_In in Hx.
  split; [eapply sorted_head_least | eapply sorted_last_greatest]; eassumption.
Qed.

End Sorting.

(** ** The handler *)

(** The data of a histogram: booking, bins and entries. *)
Definition same_data (h h' : Histo) : Prop :=
  h_book h' = h_book h /\ h_content h' = h_content h /\ h_error h' = h_error h
  /\ h_fills h' = h_fills h.

Lemma GetMaximum_SetMinimum v h : GetMaximum (SetMinimum v h) = GetMaximum h.
Proof. reflexivity. Qed.

Section EndRun.
Context `{BeamFitterOps} `{PVFitterOps}.
Variable m : Monitor.
Hypothesis Hlumis : processedLumis_ m <> [].
Implicit Types (v s n : string) (h : Histo) (g : Group).

Local Abbreviation scanned v s := (scan_scope (hm_names v s (histosMap_ m))).

(** The container after the run, with the ends of the sorted blocks. *)
Lemma dqmEndRun_histosMap :
  exists firstLumi lastLumi,
    histosMap_ (dqmEndRun m) = endRun_histosMap firstLumi lastLumi (histosMap_ m)
    /\ In firstLumi (processedLumis_ m) /\ In lastLumi (processedLumis_ m)
    /\ forall x, In x (processedLumis_ m) -> (firstLumi <= x <= lastLumi)%Z.
Proof.
  destruct (sort_lumis_ends _ Hlumis) as (f & la & Hh & Hl & Hf & Hla & Hall).
  exists f, la. split; [|auto]. unfold dqmEndRun.
  destruct (processedLumis_ m) as [|x l] eqn:E; [contradiction|].
  rewrite Hh, Hl. reflexivity.
Qed.

(** An entry outside the "run" scope after the run. *)
Lemma dqmEndRun_entry v s n h :
  s <> "run" -> hm_find v s n (histosMap_ m) = Some (Some h) ->
  exists firstLumi lastLumi,
    hm_find v s n (histosMap_ (dqmEndRun m))
    = Some (Some (set_bounds (scanned v s) firstLumi lastLumi n h))
    /\ In firstLumi (processedLumis_ m) /\ In lastLumi (processedLumis_ m)
    /\ forall x, In x (processedLumis_ m) -> (firstLumi <= x <= lastLumi)%Z.
Proof.
  intros Hs Hh. destruct dqmEndRun_histosMap as (f & la & -> & Hends).
  exists f, la. split; [|exact Hends].
  rewrite endRun_histosMap_find, Hh.
  destruct (String.eqb_spec s "run"); [contradiction|reflexivity].
Qed.

(** C7. When the extremes of its group have a spread, a booked series gets
    as display bounds the least scanned content minus, and the greatest
    plus, the spread times the padding of the group: 0.1 for the value
    series, 2 for the difference series. *)
Theorem dqmEndRun_padded v s n h g :
  s <> "run" -> hm_find v s n (histosMap_ m) = Some (Some h) -> group_of n = Some g ->
  degenerate (lo g (scanned v s)) (hi g (scanned v s)) = false ->
  exists h', hm_find v s n (histosMap_ (dqmEndRun m)) = Some (Some h')
    /\ h_minimum h' = Some (lo g (scanned v s)
                             - padding g * (hi g (scanned v s) - lo g (scanned v s)))%float
    /\ h_maximum h' = Some (hi g (scanned v s)
                             + padding g * (hi g (scanned v s) - lo g (scanned v s)))%float.
Proof.
  intros Hs Hh Hg Hd. destruct (dqmEndRun_entry v s n h Hs Hh) as (f & la & -> & _).
  eexists. split; [reflexivity|].
  rewrite (set_bounds_group g _ f la n h Hg). unfold set_group_bounds. rewrite Hd.
  split; reflexivity.
Qed.

(** C19. When no populated bin was scanned in its group, or all scanned
    contents are equal, a booked series gets its own minimum minus 0.01 and
    its own maximum plus 0.01 as display bounds. *)
Theorem dqmEndRun_fallback v s n h g :
  s <> "run" -> hm_find v s n (histosMap_ m) = Some (Some h) -> group_of n = Some g ->
  degenerate (lo g (scanned v s)) (hi g (scanned v s)) = true ->
  exists h', hm_find v s n (histosMap_ (dqmEndRun m)) = Some (Some h')
    /\ h_minimum h' = Some (GetMinimum h - 0.01)%float
    /\ h_maximum h' = Some (GetMaximum h + 0.01)%float.
Proof.
  intros Hs Hh Hg Hd. destruct (dqmEndRun_entry v s n h Hs Hh) as (f & la & -> & _).
  eexists. split; [reflexivity|].
  rewrite (set_bounds_group g _ f la n h Hg). unfold set_group_bounds. rewrite Hd.
  split; reflexivity.
Qed.

(** C8. The extremes a series is given bounds from enclose every populated
    bin of the series: no such content is below the lower or above the
    upper extreme of its group. *)
Theorem dqmEndRun_extremes_enclose v s n h g bin :
  hm_find v s n (histosMap_ m) = Some (Some h) -> group_of n = Some g ->
  in_bins h bin = true -> populated h bin = true ->
  within g (scanned v s) (GetBinContent h bin).
Proof.
  intros Hh Hg Hb Hp. apply (scan_scope_covers g _ n h bin); try assumption.
  apply sm_find_In, hm_find_names, Hh.
Qed.

(** C24. Every booked series outside the "run" scope has its x axis
    restricted to the processed blocks: from the least block number minus
    one half to the greatest plus one half. *)
Theorem dqmEndRun_axis_range v s n h :
  s <> "run" -> hm_find v s n (histosMap_ m) = Some (Some h) ->
  exists h' firstLumi lastLumi,
    hm_find v s n (histosMap_ (dqmEndRun m)) = Some (Some h')
    /\ h_range h' = Some ((of_int firstLumi - 0.5)%float, (of_int lastLumi + 0.5)%float)
    /\ In firstLumi (processedLumis_ m) /\ In lastLumi (processedLumis_ m)
    /\ forall x, In x (processedLumis_ m) -> (firstLumi <= x <= lastLumi)%Z.
Proof.
  intros Hs Hh. destruct (dqmEndRun_entry v s n h Hs Hh) as (f & la & -> & Hends).
  exists (set_bounds (scanned v s) f la n h), f, la.
  split; [reflexivity|]. split; [apply set_bounds_range | exact Hends].
Qed.

(** C25. The run's end changes no booking, bin or entry of any histogram,
    keeps null entries null, and leaves the "run" scope as it is. *)
Theorem dqmEndRun_keeps_data v s n x :
  hm_find v s n (histosMap_ m) = Some x ->
  exists y, hm_find v s n (histosMap_ (dqmEndRun m)) = Some y /\ lift same_data x y
            /\ (s = "run" -> y = x).
Proof.
  intros Hx. destruct dqmEndRun_histosMap as (f & la & -> & _).
  rewrite endRun_histosMap_find, Hx.
  destruct (String.eqb_spec s "run") as [->|Hne].
  - exists x. split; [reflexivity|]. split; [|reflexivity].
    destruct x; simpl; unfold same_data; tauto.
  - eexists. split; [reflexivity|]. split; [|contradiction].
    destruct x as [h|]; simpl; [apply set_bounds_data | exact I].
Qed.

End EndRun.

(** The run's end keeps the keys of the container sorted. *)
Lemma endRun_histosMap_sorted firstLumi lastLumi hm :
  hm_sorted hm = true -> hm_sorted (endRun_histosMap firstLumi lastLumi hm) = true.
Proof.
  unfold hm_sorted, endRun_histosMap. intros Hs.
  apply andb_true_iff in Hs. destruct Hs as [H1 H2]. apply andb_true_iff. split.
  - rewrite (sm_sorted_map (fun _ scopes => map (fun itHH =>
      (fst itHH, endRun_scope firstLumi lastLumi (fst itHH) (snd itHH))) scopes)). exact H1.
  - apply (sm_forall_map (fun _ scopes => map (fun itHH =>
      (fst itHH, endRun_scope firstLumi lastLumi (fst itHH) (snd itHH))) scopes)
      scopes_sorted); [|exact H2].
    intros v scopes Hsc. unfold scopes_sorted in *.
    apply andb_true_iff in Hsc. destruct Hsc as [Hs1 Hs2]. apply andb_true_iff. split.
    + rewrite (sm_sorted_map (endRun_scope firstLumi lastLumi)). exact Hs1.
    + apply (sm_forall_map (endRun_scope firstLumi lastLumi) sm_sorted); [|exact Hs2].
      intros s names Hn. unfold endRun_scope. destruct (negb (s =? "run")); [|exact Hn].
      rewrite (sm_sorted_map (fun n x => option_map (set_bounds (scan_scope names)
                                                       firstLumi lastLumi n) x)).
      exact Hn.
Qed.

(** ** The order of closing *)

(** Sorting forgets the order the blocks were closed in. *)
#[export] Instance sort_lumis_proper : Proper (@Permutation Z ==> eq) sort_lumis.
Proof.
  intros l l' E.
  apply (StronglySorted_unique Z.le); [apply sort_lumis_sorted ..|].
  rewrite !sort_lumis_Permutation. exact E.
Qed.

Section Order.
Context `{BeamFitterOps} `{PVFitterOps}.

(** C28. The order in which the blocks were closed is forgotten at the end of
    the run: two states with the same histograms whose recorded blocks are
    a permutation of each other end the run with the same histograms and
    the same, sorted, blocks. *)
Theorem dqmEndRun_order_independent m m' :
  histosMap_ m = histosMap_ m' ->
  Permutation (processedLumis_ m) (processedLumis_ m') ->
  histosMap_ (dqmEndRun m) = histosMap_ (dqmEndRun m')
  /\ processedLumis_ (dqmEndRun m) = processedLumis_ (dqmEndRun m').
Proof.
  intros Hhm Hperm. unfold dqmEndRun.
  destruct (processedLumis_ m) as [|x l] eqn:E.
  - apply Permutation_nil in Hperm. rewrite Hperm, E. auto.
  - destruct (processedLumis_ m') as [|x' l'] eqn:E';
      [apply Permutation_sym, Permutation_nil in Hperm; discriminate|].
    simpl. rewrite Hhm, (sort_lumis_proper _ _ Hperm). auto.
Qed.

End Order.
