(* ===== verification/Names.v ===== *)
(** * Names: the category names across the handlers

    The category names are string literals written three times in the
    source: in the constructor, which inserts them into
    [histoByCategoryNames_]; in the chain of comparisons of
    [globalEndLuminosityBlock], whose last branch only logs a name it does
    not recognise; and in the two loops of [dqmEndRun], which log a name
    that is in neither of their two groups.  A name misspelled in one of
    the places would leave a histogram booked and never written, or
    written and never given its display bounds.  Here the three places are
    proved to agree. *)

From S2P Require Export Normalizer.

Local Open Scope string_scope.
Local Open Scope list_scope.

(** The chain of [globalEndLuminosityBlock] has a branch for [cat]: there
    is a block for which the category changes its histogram. *)
Definition acts (cat : string) : Prop :=
  exists lumi beamSpotMap vertexResults rm h,
    cat_effect lumi beamSpotMap vertexResults rm cat h <> h.

(** What of a histogram shows that it was written or filled. *)
Definition touched (bin : Z) (h : Histo) : list double * option double :=
  (h_fills h, h_content h !! bin).

Section Agreement.
Implicit Types (cat scope : string) (p : string * string).

(** A name that no comparison of the chain matches falls through. *)
Lemma acts_named cat :
  acts cat -> In cat (map snd category_inserts).
Proof.
  intros (lumi & beamSpotMap & vertexResults & rm & h & Hne). revert Hne.
  unfold cat_effect.
  repeat (case_name cat;
    [intros _; vm_compute; repeat first [left; reflexivity | right]|]).
  intros Hne. exfalso. apply Hne. reflexivity.
Qed.

(** With all four sources, a database entry and a sampled vertex, every
    inserted name writes bin 5 or fills. *)
Lemma named_acts p : In p category_inserts -> acts (snd p).
Proof.
  intros Hin. exists 5%Z, (beamSpotMap_ Scenario.info), [Scenario.pv_x], Scenario.all_four,
    (book1D EmptyString EmptyString EmptyString 10 0 10).
  intros E. apply (f_equal (touched 5)) in E. revert E.
  repeat (destruct Hin as [<-|Hin]; [vm_compute; discriminate|]). destruct Hin.
Qed.

(** The table after the constructor holds the inserted pairs. *)
Lemma ctor_categories_inserts p :
  In p (ctor_categories false) <-> In p category_inserts.
Proof.
  change (ctor_categories false) with (mm_inserts category_inserts []).
  rewrite mm_inserts_In. split; [intros [Hin|[]]; exact Hin | intros Hin; left; exact Hin].
Qed.

End Agreement.

(** C31. The three places agree.  Every pair the constructor inserts has a
    branch in the chain of [globalEndLuminosityBlock], and every name with
    a branch is inserted; the pairs of a scope other than "run" are the
    names of the two groups of [dqmEndRun], the pairs of the "run" scope
    are in neither group; with per-block saving on, no pair is inserted. *)
Theorem category_names_agree :
  (forall p, In p (ctor_categories false) -> acts (snd p))
  /\ (forall cat, acts cat -> exists scope, In (scope, cat) (ctor_categories false))
  /\ (forall p, In p (ctor_categories false) ->
        (fst p = "run" <-> group_of (snd p) = None))
  /\ ctor_categories true = [].
Proof.
  split; [|split; [|split; [|reflexivity]]].
  - intros p Hin. apply named_acts, (proj1 (ctor_categories_inserts p)), Hin.
  - intros cat Hc. apply acts_named, in_map_iff in Hc. destruct Hc as ([scope c] & <- & Hin).
    exists scope. apply (proj2 (ctor_categories_inserts (scope, c))), Hin.
  - intros p Hin. apply (proj1 (ctor_categories_inserts p)) in Hin.
    repeat (destruct Hin as [<-|Hin]; [vm_compute; split; first [reflexivity | discriminate]|]).
    destruct Hin.
Qed.
