(* ===== verification/Run.v ===== *)
(** * Run: the module as the framework drives it

    The framework books the histograms at the start of a run, opens
    luminosity blocks (several may be open at a time, each with its own
    cache index), passes events, closes blocks and ends the run.  [call]
    dispatches one such transition to the module's handler and [run]
    executes a sequence of them, stopping at the first fault.  The
    invariants of the module are proved over every sequence. *)

From S2P Require Export Series Normalizer.

Local Open Scope string_scope.
Local Open Scope list_scope.

Section Lifecycle.
Context `{BeamFitterOps} `{PVFitterOps}.
Implicit Types (m : Monitor) (index lumi : Z).

(** The transitions. *)
Inductive Call : Type :=
| CallBook
| CallBeginLumi (index : Z) (db : DBLookup)
| CallAnalyze (iEvent : Event)
| CallEndLumi (lumi index : Z)
| CallEndRun.

Definition call (c : Call) (m : Monitor) : Result Monitor :=
  match c with
  | CallBook => inr (bookHistograms m)
  | CallBeginLumi index db => inr (open_lumi index db m)
  | CallAnalyze iEvent => analyze iEvent m
  | CallEndLumi lumi index => globalEndLuminosityBlock lumi index m
  | CallEndRun => inr (dqmEndRun m)
  end.

Fixpoint run (cs : list Call) (m : Monitor) : Result Monitor :=
  match cs with
  | [] => inr m
  | c :: cs' =>
      match call c m with
      | inl f => inl f
      | inr m' => run cs' m'
      end
  end.

(** The blocks a sequence closes, in order. *)
Definition closed_lumis (cs : list Call) : list Z :=
  flat_map (fun c => match c with CallEndLumi lumi _ => [lumi] | _ => [] end) cs.

(** ** What the constructor establishes and every handler keeps *)

Record constructed (m : Monitor) : Prop := mkConstructed {
  c_vars : varNamesV_ m = ctor_varNames;
  c_cats : histoByCategoryNames_ m = ctor_categories (perLSsaving_ m);
  c_sorted : hm_sorted (histosMap_ m) = true
}.

Lemma ctor_constructed ps : constructed (AlcaBeamMonitor ps).
Proof. split; [reflexivity | reflexivity | apply ctor_histosMap_sorted]. Qed.

Lemma globalEndLuminosityBlock_inv lumi index m m' :
  globalEndLuminosityBlock lumi index m = inr m' ->
  exists info0 info bf pvf,
    lumiCache_ m !! index = Some (Some info0)
    /\ run_fitters info0 (theBeamFitter_ m) (thePVFitter_ m) = (info, bf, pvf)
    /\ m' = set_lumiCache (<[index := Some info]> (lumiCache_ m))
              (set_histosMap (endLumi_vars lumi info (histoByCategoryNames_ m)
                                (varNamesV_ m) (histosMap_ m))
                 (set_fitters bf pvf (set_processedLumis (processedLumis_ m ++ [lumi]) m))).
Proof.
  unfold globalEndLuminosityBlock. simpl.
  destruct (lumiCache_ m !! index) as [[info0|]|]; try discriminate.
  destruct (run_fitters _ _ _) as [[info bf] pvf] eqn:E. intros [= <-].
  exists info0, info, bf, pvf. auto.
Qed.

(** What [analyze] leaves alone, and what it does to the fitters. *)
Record analyzed (events : list Event) (m m' : Monitor) : Prop := mkAnalyzed {
  a_vars : varNamesV_ m' = varNamesV_ m;
  a_cats : histoByCategoryNames_ m' = histoByCategoryNames_ m;
  a_save : perLSsaving_ m' = perLSsaving_ m;
  a_histos : histosMap_ m' = histosMap_ m;
  a_lumis : processedLumis_ m' = processedLumis_ m;
  a_bf : theBeamFitter_ m' = fold_left (fun f e => bf_readEvent e f) events (theBeamFitter_ m);
  a_pv : thePVFitter_ m' = fold_left (fun f e => pv_readEvent e f) events (thePVFitter_ m)
}.

Lemma analyze_inv e m m' : analyze e m = inr m' -> analyzed [e] m m'.
Proof.
  unfold analyze. simpl. destruct (lumiCache_ m !! ev_lumiIndex e) as [[info|]|];
    try discriminate.
  destruct (analyze_tracks _ _ _) as [f|[p h]]; [discriminate|]. intros [= <-].
  split; reflexivity.
Qed.

Lemma analyze_all_inv events m m' : analyze_all events m = inr m' -> analyzed events m m'.
Proof.
  revert m. induction events as [|e events IH]; intros m Hrun; simpl in Hrun.
  - injection Hrun as <-. split; reflexivity.
  - destruct (analyze e m) as [f|m1] eqn:E; [discriminate|].
    destruct (analyze_inv e m m1 E), (IH m1 Hrun). simpl in *. split; simpl; congruence.
Qed.

Lemma run_analyze events m : run (map CallAnalyze events) m = analyze_all events m.
Proof.
  revert m. induction events as [|e events IH]; intros m; simpl; [reflexivity|].
  destruct (analyze e m); [reflexivity | apply IH].
Qed.

(** The handler succeeds when the block has a bag. *)
Lemma globalEndLuminosityBlock_ok lumi index m info0 :
  lumiCache_ m !! index = Some (Some info0) ->
  let r := run_fitters info0 (theBeamFitter_ m) (thePVFitter_ m) in
  globalEndLuminosityBlock lumi index m
  = inr (set_lumiCache (<[index := Some (fst (fst r))]> (lumiCache_ m))
           (set_histosMap (endLumi_vars lumi (fst (fst r)) (histoByCategoryNames_ m)
                             (varNamesV_ m) (histosMap_ m))
              (set_fitters (snd (fst r)) (snd r)
                 (set_processedLumis (processedLumis_ m ++ [lumi]) m)))).
Proof.
  intros Hc. unfold globalEndLuminosityBlock. simpl. rewrite Hc.
  destruct (run_fitters _ _ _) as [[info bf] pvf]. reflexivity.
Qed.

Lemma dqmEndRun_sorted m : hm_sorted (histosMap_ m) = true ->
  hm_sorted (histosMap_ (dqmEndRun m)) = true.
Proof.
  intros Hs. unfold dqmEndRun. destruct (processedLumis_ m); [exact Hs|].
  apply endRun_histosMap_sorted, Hs.
Qed.

Lemma call_constructed c m m' : constructed m -> call c m = inr m' -> constructed m'.
Proof.
  intros [Hv Hc Hs] Hcall. destruct c; simpl in Hcall.
  - injection Hcall as <-. split; [exact Hv | exact Hc | apply book_histosMap_sorted, Hs].
  - injection Hcall as <-. split; assumption.
  - apply analyze_inv in Hcall. destruct Hcall. split; congruence.
  - apply globalEndLuminosityBlock_inv in Hcall.
    destruct Hcall as (info0 & info & bf & pvf & _ & _ & ->).
    split; [exact Hv | exact Hc | apply endLumi_vars_sorted, Hs].
  - injection Hcall as <-. split; [| | apply dqmEndRun_sorted, Hs];
      unfold dqmEndRun; destruct (processedLumis_ m); assumption.
Qed.

Lemma run_app cs1 cs2 m :
  run (cs1 ++ cs2) m = match run cs1 m with inl f => inl f | inr m' => run cs2 m' end.
Proof.
  revert m. induction cs1 as [|c cs1 IH]; intros m; simpl; [reflexivity|].
  destruct (call c m); [reflexivity | apply IH].
Qed.

(** An invariant of every call is an invariant of every sequence. *)
Lemma run_invariant (P : Monitor -> Prop) cs m m' :
  (forall c m1 m2, P m1 -> call c m1 = inr m2 -> P m2) ->
  P m -> run cs m = inr m' -> P m'.
Proof.
  intros Hstep. revert m. induction cs as [|c cs IH]; intros m Hm Hrun; simpl in Hrun.
  - injection Hrun as <-. exact Hm.
  - destruct (call c m) as [f|m1] eqn:E; [discriminate|].
    apply (IH m1); [exact (Hstep c m m1 Hm E) | exact Hrun].
Qed.

(** The parts of the state after the handler. *)
Lemma globalEndLuminosityBlock_parts lumi index m info0 :
  lumiCache_ m !! index = Some (Some info0) ->
  exists m2 info bf pvf,
    globalEndLuminosityBlock lumi index m = inr m2
    /\ run_fitters info0 (theBeamFitter_ m) (thePVFitter_ m) = (info, bf, pvf)
    /\ lumiCache_ m2 !! index = Some (Some info)
    /\ theBeamFitter_ m2 = bf /\ thePVFitter_ m2 = pvf
    /\ processedLumis_ m2 = processedLumis_ m ++ [lumi]
    /\ histosMap_ m2 = endLumi_vars lumi info (histoByCategoryNames_ m) (varNamesV_ m)
                         (histosMap_ m).
Proof.
  intros Hc. rewrite (globalEndLuminosityBlock_ok lumi index m info0 Hc).
  destruct (run_fitters _ _ _) as [[info bf] pvf]. simpl.
  eexists _, info, bf, pvf. split; [reflexivity|]. simpl. rewrite lookup_insert_eq. auto 10.
Qed.

Lemma call_processedLumis c m m' :
  call c m = inr m' ->
  Permutation (processedLumis_ m') (processedLumis_ m ++ closed_lumis [c]).
Proof.
  intros Hcall. destruct c; simpl in *; rewrite ?app_nil_r.
  - injection Hcall as <-. reflexivity.
  - injection Hcall as <-. reflexivity.
  - apply analyze_inv in Hcall. destruct Hcall. rewrite a_lumis0. reflexivity.
  - apply globalEndLuminosityBlock_inv in Hcall.
    destruct Hcall as (info0 & info & bf & pvf & _ & _ & ->). reflexivity.
  - injection Hcall as <-. unfold dqmEndRun.
    destruct (processedLumis_ m) eqn:E; [rewrite E; reflexivity|].
    apply sort_lumis_Permutation.
Qed.

(** C27. The blocks the module has recorded are exactly the blocks that were
    closed, each as often as it was closed; their order is that of closing
    until the run ends, which sorts them. *)
Theorem run_processedLumis cs m m' :
  run cs m = inr m' ->
  Permutation (processedLumis_ m') (processedLumis_ m ++ closed_lumis cs).
Proof.
  revert m. induction cs as [|c cs IH]; intros m Hrun; simpl in Hrun.
  - injection Hrun as <-. simpl. rewrite app_nil_r. reflexivity.
  - destruct (call c m) as [f|m1] eqn:E; [discriminate|].
    rewrite (IH m1 Hrun), (call_processedLumis c m m1 E).
    assert (Hc : closed_lumis (c :: cs) = closed_lumis [c] ++ closed_lumis cs)
      by (unfold closed_lumis; simpl; rewrite app_nil_r; reflexivity).
    rewrite Hc, app_assoc. reflexivity.
Qed.

(** The blocks recorded after a sequence: those recorded before and those
    the sequence closed. *)
Lemma run_recorded cs m m' x :
  run cs m = inr m' ->
  In x (processedLumis_ m') <-> In x (processedLumis_ m) \/ In x (closed_lumis cs).
Proof.
  revert m. induction cs as [|c cs IH]; intros m Hrun; simpl in Hrun.
  - injection Hrun as <-. simpl. tauto.
  - destruct (call c m) as [f|m1] eqn:E; [discriminate|].
    pose proof (call_processedLumis c m m1 E) as Hp.
    assert (Hc : closed_lumis (c :: cs) = closed_lumis [c] ++ closed_lumis cs)
      by (unfold closed_lumis; simpl; rewrite app_nil_r; reflexivity).
    assert (Hx : In x (processedLumis_ m1)
                 <-> In x (processedLumis_ m) \/ In x (closed_lumis [c])).
    { rewrite <- in_app_iff.
      split; [apply (Permutation_in _ Hp) | apply (Permutation_in _ (Permutation_sym Hp))]. }
    rewrite (IH m1 Hrun), Hc, in_app_iff. tauto.
Qed.

(** C12. The recorded blocks outlive the run: a sequence that goes through
    several runs ([CallEndRun], then [CallBook] again) never empties
    [processedLumis_], so at the end of a later run the x axis of a booked
    series spans every block closed since the module was constructed. *)
Theorem endRun_axis_spans_every_run cs m m' v s n h :
  processedLumis_ m = [] -> run cs m = inr m' -> closed_lumis cs <> [] ->
  s <> "run" -> hm_find v s n (histosMap_ m') = Some (Some h) ->
  exists h' firstLumi lastLumi,
    hm_find v s n (histosMap_ (dqmEndRun m')) = Some (Some h')
    /\ h_range h' = Some ((of_int firstLumi - 0.5)%float, (of_int lastLumi + 0.5)%float)
    /\ In firstLumi (closed_lumis cs) /\ In lastLumi (closed_lumis cs)
    /\ forall lumi, In lumi (closed_lumis cs) -> (firstLumi <= lumi <= lastLumi)%Z.
Proof.
  intros Hm Hrun Hlumi Hs Hh.
  assert (Hrec : forall x, In x (processedLumis_ m') <-> In x (closed_lumis cs)).
  { intros x. rewrite (run_recorded cs m m' x Hrun), Hm. simpl. tauto. }
  assert (Hne : processedLumis_ m' <> []).
  { intros E. destruct (closed_lumis cs) as [|x l]; [contradiction|].
    specialize (Hrec x). rewrite E in Hrec. simpl in Hrec. tauto. }
  destruct (dqmEndRun_entry m' Hne v s n h Hs Hh) as (f & la & -> & Hf & Hla & Hall).
  exists (set_bounds (scan_scope (hm_names v s (histosMap_ m'))) f la n h), f, la.
  split; [reflexivity|]. split; [apply set_bounds_range|].
  split; [apply Hrec, Hf|]. split; [apply Hrec, Hla|].
  intros lumi Hin. apply Hall, Hrec, Hin.
Qed.

End Lifecycle.

(** ** One block from its opening to its closing *)

Section Block.
Context `{BeamFitterOps} `{PVFitterOps}.
Variables (m0 : Monitor) (index lumi : Z) (spotDB : BeamSpotObjects)
  (events : list Event) (var : string).
Hypotheses (Hm0 : constructed m0) (Hsave : perLSsaving_ m0 = false)
  (Htracks : track_histos_booked m0 = true)
  (Hopen : lumis_open events (open_lumi index (DBValid spotDB) m0))
  (Hvar : In var ctor_varNames).

(** What the payload says of a variable: its value and its error, the
    square root of the variance on the diagonal of the covariance matrix
    (both widths share entry (6, 6)). *)
Definition payload_value (spotDB : BeamSpotObjects) : option (double * double) :=
  let c := bso_covariance spotDB in
  if var =? "x" then Some (bso_x spotDB, sqrt (c 0 0)%nat)
  else if var =? "y" then Some (bso_y spotDB, sqrt (c 1 1)%nat)
  else if var =? "z" then Some (bso_z spotDB, sqrt (c 2 2)%nat)
  else if var =? "sigmaX" then Some (bso_beamWidthX spotDB, sqrt (c 6 6)%nat)
  else if var =? "sigmaY" then Some (bso_beamWidthY spotDB, sqrt (c 6 6)%nat)
  else if var =? "sigmaZ" then Some (bso_sigmaZ spotDB, sqrt (c 3 3)%nat)
  else None.

Lemma project_db_beamspot : project var (db_beamspot spotDB) = payload_value spotDB.
Proof.
  unfold project, payload_value, db_beamspot.
  destruct (bso_beamType spotDB =? 2)%Z; repeat break_if; reflexivity.
Qed.

(** Open the block with a database payload, pass the events, close it. *)
Definition block_calls : list Call :=
  CallBeginLumi index (DBValid spotDB) :: map CallAnalyze events ++ [CallEndLumi lumi index].

(** The vertex fitter when the block closes: it has read every event. *)
Definition pvf_end : PVFitter := fold_left (fun f e => pv_readEvent e f) events (thePVFitter_ m0).

(** The bag when the block closes, before the fits. *)
Definition bag_end : BeamSpotInfo :=
  sample_events index events
    (set_beamSpotMap (<["DB" := db_beamspot spotDB]> ∅) BeamSpotInfo_empty).

(** The sequence runs without fault, up to the closing handler. *)
Lemma block_run :
  exists m1, analyze_all events (open_lumi index (DBValid spotDB) m0) = inr m1
    /\ run block_calls m0 = globalEndLuminosityBlock lumi index m1
    /\ analyzed events m0 m1
    /\ lumiCache_ m1 !! index = Some (Some bag_end).
Proof.
  destruct (analyze_all_total events (open_lumi index (DBValid spotDB) m0) Htracks Hopen)
    as (m1 & Hm1).
  exists m1. split; [exact Hm1|]. split; [|split].
  - unfold block_calls. simpl. rewrite run_app, run_analyze, Hm1. simpl.
    destruct (globalEndLuminosityBlock lumi index m1); reflexivity.
  - destruct (analyze_all_inv events _ m1 Hm1). split; assumption.
  - rewrite (analyze_all_cache events _ m1 index Hm1). unfold open_lumi. simpl.
    rewrite lookup_insert_eq. reflexivity.
Qed.

(** The database value the closing handler works with. *)
Lemma block_source_DB m1 pb :
  analyzed events m0 m1 ->
  bso_beamType spotDB = 2%Z -> project var (db_beamspot spotDB) = Some pb ->
  source_value (fst (fst (run_fitters bag_end (theBeamFitter_ m1) (thePVFitter_ m1))))
    var "DB" = Some pb.
Proof.
  intros _ Hty Hpb. unfold source_value.
  rewrite (proj2 (run_fitters_bag bag_end _ _ "DB")). simpl.
  unfold bag_end. rewrite sample_events_DB. simpl. rewrite lookup_insert_eq.
  unfold tracker_value. rewrite db_beamspot_type, Hty. exact Hpb.
Qed.

(** The fitted value the closing handler works with. *)
Lemma block_source_PV m1 pa :
  analyzed events m0 m1 ->
  fst (pv_runFitter pvf_end) = true ->
  type_ (pv_getBeamSpot (snd (pv_runFitter pvf_end))) = Tracker ->
  project var (pv_getBeamSpot (snd (pv_runFitter pvf_end))) = Some pa ->
  source_value (fst (fst (run_fitters bag_end (theBeamFitter_ m1) (thePVFitter_ m1))))
    var "PV" = Some pa.
Proof.
  intros Ha Hok Hty Hpa. unfold source_value.
  rewrite (proj2 (run_fitters_bag bag_end _ _ "PV")). simpl.
  rewrite (a_pv _ _ _ Ha). fold pvf_end. rewrite Hok. simpl.
  unfold tracker_value. rewrite Hty. exact Hpa.
Qed.

(** C1. End to end: a block opened with a database payload of type
    Tracker, fed any events, and closed with a successful vertex fit of
    type Tracker, runs without fault, is recorded as processed, and leaves
    in its bin of the PrimaryVertex-DataBase series the fitted value minus
    the database value with the quadrature sum of their errors. *)
Theorem block_PV_minus_DB h pa pb :
  hm_find var "lumi" "Lumibased PrimaryVertex-DataBase fit" (histosMap_ m0) = Some (Some h) ->
  in_bins h lumi = true -> bso_beamType spotDB = 2%Z ->
  fst (pv_runFitter pvf_end) = true ->
  type_ (pv_getBeamSpot (snd (pv_runFitter pvf_end))) = Tracker ->
  project var (pv_getBeamSpot (snd (pv_runFitter pvf_end))) = Some pa ->
  project var (db_beamspot spotDB) = Some pb ->
  exists m2 h',
    run block_calls m0 = inr m2
    /\ processedLumis_ m2 = processedLumis_ m0 ++ [lumi]
    /\ hm_find var "lumi" "Lumibased PrimaryVertex-DataBase fit" (histosMap_ m2)
       = Some (Some h')
    /\ bin_written h h' lumi (fst pa - fst pb)%float (quad_sum (snd pa) (snd pb)).
Proof.
  intros Hh Hbins Hdb Hok Hty Hpa Hpb.
  destruct block_run as (m1 & _ & -> & Ha & Hcache).
  rewrite (globalEndLuminosityBlock_ok lumi index m1 bag_end Hcache).
  eexists. eexists. split; [reflexivity|]. simpl.
  destruct Hm0 as [Hv Hc _]. rewrite (a_lumis _ _ _ Ha), (a_cats _ _ _ Ha), (a_vars _ _ _ Ha),
    (a_histos _ _ _ Ha), Hv, Hc, Hsave.
  split; [reflexivity|]. split; [|apply set_bin_written, Hbins].
  apply (diff_series_entry lumi _ _ _ _ var (ctor_categories_NoDup false) ctor_varNames_NoDup
           Hvar "lumi" "Lumibased PrimaryVertex-DataBase fit" "PV" "DB" h pa pb);
    [by_eval | by_eval | exact Hh | |].
  - apply block_source_PV; assumption.
  - apply block_source_DB; assumption.
Qed.

(** C17. Round trip.  The value and the error of a payload of type Tracker are
    read back from the block's bin of the "Lumibased DataBase" series,
    whatever the events and whatever the fits give. *)
Theorem block_DB_roundtrip h pb :
  hm_find var "lumi" "Lumibased DataBase" (histosMap_ m0) = Some (Some h) ->
  in_bins h lumi = true -> bso_beamType spotDB = 2%Z ->
  payload_value spotDB = Some pb ->
  exists m2 h',
    run block_calls m0 = inr m2
    /\ hm_find var "lumi" "Lumibased DataBase" (histosMap_ m2) = Some (Some h')
    /\ GetBinContent h' lumi = fst pb /\ GetBinError h' lumi = snd pb.
Proof.
  intros Hh Hbins Hdb Hpb.
  destruct block_run as (m1 & _ & -> & Ha & Hcache).
  rewrite (globalEndLuminosityBlock_ok lumi index m1 bag_end Hcache).
  eexists. eexists. split; [reflexivity|]. simpl.
  destruct Hm0 as [Hv Hc _]. rewrite (a_cats _ _ _ Ha), (a_vars _ _ _ Ha),
    (a_histos _ _ _ Ha), Hv, Hc, Hsave.
  split; [|destruct (set_bin_written lumi (fst pb) (snd pb) h Hbins) as (Hv' & He' & _);
            split; [exact Hv' | exact He']].
  apply (value_series_entry lumi _ _ _ _ var (ctor_categories_NoDup false) ctor_varNames_NoDup
           Hvar "lumi" "Lumibased DataBase" "DB" h pb); [by_eval | by_eval | exact Hh |].
  apply block_source_DB; [exact Ha | exact Hdb |]. rewrite project_db_beamspot. exact Hpb.
Qed.

End Block.

(** ** A block without data *)

Section EmptyBlock.
Context `{BeamFitterOps} `{PVFitterOps}.

(** C11. A block that opens without a database entry, receives no event and
    closes with both fits failing runs without fault, is recorded as
    processed, and changes no entry of the container: every series has a
    gap at its bin. *)
Theorem empty_block_leaves_gaps (m0 : Monitor) index lumi :
  fst (bf_runPVandTrkFitter (theBeamFitter_ m0)) = false ->
  fst (pv_runFitter (thePVFitter_ m0)) = false ->
  exists m2,
    run [CallBeginLumi index DBInvalid; CallEndLumi lumi index] m0 = inr m2
    /\ processedLumis_ m2 = processedLumis_ m0 ++ [lumi]
    /\ forall kv ks kn x, hm_find kv ks kn (histosMap_ m0) = Some x ->
                           hm_find kv ks kn (histosMap_ m2) = Some x.
Proof.
  intros Hbf Hpv. simpl.
  assert (Hc : lumiCache_ (open_lumi index DBInvalid m0) !! index
               = Some (Some BeamSpotInfo_empty))
    by (unfold open_lumi; simpl; apply lookup_insert_eq).
  destruct (globalEndLuminosityBlock_parts lumi index _ BeamSpotInfo_empty Hc)
    as (m2 & info & bf & pvf & -> & Hr & _ & _ & _ & Hl & Hh).
  exists m2. split; [reflexivity|]. split; [exact Hl|].
  intros kv ks kn x Hx. rewrite Hh.
  pose proof (run_fitters_failed BeamSpotInfo_empty _ _ Hbf Hpv) as Hinfo.
  simpl in Hr. rewrite Hr in Hinfo. simpl in Hinfo. subst info.
  apply (endLumi_vars_empty lumi []). exact Hx.
Qed.

(** C26. With per-block saving the category table is empty: the container is
    never populated, whatever the framework drives. *)
Theorem perLSsaving_books_nothing name cs m' :
  run cs (AlcaBeamMonitor (mkParameterSet name true)) = inr m' ->
  histosMap_ m' = [] /\ histoByCategoryNames_ m' = [].
Proof.
  intros Hrun.
  apply (run_invariant (fun m => histosMap_ m = [] /\ histoByCategoryNames_ m = [])
           cs (AlcaBeamMonitor (mkParameterSet name true)) m'); [|split; reflexivity|exact Hrun].
  intros c m1 m2 [Hh Hc] Hcall. destruct c; simpl in Hcall.
  - injection Hcall as <-. simpl. rewrite Hh. split; [reflexivity | exact Hc].
  - injection Hcall as <-. split; assumption.
  - apply analyze_inv in Hcall. destruct Hcall. split; congruence.
  - apply globalEndLuminosityBlock_inv in Hcall.
    destruct Hcall as (info0 & info & bf & pvf & _ & _ & ->). simpl.
    rewrite Hh, Hc. split; [|reflexivity].
    unfold endLumi_vars. apply fold_left_invariant; [|reflexivity].
    intros hm var _ ->. reflexivity.
  - injection Hcall as <-. unfold dqmEndRun. destruct (processedLumis_ m1); simpl;
      rewrite ?Hh; split; first [reflexivity | assumption].
Qed.

End EmptyBlock.

(** ** Faults *)

Section Faults.
Context `{BeamFitterOps} `{PVFitterOps}.

(** C34. When reading the conditions throws at the opening of a block, the block
    has a null bag: the first event of the block, or its closing, faults. *)
Theorem throwing_conditions_fault index lumi e m :
  ev_lumiIndex e = index ->
  run [CallBeginLumi index DBThrows; CallAnalyze e] m = inl NullCache
  /\ run [CallBeginLumi index DBThrows; CallEndLumi lumi index] m = inl NullCache.
Proof.
  intros He. unfold run, call, analyze, globalEndLuminosityBlock, open_lumi. simpl.
  rewrite He, !lookup_insert_eq. split; reflexivity.
Qed.

End Faults.

(** ** One fitter for all open blocks *)

Section SharedFitter.
Variables (fit_bf fit_pv : list Event -> option BeamSpot).

#[local] Instance shared_bf : BeamFitterOps := ListBeamFitter fit_bf.
#[local] Instance shared_pv : PVFitterOps := ListPVFitter fit_pv.

(** The events the vertex fitter holds after a run of events. *)
Lemma analyze_all_read events (m m1 : Monitor) :
  analyze_all events m = inr m1 ->
  fst (thePVFitter_ m1) = fst (thePVFitter_ m) ++ events.
Proof.
  intros Hrun. rewrite (a_pv _ _ _ (analyze_all_inv events m m1 Hrun)).
  apply lf_read_all.
Qed.

(** C29. The fit stored for a block when it closes is computed from every event
    read since the last closing, whichever block the events belong to; the
    closing empties the fitter. *)
Theorem closing_fit_reads_all_events events (m m1 : Monitor) lumi index info0 b :
  fst (thePVFitter_ m) = [] ->
  run (map CallAnalyze events) m = inr m1 -> lumiCache_ m1 !! index = Some (Some info0) ->
  fit_pv events = Some b ->
  exists m2 info,
    call (CallEndLumi lumi index) m1 = inr m2
    /\ lumiCache_ m2 !! index = Some (Some info)
    /\ beamSpotMap_ info !! "PV" = Some b
    /\ fst (thePVFitter_ m2) = [].
Proof.
  intros Hempty Hrun Hc Hfit. rewrite run_analyze in Hrun. simpl.
  pose proof (analyze_all_read events m m1 Hrun) as Hread. rewrite Hempty in Hread.
  destruct (globalEndLuminosityBlock_parts lumi index m1 info0 Hc)
    as (m2 & info & bf & pvf & -> & Hr & Hcache & _ & Hpvf & _).
  exists m2, info. split; [reflexivity|]. split; [exact Hcache|]. rewrite Hpvf.
  pose proof (run_fitters_bag info0 (theBeamFitter_ m1) (thePVFitter_ m1) "PV") as [_ Hbag].
  pose proof (run_fitters_reset info0 (theBeamFitter_ m1) (thePVFitter_ m1)) as [_ Hreset].
  rewrite Hr in Hbag, Hreset. simpl in Hbag, Hreset. rewrite Hbag, Hreset.
  unfold lf_run. rewrite Hread. simpl. rewrite Hfit. split; reflexivity.
Qed.

End SharedFitter.
