(* ===== verification/Display.v ===== *)
(** * Display: the recorded data up to the display settings

    The end of a run changes the display settings of the histograms
    (minimum, maximum, axis range) and sorts [processedLumis_]; nothing the
    module records afterwards reads them back.  [same_data] relates two
    histograms with the same booking, bins and entries; it is lifted to
    container entries ([me_equiv]), containers ([hm_equiv]) and module
    states ([mon_equiv], which also forgets the order of
    [processedLumis_]).  The operations on histograms, the end-of-block
    loop and every handler are morphisms for these equivalences, so that
    [dqmEndRun m] may be rewritten to [m] under any sequence of calls. *)

From Stdlib Require Import Morphisms Permutation.
From stdpp Require Import sorting.
From S2P Require Export Run.

Local Open Scope string_scope.
Local Open Scope list_scope.

(** ** Histograms and entries *)

#[export] Instance same_data_equivalence : Equivalence same_data.
Proof.
  unfold same_data. split.
  - intros h. tauto.
  - intros h h' (-> & -> & -> & ->). tauto.
  - intros h1 h2 h3 (E1 & E2 & E3 & E4) (-> & -> & -> & ->). tauto.
Qed.

(** Two container entries: both null, or histograms with the same data. *)
Definition me_equiv : relation ME := lift same_data.

#[export] Instance me_equiv_equivalence : Equivalence me_equiv.
Proof.
  split.
  - intros x. apply lift_refl. reflexivity.
  - intros [h|] [h'|]; simpl; try tauto. apply symmetry.
  - intros x y z. apply lift_trans. intros h1 h2 h3. apply transitivity.
Qed.

(** Two containers: the same keys, with equivalent entries. *)
Definition hm_equiv : relation HistosContainer :=
  fun hm hm' => forall v s n, option_Forall2 me_equiv (hm_find v s n hm) (hm_find v s n hm').

#[export] Instance hm_equiv_equivalence : Equivalence hm_equiv.
Proof.
  split.
  - intros hm v s n. reflexivity.
  - intros hm hm' E v s n. symmetry. apply E.
  - intros hm1 hm2 hm3 E1 E2 v s n. etransitivity; [apply E1 | apply E2].
Qed.

Section HistoMorphisms.
Implicit Types (h : Histo) (bin : Z) (x v e : double).

(** Unfolds the record operations on two histograms with the same data. *)
Ltac same_data_op op :=
  intros [] [] (Hb & Hc & He & Hf); simpl in *; subst; unfold op, same_data, in_bins, GetNbinsX;
  simpl; try break_if; simpl; tauto.

#[export] Instance Fill_proper x : Proper (same_data ==> same_data) (Fill x).
Proof. same_data_op Fill. Qed.

#[export] Instance setBinContent_proper bin v :
  Proper (same_data ==> same_data) (setBinContent bin v).
Proof. same_data_op setBinContent. Qed.

#[export] Instance setBinError_proper bin e :
  Proper (same_data ==> same_data) (setBinError bin e).
Proof. same_data_op setBinError. Qed.

#[export] Instance setAxisTitle_proper title axis :
  Proper (same_data ==> same_data) (setAxisTitle title axis).
Proof. same_data_op setAxisTitle. Qed.

#[export] Instance GetBinContent_proper : Proper (same_data ==> eq ==> eq) GetBinContent.
Proof. intros h h' (_ & E & _) bin _ <-. unfold GetBinContent. rewrite E. reflexivity. Qed.

#[export] Instance GetBinError_proper : Proper (same_data ==> eq ==> eq) GetBinError.
Proof. intros h h' (_ & _ & E & _) bin _ <-. unfold GetBinError. rewrite E. reflexivity. Qed.

(** A loop whose body respects the data respects the data. *)
Lemma fold_left_same_data {A : Type} (f : Histo -> A -> Histo) (l : list A) :
  (forall a, Proper (same_data ==> same_data) (fun h => f h a)) ->
  Proper (same_data ==> same_data) (fold_left f l).
Proof.
  intros Hf. induction l as [|a l IH]; intros h h' E; simpl; [exact E|].
  apply IH, Hf, E.
Qed.

(** Each of the six kinds of category respects the data. *)
Lemma eff_proper (f : Histo -> Histo) :
  (f = (fun h => h)
   \/ (exists g, Proper (same_data ==> same_data) g /\ f = g)) ->
  Proper (same_data ==> same_data) f.
Proof. intros [->|(g & Hg & ->)]; [intros h h' E; exact E | exact Hg]. Qed.

#[export] Instance cat_effect_proper lumi beamSpotMap vertexResults rm cat :
  Proper (same_data ==> same_data) (cat_effect lumi beamSpotMap vertexResults rm cat).
Proof.
  unfold cat_effect, eff_coordinate, eff_fill_diff, eff_fill_vertex_diff, eff_set_value,
    eff_set_diff, eff_set_vertex_diff.
  repeat break_if; repeat break_match; apply eff_proper;
    first [ left; reflexivity | right; eexists; split; [|reflexivity] ];
    first [ apply Fill_proper
          | apply fold_left_same_data; intros a h h' Hd; rewrite Hd; reflexivity
          | intros h h' Hd; rewrite Hd; reflexivity ].
Qed.

(** The display bounds are no data. *)
Lemma set_bounds_same_data ex firstLumi lastLumi name h :
  same_data h (set_bounds ex firstLumi lastLumi name h).
Proof. apply set_bounds_data. Qed.

End HistoMorphisms.

(** ** The end-of-block loop *)

Section LoopMorphisms.
Variables (lumi : Z) (info : BeamSpotInfo) (cats : list (string * string)).
Implicit Types (s : Loc) (hm : HistosContainer) (var : string).

(** Two states of the category loop: the same [resultsMap], equivalent
    containers. *)
Definition loc_equiv : relation Loc :=
  fun s s' => resultsMap s = resultsMap s' /\ hm_equiv (hmap s) (hmap s').

Lemma cat_step_equiv beamSpotMap vertexResults var itM :
  Proper (loc_equiv ==> loc_equiv)
    (fun s => cat_step lumi beamSpotMap vertexResults var s itM).
Proof.
  intros s s' [Hrm Hhm]. split.
  - rewrite !cat_step_rm, Hrm.
    destruct (Hhm var (fst itM) (snd itM)) as [[h|] [h'|] Hxy|];
      try reflexivity; contradiction.
  - intros v sc n. rewrite !cat_step_find, Hrm.
    destruct (key3_eqb _ _ _ _ _ _); [|apply Hhm].
    destruct (Hhm v sc n) as [[h|] [h'|] Hxy|]; try contradiction; constructor;
      first [exact (cat_effect_proper _ _ _ _ _ h h' Hxy) | exact I].
Qed.

Lemma walk_equiv beamSpotMap vertexResults var :
  Proper (loc_equiv ==> loc_equiv)
    (fold_left (cat_step lumi beamSpotMap vertexResults var) cats).
Proof.
  induction cats as [|itM l IH]; intros s s' E; simpl; [exact E|].
  apply IH, cat_step_equiv, E.
Qed.

#[export] Instance endLumi_var_proper :
  Proper (hm_equiv ==> eq ==> hm_equiv) (endLumi_var lumi info cats).
Proof.
  intros hm hm' E var _ <-. rewrite !endLumi_var_fold.
  apply walk_equiv. split; [reflexivity | exact E].
Qed.

#[export] Instance endLumi_vars_proper vars :
  Proper (hm_equiv ==> hm_equiv) (endLumi_vars lumi info cats vars).
Proof.
  unfold endLumi_vars. induction vars as [|var vars IH]; intros hm hm' E; simpl; [exact E|].
  apply IH. rewrite E. reflexivity.
Qed.

End LoopMorphisms.

(** ** Booking and the end of the run *)

#[export] Instance book_entry_proper mn v s n :
  Proper (me_equiv ==> me_equiv) (book_entry mn v s n).
Proof.
  intros x y E. unfold book_entry, book_run, book_lumi.
  repeat break_if; try reflexivity;
    destruct x as [h|], y as [h'|]; try contradiction; try exact I;
    change (same_data h h') in E; unfold title_run, title_lumi, option_map, me_equiv, lift;
    repeat break_if; rewrite E; reflexivity.
Qed.

#[export] Instance book_histosMap_proper mn :
  Proper (hm_equiv ==> hm_equiv) (book_histosMap mn).
Proof.
  intros hm hm' E v s n. rewrite !book_histosMap_find.
  destruct (E v s n) as [x y Hxy|]; constructor. rewrite Hxy. reflexivity.
Qed.

Lemma endRun_histosMap_equiv firstLumi lastLumi hm :
  hm_equiv (endRun_histosMap firstLumi lastLumi hm) hm.
Proof.
  intros v s n. rewrite endRun_histosMap_find.
  destruct (s =? "run"); [reflexivity|].
  destruct (hm_find v s n hm) as [[h|]|]; constructor; [|exact I].
  symmetry. apply set_bounds_same_data.
Qed.

(** ** Module states *)

Section States.
Context `{BeamFitterOps} `{PVFitterOps}.
Implicit Types (m : Monitor) (c : Call) (cs : list Call).

(** Two states of the module: everything equal but the display settings
    of the histograms and the order of the recorded blocks. *)
Record mon_equiv (m m' : Monitor) : Prop := mkMonEquiv {
  e_name : monitorName_ m = monitorName_ m';
  e_save : perLSsaving_ m = perLSsaving_ m';
  e_number : numberOfValuesToSave_ m = numberOfValuesToSave_ m';
  e_bf : theBeamFitter_ m = theBeamFitter_ m';
  e_pv : thePVFitter_ m = thePVFitter_ m';
  e_lumis : Permutation (processedLumis_ m) (processedLumis_ m');
  e_vars : varNamesV_ m = varNamesV_ m';
  e_cats : histoByCategoryNames_ m = histoByCategoryNames_ m';
  e_histos : hm_equiv (histosMap_ m) (histosMap_ m');
  e_profile : hD0Phi0_ m = hD0Phi0_ m';
  e_dxy : hDxyBS_ m = hDxyBS_ m';
  e_cache : lumiCache_ m = lumiCache_ m'
}.

#[export] Instance mon_equiv_equivalence : Equivalence mon_equiv.
Proof.
  split.
  - intros m. split; reflexivity.
  - intros m m' []. split; symmetry; assumption.
  - intros m1 m2 m3 [] []. split; etransitivity; eassumption.
Qed.

(** The outcome of a handler: the same fault, or equivalent states. *)
Definition res_equiv : relation (Result Monitor) := sum_relation eq mon_equiv.

#[export] Instance res_equiv_equivalence : Equivalence res_equiv.
Proof. split; apply _. Qed.

(** Takes two equivalent states apart into their members. *)
Ltac members E :=
  match type of E with
  | mon_equiv ?m ?m' => destruct m, m', E; simpl in *; subst
  end.

Lemma dqmEndRun_equiv m : mon_equiv (dqmEndRun m) m.
Proof.
  unfold dqmEndRun. destruct (processedLumis_ m) as [|x l] eqn:E; [reflexivity|].
  split; try reflexivity; simpl.
  - rewrite E. apply sort_lumis_Permutation.
  - apply endRun_histosMap_equiv.
Qed.

Lemma bookHistograms_equiv : Proper (mon_equiv ==> mon_equiv) bookHistograms.
Proof.
  intros m m' E. members E. split; simpl; try reflexivity; try assumption.
  apply book_histosMap_proper. assumption.
Qed.

Lemma open_lumi_equiv index db : Proper (mon_equiv ==> mon_equiv) (open_lumi index db).
Proof. intros m m' E. members E. split; simpl; try reflexivity; assumption. Qed.

Lemma analyze_equiv iEvent : Proper (mon_equiv ==> res_equiv) (analyze iEvent).
Proof.
  intros m m' E. members E. unfold analyze, analyze_tracks. simpl.
  repeat break_match; simplify_eq; constructor; try reflexivity.
  all: split; simpl; try reflexivity; assumption.
Qed.

Lemma globalEndLuminosityBlock_equiv lumi index :
  Proper (mon_equiv ==> res_equiv) (globalEndLuminosityBlock lumi index).
Proof.
  intros m m' E. members E. unfold globalEndLuminosityBlock. simpl.
  repeat break_match; simplify_eq; constructor; try reflexivity.
  split; simpl; try reflexivity.
  - apply Permutation_app_tail. assumption.
  - apply endLumi_vars_proper. assumption.
Qed.

#[export] Instance call_proper c : Proper (mon_equiv ==> res_equiv) (call c).
Proof.
  intros m m' E. destruct c; simpl.
  - constructor. apply bookHistograms_equiv, E.
  - constructor. apply open_lumi_equiv, E.
  - apply analyze_equiv, E.
  - apply globalEndLuminosityBlock_equiv, E.
  - constructor. rewrite !dqmEndRun_equiv. exact E.
Qed.

#[export] Instance run_proper cs : Proper (mon_equiv ==> res_equiv) (run cs).
Proof.
  induction cs as [|c cs IH]; intros m m' E; simpl.
  - constructor. exact E.
  - destruct (call_proper c m m' E) as [f f' <-|m1 m1' E1]; [reflexivity|].
    apply IH, E1.
Qed.

(** C10. The display settings are never read back.  Whatever the module is
    driven through after the end of a run, it faults or succeeds as it
    would have without that end of run, and records the same data. *)
Theorem display_bounds_unobservable cs m :
  res_equiv (run cs (dqmEndRun m)) (run cs m).
Proof. rewrite dqmEndRun_equiv. reflexivity. Qed.

End States.
