(* ===== verification/Recorded.v ===== *)
(** * Recorded: what the series of a reachable state hold

    The handlers keep the bins of the histograms and the list
    [processedLumis_] in step: [globalEndLuminosityBlock] appends the
    block's number and writes at most the block's bin, [bookHistograms]
    books empty histograms, and no other handler writes a bin.  So in every
    state the module reaches from its constructor, a series (a histogram
    named after one of the nine categories [dqmEndRun] scans) has never
    been given an entry through [Fill], and every populated bin of it is
    the number of a block that was closed.  The end of the run therefore
    sets an axis range that leaves no recorded bin outside. *)

From S2P Require Export Display.

Local Open Scope string_scope.
Local Open Scope list_scope.

(** ** One histogram *)

(** When [name] is the name of a series (one of the nine categories of
    the two groups of [dqmEndRun]), [h] has no entry made through [Fill]
    and every populated bin of [h] is one of [lumis].  Nothing is said of
    the distributions, whose bins [Fill] counts in. *)
Definition entry_ok (lumis : list Z) (name : string) (h : Histo) : Prop :=
  group_of name <> None ->
  h_fills h = [] /\ forall bin, populated h bin = true -> In bin lumis.

(** What closing the block numbered [lumi] may do to the entry [name]. *)
Definition closes (lumi : Z) (name : string) (h h' : Histo) : Prop :=
  (forall bin, bin <> lumi -> populated h' bin = populated h bin)
  /\ (group_of name <> None -> h_fills h' = h_fills h).

Section Entries.
Implicit Types (h : Histo) (bin lumi : Z) (name cat : string).

#[export] Instance populated_proper : Proper (same_data ==> eq ==> eq) populated.
Proof. intros h h' E bin _ <-. unfold populated. rewrite E. reflexivity. Qed.

Lemma entry_ok_same lumis lumis' name h h' :
  Permutation lumis lumis' -> same_data h h' -> entry_ok lumis name h ->
  entry_ok lumis' name h'.
Proof.
  intros El Eh Hok Hg. destruct (Hok Hg) as [Hf Hp]. split.
  - destruct Eh as (_ & _ & _ & ->). exact Hf.
  - intros bin Hb. apply (Permutation_in _ El), Hp.
    rewrite (populated_proper h h' Eh bin bin eq_refl). exact Hb.
Qed.

#[export] Instance entry_ok_proper :
  Proper (@Permutation Z ==> eq ==> same_data ==> iff) entry_ok.
Proof.
  intros l l' El name _ <- h h' Eh.
  split; apply entry_ok_same; first [assumption | symmetry; assumption].
Qed.

Lemma populated_empty h bin :
  h_content h = ∅ -> h_error h = ∅ -> populated h bin = false.
Proof.
  intros Hc He. unfold populated, GetBinContent, GetBinError.
  rewrite Hc, He, !lookup_empty. reflexivity.
Qed.

Lemma closes_refl lumi name h : closes lumi name h h.
Proof. split; auto. Qed.

Lemma closes_trans lumi name h1 h2 h3 :
  closes lumi name h1 h2 -> closes lumi name h2 h3 -> closes lumi name h1 h3.
Proof.
  intros [Hp1 Hf1] [Hp2 Hf2]. split.
  - intros bin Hne. rewrite Hp2, Hp1 by exact Hne. reflexivity.
  - intros Hg. rewrite Hf2, Hf1 by exact Hg. reflexivity.
Qed.

Lemma eff_set_value_fills lumi rm a h : h_fills (eff_set_value lumi rm a h) = h_fills h.
Proof.
  unfold eff_set_value. destruct (rm !! a); [|reflexivity].
  rewrite h_fills_setBinError. apply h_fills_setBinContent.
Qed.

Lemma eff_set_diff_fills lumi rm a b h : h_fills (eff_set_diff lumi rm a b h) = h_fills h.
Proof.
  unfold eff_set_diff. destruct (rm !! a), (rm !! b); try reflexivity.
  rewrite h_fills_setBinError. apply h_fills_setBinContent.
Qed.

Lemma eff_set_vertex_diff_fills lumi vertexResults rm b h :
  h_fills (eff_set_vertex_diff lumi vertexResults rm b h) = h_fills h.
Proof.
  unfold eff_set_vertex_diff. destruct (rm !! b); [|reflexivity].
  apply (fold_left_invariant (fun h' => h_fills h' = h_fills h)); [|reflexivity].
  intros h' itPV _ <-. rewrite h_fills_setBinError. apply h_fills_setBinContent.
Qed.

(** The categories of the series write the bin and leave the entries. *)
Lemma cat_effect_series_fills lumi beamSpotMap vertexResults rm cat h :
  group_of cat <> None ->
  h_fills (cat_effect lumi beamSpotMap vertexResults rm cat h) = h_fills h.
Proof.
  intros Hg. unfold cat_effect.
  repeat (case_name cat;
    [first [ exfalso; apply Hg; reflexivity
           | apply eff_set_value_fills | apply eff_set_diff_fills
           | apply eff_set_vertex_diff_fills ]|]).
  reflexivity.
Qed.

Lemma closes_effect lumi beamSpotMap vertexResults rm cat h :
  closes lumi cat h (cat_effect lumi beamSpotMap vertexResults rm cat h).
Proof.
  split; [|apply cat_effect_series_fills].
  intros bin Hne. unfold populated.
  destruct (sb_bins _ _ _ (same_but_effect lumi beamSpotMap vertexResults rm cat h) bin Hne)
    as [-> ->].
  reflexivity.
Qed.

(** A block that is closed keeps the entry in step with the list. *)
Lemma entry_ok_closes lumis lumi name h h' :
  entry_ok lumis name h -> closes lumi name h h' -> entry_ok (lumis ++ [lumi]) name h'.
Proof.
  intros Hok [Hp' Hf'] Hg. destruct (Hok Hg) as [Hf Hp]. split.
  - rewrite Hf' by exact Hg. exact Hf.
  - intros bin Hb. apply in_app_iff. destruct (Z.eq_dec bin lumi) as [->|Hne].
    + right. left. reflexivity.
    + left. apply Hp. rewrite <- Hp' by exact Hne. exact Hb.
Qed.

(** A booking is empty, or it is the histogram that was there. *)
Lemma book_entry_ok mn v s name old h lumis :
  book_entry mn v s name old = Some h ->
  (forall h0, old = Some h0 -> entry_ok lumis name h0) -> entry_ok lumis name h.
Proof.
  intros Hb Hold.
  assert (Hcases : (h_content h = ∅ /\ h_error h = ∅ /\ h_fills h = [])
                   \/ exists h0, old = Some h0 /\ same_data h0 h).
  { revert Hb. unfold book_entry, book_run, book_lumi, title_run, title_lumi.
    repeat break_if; destruct old as [h0|]; simpl; try discriminate; intros [= <-];
      first [ left; repeat split; reflexivity
            | right; exists h0; split; [reflexivity | repeat split; reflexivity] ]. }
  destruct Hcases as [(Hc & He & Hf)|(h0 & -> & Eh)].
  - intros _. split; [exact Hf|]. intros bin Hp.
    rewrite (populated_empty h bin Hc He) in Hp. discriminate.
  - rewrite <- Eh. apply Hold. reflexivity.
Qed.

End Entries.

(** ** The states the module reaches *)

Section Reach.
Context `{BeamFitterOps} `{PVFitterOps}.
Implicit Types (m : Monitor) (c : Call) (cs : list Call) (v s n : string) (h : Histo).

(** Every histogram of the container is in step with [processedLumis_]. *)
Definition recorded (m : Monitor) : Prop :=
  forall v s n h,
    hm_find v s n (histosMap_ m) = Some (Some h) -> entry_ok (processedLumis_ m) n h.

(** States with the same data are in step together. *)
#[export] Instance recorded_proper : Proper (mon_equiv ==> iff) recorded.
Proof.
  assert (Himpl : forall m m', mon_equiv m m' -> recorded m -> recorded m').
  { intros m m' E Hm v s n h' Hh'.
    pose proof (e_histos _ _ E v s n) as Hv. rewrite Hh' in Hv.
    inversion Hv as [[h|] y Hxy Hx|]; subst; [|contradiction].
    apply (entry_ok_same (processedLumis_ m) _ n h h' (e_lumis _ _ E) Hxy).
    apply (Hm v s n). symmetry. assumption. }
  intros m m' E. split; apply Himpl; [exact E | symmetry; exact E].
Qed.

Lemma recorded_ctor ps : recorded (AlcaBeamMonitor ps).
Proof.
  intros v s n h Hh. simpl in Hh. rewrite ctor_histosMap_find in Hh.
  destruct (in_catalog _ _ _ _ _); discriminate.
Qed.

Lemma recorded_book m : recorded m -> recorded (bookHistograms m).
Proof.
  intros Hm v s n h Hh. simpl in Hh. rewrite book_histosMap_find in Hh.
  destruct (hm_find v s n (histosMap_ m)) as [old|] eqn:Hold; [|discriminate].
  simpl in Hh. injection Hh as Hh.
  apply (book_entry_ok _ _ _ _ _ _ _ Hh). intros h0 ->. apply (Hm v s n), Hold.
Qed.

Lemma recorded_endLumi lumi index m m' :
  recorded m -> globalEndLuminosityBlock lumi index m = inr m' -> recorded m'.
Proof.
  intros Hm Hcall. apply globalEndLuminosityBlock_inv in Hcall.
  destruct Hcall as (info0 & info & bf & pvf & _ & _ & ->).
  intros v s n h' Hh'. simpl in Hh'.
  destruct (endLumi_vars_back lumi (closes lumi) (closes_refl lumi) (closes_trans lumi)
              (closes_effect lumi) _ _ _ _ _ _ _ _ Hh') as (h & Hh & Hc).
  apply (entry_ok_closes _ lumi n h h'); [apply (Hm v s n), Hh | exact Hc].
Qed.

(** Every handler keeps the histograms in step with the list. *)
Lemma call_recorded c m m' : recorded m -> call c m = inr m' -> recorded m'.
Proof.
  intros Hm Hcall. destruct c; simpl in Hcall.
  - injection Hcall as <-. apply recorded_book, Hm.
  - injection Hcall as <-. exact Hm.
  - apply analyze_inv in Hcall. intros v s n h.
    rewrite (a_histos _ _ _ Hcall), (a_lumis _ _ _ Hcall). apply Hm.
  - apply (recorded_endLumi lumi index m m' Hm Hcall).
  - injection Hcall as <-. rewrite dqmEndRun_equiv. exact Hm.
Qed.

Lemma run_recorded_state ps cs m :
  run cs (AlcaBeamMonitor ps) = inr m -> recorded m.
Proof.
  apply (run_invariant recorded); [exact call_recorded | apply recorded_ctor].
Qed.

(** C13. In every state the module reaches from its constructor, whatever the
    calls, a series holds no entry made through [Fill], and each of its
    populated bins is the number of a block the calls have closed. *)
Theorem run_bins_are_closed_blocks ps cs m v s n h :
  run cs (AlcaBeamMonitor ps) = inr m ->
  hm_find v s n (histosMap_ m) = Some (Some h) ->
  entry_ok (closed_lumis cs) n h.
Proof.
  intros Hrun Hh Hg. destruct (run_recorded_state ps cs m Hrun v s n h Hh Hg) as [Hf Hp].
  split; [exact Hf|]. intros bin Hb.
  destruct (proj1 (run_recorded cs _ m bin Hrun) (Hp bin Hb)) as [[]|Hc]. exact Hc.
Qed.

(** The x axis of [h'] is restricted to a range of block numbers that
    contains [bin]. *)
Definition axis_covers (h' : Histo) (bin : Z) : Prop :=
  exists firstLumi lastLumi,
    h_range h' = Some ((of_int firstLumi - 0.5)%float, (of_int lastLumi + 0.5)%float)
    /\ (firstLumi <= bin <= lastLumi)%Z.

(** C14. The end of the run leaves no recorded bin outside the axis range: in
    every reachable state, each populated bin of a series outside the
    "run" scope lies between the ends of the range [dqmEndRun] sets. *)
Theorem endRun_axis_covers_bins ps cs m v s n h bin :
  run cs (AlcaBeamMonitor ps) = inr m ->
  s <> "run" -> group_of n <> None ->
  hm_find v s n (histosMap_ m) = Some (Some h) ->
  populated h bin = true ->
  exists h', hm_find v s n (histosMap_ (dqmEndRun m)) = Some (Some h')
             /\ axis_covers h' bin.
Proof.
  intros Hrun Hs Hg Hh Hb.
  assert (Hin : In bin (processedLumis_ m))
    by (apply (run_recorded_state ps cs m Hrun v s n h Hh Hg), Hb).
  assert (Hne : processedLumis_ m <> []) by (intros E; rewrite E in Hin; exact Hin).
  destruct (dqmEndRun_entry m Hne v s n h Hs Hh) as (f & la & -> & _ & _ & Hall).
  eexists. split; [reflexivity|]. exists f, la.
  split; [apply set_bounds_range | apply Hall, Hin].
Qed.

End Reach.
