(* ===== verification/Walkthrough.v ===== *)
(** * Walkthrough: a run of three luminosity blocks, executed

    The module is constructed with the default configuration and driven
    through a run: the histograms are booked, and blocks 5, 6 and 7 are
    each opened with a database payload at x = 0, fed one event with one
    selected vertex, and closed; the vertex fit of a block is the position
    of the first vertex it has read, so the PrimaryVertex-DataBase
    differences of the three blocks are 10, 20 and 30.  Then the run ends.
    The theorems of [Run], [Normalizer], [Recorded] and [Cache] are
    instantiated on this run; every hypothesis is discharged by
    evaluation. *)

From S2P Require Export Recorded.

Local Open Scope string_scope.
Local Open Scope list_scope.

Module Walk.

(** The vertex fit: the first vertex of the first event read since the last
    reset, with error 0.002 in every coordinate. *)
Definition fit_pv (events : list Event) : option BeamSpot :=
  match events with
  | e :: _ =>
      match ev_vertices e with
      | Some (v :: _) => Some (Scenario.spot (vtx_x v) 0.002 Tracker)
      | _ => None
      end
  | [] => None
  end.

(** The track fit never converges in this run. *)
Definition fit_bf (events : list Event) : option BeamSpot := None.

#[local] Instance beam_fitter : BeamFitterOps := ListBeamFitter fit_bf.
#[local] Instance pv_fitter : PVFitterOps := ListPVFitter fit_pv.

Definition ps : ParameterSet := mkParameterSet EmptyString false.

(** The payload of the conditions database: x = 0 with variance 1e-6 on the
    diagonal, type Tracker. *)
Definition payload : BeamSpotObjects :=
  mkBeamSpotObjects 0 0 0 5 0 0 0.003 0.003 0 0 0
    (fun i j => if (i =? j)%nat then 0x1p-20%float else 0%float) 2.

(** An event of the block with cache index [index]: one vertex with twenty
    tracks at [x], no track and no scaler record. *)
Definition event (index : Z) (x : double) : Event :=
  mkEvent index [] (Some [mkVertex false 20 x 0 0 0.003 0.003 0.003]) None.

Definition block (lumi index : Z) (x : double) : list Call :=
  [CallBeginLumi index (DBValid payload); CallAnalyze (event index x); CallEndLumi lumi index].

Definition blocks : list Call := block 5 0 10 ++ block 6 1 20 ++ block 7 2 30.

(** Two runs in one job: the run of blocks 5, 6 and 7, then a run of
    block 1. *)
Definition two_runs : list Call :=
  CallBook :: blocks ++ [CallEndRun; CallBook] ++ block 1 0 40.

Definition started : Monitor := bookHistograms (AlcaBeamMonitor ps).

(** The state a sequence ends in ([started] when it faults). *)
Definition after_calls (cs : list Call) (m : Monitor) : Monitor :=
  match run cs m with inr m' => m' | inl _ => m end.

Definition closed : Monitor := after_calls blocks started.
Definition ended : Monitor := dqmEndRun closed.

Definition series : string := "Lumibased PrimaryVertex-DataBase fit".

(** The histogram of an entry of a state. *)
Definition histo_of (m : Monitor) (v s n : string) : Histo :=
  match hm_find v s n (histosMap_ m) with
  | Some (Some h) => h
  | _ => book1D EmptyString EmptyString EmptyString 0 0 0
  end.

End Walk.

Section RunWitnesses.
Import Walk.

Lemma run_processedLumis_witness :
  Permutation (processedLumis_ ended) (processedLumis_ started ++ [5; 6; 7]%Z).
Proof. apply (run_processedLumis (blocks ++ [CallEndRun]) started ended). by_eval. Defined.

Lemma block_PV_minus_DB_witness :
  exists m2 h',
    run (block_calls 0 5 payload [event 0 10]) started = inr m2
    /\ processedLumis_ m2 = processedLumis_ started ++ [5%Z]
    /\ hm_find "x" "lumi" series (histosMap_ m2) = Some (Some h')
    /\ bin_written (Scenario.booked "x" "lumi" series) h' 5 (10 - 0)%float
         (quad_sum (sqrt (0.002 * 0.002)) (sqrt 0x1p-20)).
Proof.
  assert (H1 : constructed started) by (split; by_eval).
  assert (H2 : perLSsaving_ started = false) by by_eval.
  assert (H3 : track_histos_booked started = true) by by_eval.
  assert (H4 : lumis_open [event 0 10] (open_lumi 0 (DBValid payload) started))
    by (intros e [<-|[]]; eexists; vm_compute; reflexivity).
  assert (H5 : In "x" ctor_varNames) by by_eval.
  apply (block_PV_minus_DB started 0 5 payload [event 0 10] "x" H1 H2 H3 H4 H5
           (Scenario.booked "x" "lumi" series)
           (10, sqrt (0.002 * 0.002))%float (0, sqrt 0x1p-20)%float); by_eval.
Defined.

(** The width along y of the payload, 0.003 with variance 2^-20, is read
    back from bin 5. *)
Lemma block_DB_roundtrip_witness :
  exists m2 h',
    run (block_calls 0 5 payload [event 0 10]) started = inr m2
    /\ hm_find "sigmaY" "lumi" "Lumibased DataBase" (histosMap_ m2) = Some (Some h')
    /\ GetBinContent h' 5 = 0.003%float /\ GetBinError h' 5 = sqrt 0x1p-20.
Proof.
  assert (H1 : constructed started) by (split; by_eval).
  assert (H2 : perLSsaving_ started = false) by by_eval.
  assert (H3 : track_histos_booked started = true) by by_eval.
  assert (H4 : lumis_open [event 0 10] (open_lumi 0 (DBValid payload) started))
    by (intros e [<-|[]]; eexists; vm_compute; reflexivity).
  assert (H5 : In "sigmaY" ctor_varNames) by by_eval.
  apply (block_DB_roundtrip started 0 5 payload [event 0 10] "sigmaY" H1 H2 H3 H4 H5
           (Scenario.booked "sigmaY" "lumi" "Lumibased DataBase")
           (0.003, sqrt 0x1p-20)%float); by_eval.
Defined.

(** A second run of one block, numbered 1, after the run of blocks 5, 6
    and 7: its series are shown from 0.5 to 7.5. *)
Lemma endRun_axis_spans_every_run_witness :
  exists h',
    hm_find "x" "lumi" series (histosMap_ (dqmEndRun (after_calls two_runs (AlcaBeamMonitor ps))))
    = Some (Some h')
    /\ h_range h' = Some ((of_int 1 - 0.5)%float, (of_int 7 + 0.5)%float).
Proof.
  destruct (endRun_axis_spans_every_run two_runs (AlcaBeamMonitor ps)
              (after_calls two_runs (AlcaBeamMonitor ps)) "x" "lumi" series
              (histo_of (after_calls two_runs (AlcaBeamMonitor ps)) "x" "lumi" series))
    as (h' & f & la & Hh & Hr & Hf & Hla & Hall); [by_eval .. |].
  exists h'. split; [exact Hh|].
  pose proof (Hall 1%Z ltac:(by_eval)). pose proof (Hall 7%Z ltac:(by_eval)).
  assert (f = 1%Z) as <- by (vm_compute in Hf; lia).
  assert (la = 7%Z) as <- by (vm_compute in Hla; lia).
  exact Hr.
Defined.

(** The bins 5, 6 and 7 of the series are the blocks the run has closed. *)
Lemma run_bins_are_closed_blocks_witness :
  entry_ok (closed_lumis (CallBook :: blocks)) series (histo_of closed "x" "lumi" series).
Proof.
  apply (run_bins_are_closed_blocks ps (CallBook :: blocks) closed "x" "lumi" series);
    by_eval.
Defined.

(** Bin 6 lies in the range 4.5 to 7.5 the end of the run sets. *)
Lemma endRun_axis_covers_bins_witness :
  exists h', hm_find "x" "lumi" series (histosMap_ (dqmEndRun closed)) = Some (Some h')
             /\ axis_covers h' 6.
Proof.
  apply (endRun_axis_covers_bins ps (CallBook :: blocks) closed "x" "lumi" series
           (histo_of closed "x" "lumi" series) 6); by_eval.
Defined.

End RunWitnesses.

Section NormalizerWitnesses.
Import Walk.

Lemma closed_lumis_recorded : processedLumis_ closed <> [].
Proof. by_eval. Qed.

(** The differences 10, 20 and 30 give the bounds -30 and 70. *)
Lemma dqmEndRun_padded_witness :
  exists h', hm_find "x" "lumi" series (histosMap_ ended) = Some (Some h')
    /\ h_minimum h' = Some (-30)%float /\ h_maximum h' = Some 70%float.
Proof.
  destruct (dqmEndRun_padded closed closed_lumis_recorded "x" "lumi" series
              (histo_of closed "x" "lumi" series) Delta) as (h' & H1 & H2 & H3);
    [by_eval .. |].
  exists h'. split; [exact H1|]. rewrite H2, H3. by_eval.
Defined.

(** The width along z is 5 in every estimate of every block: no spread. *)
Lemma dqmEndRun_fallback_witness :
  exists h', hm_find "sigmaZ" "lumi" "Lumibased DataBase" (histosMap_ ended) = Some (Some h')
    /\ h_minimum h' = Some (0 - 0.01)%float /\ h_maximum h' = Some (5 + 0.01)%float.
Proof.
  destruct (dqmEndRun_fallback closed closed_lumis_recorded "sigmaZ" "lumi"
              "Lumibased DataBase" (histo_of closed "sigmaZ" "lumi" "Lumibased DataBase") Abs)
    as (h' & H1 & H2 & H3); [by_eval .. |].
  exists h'. split; [exact H1|]. rewrite H2, H3. by_eval.
Defined.

Lemma dqmEndRun_extremes_enclose_witness :
  within Abs (scan_scope (hm_names "x" "lumi" (histosMap_ closed)))
    (GetBinContent (histo_of closed "x" "lumi" "Lumibased PrimaryVertex") 6).
Proof.
  apply (dqmEndRun_extremes_enclose closed "x" "lumi" "Lumibased PrimaryVertex"
           (histo_of closed "x" "lumi" "Lumibased PrimaryVertex") Abs 6); by_eval.
Defined.

Lemma dqmEndRun_axis_range_witness :
  exists h' firstLumi lastLumi,
    hm_find "y" "validation" "Lumibased PrimaryVertex-DataBase" (histosMap_ ended)
    = Some (Some h')
    /\ h_range h' = Some ((of_int firstLumi - 0.5)%float, (of_int lastLumi + 0.5)%float)
    /\ In firstLumi (processedLumis_ closed) /\ In lastLumi (processedLumis_ closed)
    /\ forall x, In x (processedLumis_ closed) -> (firstLumi <= x <= lastLumi)%Z.
Proof.
  apply (dqmEndRun_axis_range closed closed_lumis_recorded "y" "validation"
           "Lumibased PrimaryVertex-DataBase"
           (histo_of closed "y" "validation" "Lumibased PrimaryVertex-DataBase")); by_eval.
Defined.

Lemma dqmEndRun_keeps_data_witness :
  exists y, hm_find "x" "run" "Coordinate" (histosMap_ ended) = Some y
    /\ lift same_data (Some (histo_of closed "x" "run" "Coordinate")) y
    /\ ("run" = "run" -> y = Some (histo_of closed "x" "run" "Coordinate")).
Proof.
  apply (dqmEndRun_keeps_data closed closed_lumis_recorded "x" "run" "Coordinate"). by_eval.
Defined.

(** The blocks closed in the order 7, 5, 6 end the run as the blocks
    closed in the order 5, 6, 7. *)
Lemma dqmEndRun_order_independent_witness :
  histosMap_ (dqmEndRun (set_processedLumis [7; 5; 6]%Z closed))
  = histosMap_ (dqmEndRun closed)
  /\ processedLumis_ (dqmEndRun (set_processedLumis [7; 5; 6]%Z closed))
    = processedLumis_ (dqmEndRun closed).
Proof.
  assert (H1 : histosMap_ (set_processedLumis [7; 5; 6]%Z closed) = histosMap_ closed)
    by by_eval.
  assert (H2 : Permutation (processedLumis_ (set_processedLumis [7; 5; 6]%Z closed))
                 (processedLumis_ closed)).
  { vm_compute. apply (Permutation_cons_append [5; 6]%Z 7%Z). }
  exact (dqmEndRun_order_independent _ _ H1 H2).
Defined.

End NormalizerWitnesses.

Section CacheWitnesses.
Import Walk.

(** Blocks with cache indices 0 and 1 are both open; their events arrive
    interleaved. *)
Definition two_open : Monitor :=
  open_lumi 1 (DBValid payload) (open_lumi 0 (DBValid payload) started).

Definition interleaved : list Event := [event 0 10; event 1 20; event 0 30].

Definition analyzed_two : Monitor :=
  match analyze_all interleaved two_open with inr m => m | inl _ => two_open end.

Definition opened_bag : BeamSpotInfo :=
  set_beamSpotMap (<["DB" := db_beamspot payload]> ∅) BeamSpotInfo_empty.

Lemma analyze_all_samples_witness :
  exists info', lumiCache_ analyzed_two !! 0%Z = Some (Some info')
    /\ vertices_ info' = vertices_ opened_bag ++ lumi_samples 0 interleaved
    /\ beamSpotMap_ info' !! "DB" = beamSpotMap_ opened_bag !! "DB".
Proof.
  apply (analyze_all_samples interleaved two_open analyzed_two 0 opened_bag); by_eval.
Defined.

(** An event without scaler record, then two with different records. *)
Definition scaler_event (b : option BeamSpot) : Event := mkEvent 0 [] None b.

Lemma sample_events_SC_first_witness :
  beamSpotMap_ (sample_events 0
                  ([scaler_event None]
                     ++ scaler_event (Some (Scenario.spot 0.011 0.002 Unknown))
                     :: [scaler_event (Some (Scenario.spot 0.5 0.002 Unknown))])
                  opened_bag) !! "SC"
  = Some (scaler_beamspot (Scenario.spot 0.011 0.002 Unknown)).
Proof.
  apply (sample_events_SC_first 0 [scaler_event None]); try by_eval.
  repeat constructor.
Defined.

Lemma throwing_conditions_fault_witness :
  run [CallBeginLumi 0 DBThrows; CallAnalyze (event 0 10)] started = inl NullCache
  /\ run [CallBeginLumi 0 DBThrows; CallEndLumi 5 0] started = inl NullCache.
Proof. apply (throwing_conditions_fault 0 5 (event 0 10) started). reflexivity. Defined.

(** Block 1 is closed while block 0 is open: the fit stored for block 1 is
    at x = 10, the vertex of the event of block 0. *)
Lemma closing_fit_reads_all_events_witness :
  exists m2 info,
    call (CallEndLumi 6 1) analyzed_two = inr m2
    /\ lumiCache_ m2 !! 1%Z = Some (Some info)
    /\ beamSpotMap_ info !! "PV" = Some (Scenario.spot 10 0.002 Tracker)
    /\ fst (thePVFitter_ m2) = [].
Proof.
  destruct (closing_fit_reads_all_events fit_bf fit_pv interleaved two_open analyzed_two
              6 1 (sample_events 1 interleaved opened_bag)
              (Scenario.spot 10 0.002 Tracker)) as (m2 & info & Hm2);
    [by_eval .. |].
  exists m2, info. exact Hm2.
Defined.

Lemma empty_block_leaves_gaps_witness :
  exists m2,
    run [CallBeginLumi 3 DBInvalid; CallEndLumi 8 3] closed = inr m2
    /\ processedLumis_ m2 = processedLumis_ closed ++ [8%Z]
    /\ forall kv ks kn x, hm_find kv ks kn (histosMap_ closed) = Some x ->
                           hm_find kv ks kn (histosMap_ m2) = Some x.
Proof. apply (empty_block_leaves_gaps closed 3 8); by_eval. Defined.

Lemma perLSsaving_books_nothing_witness :
  histosMap_ (after_calls (CallBook :: blocks) (AlcaBeamMonitor (mkParameterSet "DQM" true))) = []
  /\ histoByCategoryNames_
       (after_calls (CallBook :: blocks) (AlcaBeamMonitor (mkParameterSet "DQM" true))) = [].
Proof.
  apply (perLSsaving_books_nothing "DQM" (CallBook :: blocks)). by_eval.
Defined.

End CacheWitnesses.
